(** * TikTokData: a shallow embedding of the collection pipeline

  The development follows [src/Data.py] (the class-based pipeline) and the
  earlier single-file script kept next to it ([get_tiktok_links],
  [process_tiktok_links]).

  Modelling conventions.
  - Python values are the inductive [value]; a Python [dict] is an
    insertion-ordered association list.
  - A pandas [DataFrame] is its ordered column index together with its rows
    in positional order; every frame carries the default positional row
    index, which is what [pd.read_csv] and
    [pd.concat(..., ignore_index=True)] produce.  A cell that a row does not
    define reads as [NaN].
  - The file system is a finite map from paths to files; writing a file
    succeeds, removing or reading an absent file raises, and the operating
    system may refuse to remove a file that is there ([os.remove] then
    raises and the file stays).  The CSV text encoding is abstracted: a file
    written by [to_csv] holds the table itself.
  - Code that can raise lives in a state-and-exception monad; [try_except]
    keeps the state reached when the exception was raised, as Python does.
    Only subclasses of [Exception] are modelled; an exception is identified
    with the string [str(e)].
  - Calls to the outside world made by the pipeline itself ([time.sleep],
    [os.remove], [to_csv], the gspread calls) are recorded in a trace, and so
  is every call of the injected fetcher together with what it answered. *)

From Stdlib Require Import ZArith Ascii DecimalString DecimalZ.
From stdpp Require Import gmap strings list fin_maps.

Open Scope string_scope.

(** ** Python values and built-ins *)

Module Py.

Inductive value : Type :=
| NaN
| VNone
| VBool (b : bool)
| VInt (z : Z)
| VStr (s : string).

#[global] Instance value_eq_dec : EqDecision value.
Proof. solve_decision. Defined.

(** [str(v)] *)
Definition pystr (v : value) : string :=
  match v with
  | NaN => "nan"
  | VNone => "None"
  | VBool true => "True"
  | VBool false => "False"
  | VInt z => NilZero.string_of_int (Z.to_int z)
  | VStr s => s
  end.

(** [str(n)] for a non-negative machine-independent integer, as used by
    the f-strings that build file names. *)
Definition pystr_nat (n : nat) : string := pystr (VInt (Z.of_nat n)).

(** [sub in s] on strings: [sub] occurs in [s] as a contiguous block. *)
Fixpoint str_contains (sub s : string) : bool :=
  String.prefix sub s ||
  match s with
  | EmptyString => false
  | String _ s' => str_contains sub s'
  end.

(** [c] occurs in [s]. *)
Fixpoint has_char (c : Ascii.ascii) (s : string) : bool :=
  match s with
  | EmptyString => false
  | String c' s' => if Ascii.ascii_dec c c' then true else has_char c s'
  end.

(** An exception, identified with its message [str(e)]. *)
Definition exn := string.

Inductive result (A : Type) : Type :=
| Ok (a : A)
| Raise (e : exn).
Arguments Ok {A} a.
Arguments Raise {A} e.

Definition is_ok {A} (r : result A) : bool :=
  match r with Ok _ => true | Raise _ => false end.

Definition rbind {A B} (r : result A) (k : A → result B) : result B :=
  match r with
  | Ok a => k a
  | Raise e => Raise e
  end.

(** [sub in v] on an arbitrary value: for a value that is not a string
    (an [int], [None], ...), Python raises [TypeError]. *)
Definition contains_value (sub : string) (v : value) : result bool :=
  match v with
  | VStr s => Ok (str_contains sub s)
  | _ => Raise "TypeError: argument is not iterable"
  end.

(** Python dictionaries keep insertion order. *)
Definition dict := list (string * value).

Fixpoint dict_get (k : string) (d : dict) : option value :=
  match d with
  | [] => None
  | (k', v) :: d' => if decide (k = k') then Some v else dict_get k d'
  end.

(** [d[k] = v]: overwrite in place, or append a new key at the end. *)
Fixpoint dict_set (k : string) (v : value) (d : dict) : dict :=
  match d with
  | [] => [(k, v)]
  | (k', v') :: d' =>
      if decide (k = k') then (k, v) :: d' else (k', v') :: dict_set k v d'
  end.

Definition dict_keys (d : dict) : list string := d.*1.

(** [range(a, b)] *)
Definition range (a b : nat) : list value :=
  (λ k, VInt (Z.of_nat k)) <$> seq a (b - a).

End Py.
Export Py.

Notation "x <-! r ;; k" := (rbind r (λ x, k))
  (at level 100, r at next level, right associativity, only parsing).

(** ** The fragment of pandas used by the program *)

Module Pandas.

Record DataFrame : Type := mkDF {
  columns : list string;
  rows : list dict
}.

(** [pd.DataFrame()] *)
Definition DataFrame_new : DataFrame := mkDF [] [].

(** [len(df)] *)
Definition len (df : DataFrame) : nat := length (rows df).

(** [df.empty]: some axis has length zero. *)
Definition empty (df : DataFrame) : bool :=
  match columns df, rows df with
  | [], _ => true
  | _, [] => true
  | _, _ => false
  end.

Definition has_column (c : string) (df : DataFrame) : bool :=
  bool_decide (c ∈ columns df).

(** The cell of row [r] under column [c]. *)
Definition cell (r : dict) (c : string) : value := default NaN (dict_get c r).

Definition series (df : DataFrame) (c : string) : list value :=
  (λ r, cell r c) <$> rows df.

(** [df[c]] *)
Definition getitem (df : DataFrame) (c : string) : result (list value) :=
  if has_column c df then Ok (series df c)
  else Raise ("'" ++ c ++ "'").

Definition add_column (c : string) (cols : list string) : list string :=
  if bool_decide (c ∈ cols) then cols else cols ++ [c].

(** [df[c] = v] for a scalar [v] *)
Definition setitem_scalar (df : DataFrame) (c : string) (v : value) : DataFrame :=
  mkDF (add_column c (columns df)) (dict_set c v <$> rows df).

(** A frame created by [pd.DataFrame()] has no row index yet: the first
    list-like assigned to it fixes the index. *)
Definition fresh (df : DataFrame) : bool :=
  match columns df, rows df with
  | [], [] => true
  | _, _ => false
  end.

(** [df[c] = vals] for a list-like without an index (a [range]) *)
Definition setitem_list (df : DataFrame) (c : string) (vals : list value)
  : result DataFrame :=
  if fresh df then Ok (mkDF [c] ((λ v, [(c, v)]) <$> vals))
  else if decide (length vals = len df)
       then Ok (mkDF (add_column c (columns df))
                     (zip_with (λ r v, dict_set c v r) (rows df) vals))
       else Raise "Length of values does not match length of index".

(** [df[c] = s] for a Series [s] with the default index: the assignment
    aligns on the index, positions that [s] lacks become [NaN]. *)
Definition setitem_series (df : DataFrame) (c : string) (s : list value)
  : DataFrame :=
  if fresh df then mkDF [c] ((λ v, [(c, v)]) <$> s)
  else mkDF (add_column c (columns df))
            (imap (λ i r, dict_set c (default NaN (s !! i)) r) (rows df)).

(** [pd.concat([a, b], ignore_index=True)]: the columns of [a], then the
    new columns of [b]; the rows of [a], then the rows of [b]. *)
Definition concat (a b : DataFrame) : DataFrame :=
  mkDF (foldl (λ cols c, add_column c cols) (columns a) (columns b))
       (rows a ++ rows b).

(** [pd.DataFrame(records)] for a list of dictionaries *)
Definition DataFrame_of_records (records : list dict) : DataFrame :=
  mkDF (foldl (λ cols d, foldl (λ cols c, add_column c cols) cols (dict_keys d))
              [] records)
       records.

(** [df.columns.tolist()] and [df.values.tolist()] *)
Definition columns_tolist (df : DataFrame) : list value := VStr <$> columns df.
Definition values_tolist (df : DataFrame) : list (list value) :=
  (λ r, cell r <$> columns df) <$> rows df.

End Pandas.
Export Pandas.

(** ** The outside world *)

Module Env.

(** A file holds a table written by [to_csv] (or by the scraper), or text
    that [pd.read_csv] cannot parse as a table (empty, or with rows of
    uneven width). *)
Inductive file : Type :=
| CsvFile (df : DataFrame)
| TextFile (s : string).

(** The remote spreadsheet service as the program reaches it through gspread.
    Every call may fail; what the service does is left open. *)
Class Gspread : Type := {
  Remote : Type;
  (** [ServiceAccountCredentials.from_json_keyfile_name] and
      [gspread.authorize] *)
  gs_authorize : Remote → Remote * result unit;
  (** [client.open(title).worksheet(tab).col_values(col)] *)
  gs_col_values : string → string → nat → Remote → Remote * result (list value);
  (** [client.create(title)], returning the [id] of the new spreadsheet *)
  gs_create : string → Remote → Remote * result string;
  (** [client.insert_permission(id, None, perm_type, role)] *)
  gs_insert_permission : string → string → string → Remote → Remote * result unit;
  (** [spreadsheet.get_worksheet(n)] *)
  gs_get_worksheet : string → nat → Remote → Remote * result unit;
  (** [worksheet.update(cell, values)] on the sheet of spreadsheet [id] *)
  gs_update : string → string → list (list value) → Remote → Remote * result unit
}.

(** The scraping dependency: [pyk.save_tiktok(link, True, path)] may write
    files and may raise. *)
Class Pyktok : Type := {
  save_tiktok : value → bool → string → gmap string file → gmap string file * result unit
}.

(** The operating system at [os.remove]: it may refuse to remove a file
    that is there (on Windows a file that a process still holds open,
    anywhere a path that is a directory), and [os.remove] then raises
    [OSError] with the given message.  Whether and when it does is left
    open; the decision may depend on the path and on the file system. *)
Class Os : Type := {
  remove_refused : string → gmap string file → option exn
}.

(** Calls the pipeline makes to the outside world, in the order made. *)
Inductive event : Type :=
| EvSleep (secs : Z)
| EvFetch (link : value) (path : string) (r : result DataFrame)
| EvRemove (path : string)
| EvToCsv (path : string) (df : DataFrame)
| EvAuthorize
| EvCreate (title : string)
| EvInsertPermission (id perm_type role : string)
| EvGetWorksheet (id : string) (n : nat)
| EvUpdate (id cell : string) (values : list (list value)).

Record World `{Gspread} : Type := mkWorld {
  files : gmap string file;
  remote : Remote;
  trace : list event
}.
Arguments mkWorld {_} _ _ _.

End Env.
Export Env.

(** ** State and exceptions *)

Module Monad.

Definition M (St A : Type) : Type := St → St * result A.

Definition ret {St A} (a : A) : M St A := λ s, (s, Ok a).

Definition raise {St A} (e : exn) : M St A := λ s, (s, Raise e).

Definition bind {St A B} (m : M St A) (k : A → M St B) : M St B :=
  λ s, match m s with
       | (s', Ok a) => k a s'
       | (s', Raise e) => (s', Raise e)
       end.

(** [try: body except Exception as e: handler(e)] *)
Definition try_except {St A} (body : M St A) (handler : exn → M St A) : M St A :=
  λ s, match body s with
       | (s', Ok a) => (s', Ok a)
       | (s', Raise e) => handler e s'
       end.

Definition when {St} (b : bool) (m : M St unit) : M St unit :=
  if b then m else ret tt.

(** [for i, x in enumerate(l): body(i, x)], counting from [i]. *)
Fixpoint for_enumerate {St A} (i : nat) (l : list A) (body : nat → A → M St unit)
  : M St unit :=
  match l with
  | [] => ret tt
  | x :: l' => bind (body i x) (λ _, for_enumerate (S i) l' body)
  end.

End Monad.
Export Monad.

Notation "x <- m ;; k" := (bind m (λ x, k))
  (at level 100, m at next level, right associativity, only parsing).
Notation "m ;;; k" := (bind m (λ _, k))
  (at level 100, right associativity, only parsing).

(** ** Primitive effects on the world *)

Module Sys.
Section Sys.
Context `{Gspread} `{Os}.

Definition emit (ev : event) : M World unit :=
  λ w, (mkWorld (files w) (remote w) (trace w ++ [ev]), Ok tt).

(** Run an operation that only touches the file system. *)
Definition on_files {A} (f : gmap string file → gmap string file * result A)
  : M World A :=
  λ w, let '(fs, r) := f (files w) in (mkWorld fs (remote w) (trace w), r).

(** Run an operation that only touches the remote service. *)
Definition on_remote {A} (f : Remote → Remote * result A) : M World A :=
  λ w, let '(rm, r) := f (remote w) in (mkWorld (files w) rm (trace w), r).

(** [time.sleep(secs)] *)
Definition time_sleep (secs : Z) : M World unit := emit (EvSleep secs).

(** [os.path.exists(path)] *)
Definition os_path_exists (path : string) : M World bool :=
  λ w, (w, Ok (bool_decide (is_Some (files w !! path)))).

(** [os.remove(path)]: the call is recorded when it is made; it raises,
    leaving the file system as it is, when the file is absent or the
    operating system refuses. *)
Definition os_remove (path : string) : M World unit :=
  emit (EvRemove path);;;
  on_files (λ fs, match fs !! path with
                  | Some _ =>
                      match remove_refused path fs with
                      | Some e => (fs, Raise e)
                      | None => (delete path fs, Ok tt)
                      end
                  | None => (fs, Raise ("No such file or directory: '" ++ path ++ "'"))
                  end).

(** [os.path.join(a, b)] for two components (POSIX flavour). *)
Definition os_path_join (a b : string) : string :=
  if String.prefix "/" b then b
  else match a with
       | EmptyString => b
       | _ => if String.prefix "/" (String.rev a) then a ++ b else a ++ "/" ++ b
       end.

(** [pd.read_csv(path)] *)
Definition read_csv (path : string) (fs : gmap string file) : result DataFrame :=
  match fs !! path with
  | None => Raise ("No such file or directory: '" ++ path ++ "'")
  | Some (TextFile EmptyString) => Raise "No columns to parse from file"
  | Some (TextFile _) => Raise "Error tokenizing data"
  | Some (CsvFile df) =>
      match columns df with
      | [] => Raise "No columns to parse from file"
      | _ => Ok df
      end
  end.

(** [df.to_csv(path, index=False, ...)] *)
Definition to_csv (df : DataFrame) (path : string) : M World unit :=
  emit (EvToCsv path df);;;
  on_files (λ fs, (<[path := CsvFile df]> fs, Ok tt)).

End Sys.
End Sys.
Export Sys.

(** gspread calls, each recorded in the trace before it is made. *)
Module GspreadClient.
Section GspreadClient.
Context `{Gspread}.

Definition _connect_to_google_sheets : M World unit :=
  emit EvAuthorize;;; on_remote gs_authorize.

Definition col_values (title tab : string) (col : nat) : M World (list value) :=
  on_remote (gs_col_values title tab col).

Definition create (title : string) : M World string :=
  emit (EvCreate title);;; on_remote (gs_create title).

Definition insert_permission (id perm_type role : string) : M World unit :=
  emit (EvInsertPermission id perm_type role);;;
  on_remote (gs_insert_permission id perm_type role).

Definition get_worksheet (id : string) (n : nat) : M World unit :=
  emit (EvGetWorksheet id n);;; on_remote (gs_get_worksheet id n).

Definition update (id cell : string) (values : list (list value)) : M World unit :=
  emit (EvUpdate id cell values);;; on_remote (gs_update id cell values).

End GspreadClient.
End GspreadClient.

(** ** The abstract base classes of [Data.py] *)

Module ABC.

Class DataSource `{Gspread} : Type := {
  get_links : M World (list value)
}.

(** A fetcher may write files and may raise.  Its answer may depend on the
    link, on the scratch path (which is different for every link of a run)
    and on the file system, so every sequence of answers can be had. *)
Class DataFetcher : Type := {
  fetch_data : value → string → M (gmap string file) DataFrame
}.

Class DataProcessor : Type := {
  process_data : DataFrame → result DataFrame
}.

Class DataStorage `{Gspread} : Type := {
  save_data : DataFrame → string → M World string
}.

End ABC.

(** ** Concrete implementations *)

Module GoogleSheetsDataSource.
Section GoogleSheetsDataSource.
Context `{Gspread}.

(** The list comprehension of [get_links]. *)
Definition tiktok_links (column_values : list value) : list value :=
  List.filter (λ link, str_contains "tiktok.com" (pystr link)) column_values.

Definition get_links : M World (list value) :=
  column_values <- GspreadClient.col_values
                     "Ecom - Booking KOC Tiktok - Abby Official Plan"
                     "W13 (24/3 - 30/3)" 11;;
  ret (tiktok_links column_values).

Definition impl : ABC.DataSource := {| ABC.get_links := get_links |}.

End GoogleSheetsDataSource.
End GoogleSheetsDataSource.

Module TikTokDataFetcher.
Section TikTokDataFetcher.
Context `{Pyktok}.

Definition fetch_data (link : value) (output_path : string)
  : M (gmap string file) DataFrame :=
  try_except
    (save_tiktok link true output_path;;;
     data <- (λ fs, (fs, read_csv output_path fs));;
     let data := setitem_scalar data "source_link" link in
     ret data)
    (λ e, ret DataFrame_new).

Definition impl : ABC.DataFetcher := {| ABC.fetch_data := fetch_data |}.

End TikTokDataFetcher.
End TikTokDataFetcher.

Module TikTokDataProcessor.

Definition view_column : string := "Lượt xem".
Definition author_column : string := "Người Đăng".
Definition follower_column : string := "Follower Người Đăng".

Definition process_data (df : DataFrame) : result DataFrame :=
  if empty df then Ok DataFrame_new else
  let formatted_df := DataFrame_new in
  formatted_df <-! setitem_list formatted_df "STT" (range 1 (len df + 1));;
  link_video <-! getitem df "source_link";;
  let formatted_df := setitem_series formatted_df "Link Video" link_video in
  formatted_df <-!
    (if has_column "video_playcount" df then
       s <-! getitem df "video_playcount";;
       Ok (setitem_series formatted_df view_column s)
     else if has_column "stats_playCount" df then
       s <-! getitem df "stats_playCount";;
       Ok (setitem_series formatted_df view_column s)
     else if has_column "play_count" df then
       s <-! getitem df "play_count";;
       Ok (setitem_series formatted_df view_column s)
     else Ok (setitem_scalar formatted_df view_column (VInt 0)));;
  formatted_df <-!
    (if has_column "author_username" df then
       s <-! getitem df "author_username";;
       Ok (setitem_series formatted_df author_column s)
     else if has_column "author_uniqueId" df then
       s <-! getitem df "author_uniqueId";;
       Ok (setitem_series formatted_df author_column s)
     else if has_column "author_nickname" df then
       s <-! getitem df "author_nickname";;
       Ok (setitem_series formatted_df author_column s)
     else Ok (setitem_scalar formatted_df author_column (VStr "Unknown")));;
  formatted_df <-!
    (if has_column "author_followercount" df then
       s <-! getitem df "author_followercount";;
       Ok (setitem_series formatted_df follower_column s)
     else if has_column "authorStats_followerCount" df then
       s <-! getitem df "authorStats_followerCount";;
       Ok (setitem_series formatted_df follower_column s)
     else Ok (setitem_scalar formatted_df follower_column (VInt 0)));;
  Ok formatted_df.

Definition impl : ABC.DataProcessor := {| ABC.process_data := process_data |}.

End TikTokDataProcessor.

Module CSVDataStorage.
Section CSVDataStorage.
Context `{Gspread}.

(** [self.output_dir]; [__init__] also creates the directory, which the
    flat file system does not record. *)
Variable output_dir : string.

Definition save_data (df : DataFrame) (filename : string) : M World string :=
  if empty df then ret EmptyString else
  let filepath := os_path_join output_dir filename in
  to_csv df filepath;;;
  ret filepath.

Definition impl : ABC.DataStorage := {| ABC.save_data := save_data |}.

End CSVDataStorage.
End CSVDataStorage.

Module GoogleSheetsDataStorage.
Section GoogleSheetsDataStorage.
Context `{Gspread}.

Definition save_data (df : DataFrame) (sheet_name : string) : M World string :=
  if empty df then ret EmptyString else
  try_except
    (GspreadClient._connect_to_google_sheets;;;
     spreadsheet_id <- GspreadClient.create sheet_name;;
     GspreadClient.insert_permission spreadsheet_id "anyone" "reader";;;
     GspreadClient.get_worksheet spreadsheet_id 0;;;
     let values := [columns_tolist df] in
     let values := (values ++ values_tolist df)%list in
     GspreadClient.update spreadsheet_id "A1" values;;;
     ret spreadsheet_id)
    (λ e, ret EmptyString).

Definition impl : ABC.DataStorage := {| ABC.save_data := save_data |}.

End GoogleSheetsDataStorage.
End GoogleSheetsDataStorage.

(** ** The orchestrator *)

Module DataCollector.
Section DataCollector.
Context `{Gspread} `{Os}.

(** The local variables of [collect_data] that the loop updates, next to the
    world: they keep their value when the loop body raises. *)
Record Locals : Type := mkLocals {
  world : World;
  all_data : DataFrame;
  results : list dict
}.

Definition in_world {A} (m : M World A) : M Locals A :=
  λ st, let '(w, r) := m (world st) in (mkLocals w (all_data st) (results st), r).

Definition set_all_data (f : DataFrame → DataFrame) : M Locals unit :=
  λ st, (mkLocals (world st) (f (all_data st)) (results st), Ok tt).

(** [results.append(d)] *)
Definition results_append (d : dict) : M Locals unit :=
  λ st, (mkLocals (world st) (all_data st) (results st ++ [d]), Ok tt).

Variable data_source : ABC.DataSource.
Variable data_fetcher : ABC.DataFetcher.
Variable data_processor : ABC.DataProcessor.
Variable csv_storage : ABC.DataStorage.
Variable sheets_storage : ABC.DataStorage.

(** [datetime.now().strftime(...)], read once per run. *)
Variable timestamp : string.

Definition output_dir : string := "tiktok_data".

(** [self.data_fetcher.fetch_data(link, path)], recorded with its answer. *)
Definition call_fetch (link : value) (path : string) : M World DataFrame :=
  λ w, let '(fs, r) := ABC.fetch_data link path (files w) in
       (mkWorld fs (remote w) (trace w ++ [EvFetch link path r]), r).

Definition temp_filename (i : nat) : string :=
  output_dir ++ "/temp_tiktok_data_" ++ pystr_nat (i + 1) ++ ".csv".

Definition index_of (i : nat) : value := VInt (Z.of_nat i + 1).

(** [i < len(links) - 1] *)
Definition not_last (i n : nat) : bool := (Z.of_nat i <? Z.of_nat n - 1)%Z.

(** The body of the [for] loop, lines 261-312. *)
Definition loop_body (n : nat) (i : nat) (link : value) : M Locals unit :=
  try_except
    (let temp_filename := temp_filename i in
     temp_data <- in_world (call_fetch link temp_filename);;
     (if negb (empty temp_data) then
        let temp_data := setitem_scalar temp_data "link_index" (index_of i) in
        set_all_data (λ all_data, concat all_data temp_data);;;
        results_append [("index", index_of i); ("link", link);
                        ("status", VStr "Success")]
      else
        results_append [("index", index_of i); ("link", link);
                        ("status", VStr "Failed");
                        ("error", VStr "Empty data returned")]);;;
     exists_ <- in_world (os_path_exists temp_filename);;
     when exists_ (in_world (os_remove temp_filename));;;
     when (not_last i n) (in_world (time_sleep 5)))
    (λ e,
     results_append [("index", index_of i); ("link", link);
                     ("status", VStr "Failed"); ("error", VStr e)];;;
     when (not_last i n) (in_world (time_sleep 5))).

(** The loop over [enumerate(links)], lines 258-312, started from the
    initial values of the locals. *)
Definition collect_loop (links : list value) : M Locals unit :=
  for_enumerate 0 links (loop_body (length links)).

(** Lines 314-333: what is written once every link has been processed. *)
Definition persist : M Locals unit :=
  all_data_ <- (λ st, (st, Ok (all_data st)));;
  results_ <- (λ st, (st, Ok (results st)));;
  when (negb (empty all_data_))
    (let combined_filename := "all_tiktok_data_" ++ timestamp ++ ".csv" in
     in_world (ABC.save_data (DataStorage := csv_storage) all_data_ combined_filename);;;
     ret tt);;;
  let summary_df := DataFrame_of_records results_ in
  in_world (ABC.save_data (DataStorage := csv_storage) summary_df
              ("processing_summary_" ++ timestamp ++ ".csv"));;;
  when (negb (empty all_data_))
    (processed_data <- (λ st, (st, ABC.process_data all_data_));;
     let formatted_csv := "formatted_tiktok_data_" ++ timestamp ++ ".csv" in
     in_world (ABC.save_data (DataStorage := csv_storage) processed_data formatted_csv);;;
     let sheet_name := "TikTok Data Analysis " ++ timestamp in
     in_world (ABC.save_data (DataStorage := sheets_storage) processed_data sheet_name);;;
     ret tt).

Definition run_locals {A} (m : M Locals A) : M World (A * DataFrame * list dict) :=
  λ w, match m (mkLocals w DataFrame_new []) with
       | (st, Ok a) => (world st, Ok (a, all_data st, results st))
       | (st, Raise e) => (world st, Raise e)
       end.

Definition collect_data : M World (DataFrame * list dict) :=
  links <- ABC.get_links;;
  r <- run_locals (collect_loop links;;; persist);;
  ret (r.1.2, r.2).

End DataCollector.
End DataCollector.

(** ** The earlier single-file script *)

Module Script.
Section Script.
Context `{Gspread} `{Pyktok} `{Os}.

Import DataCollector.

(** [[link for link in column if 'tiktok.com' in link]]: the membership test
    is applied to the cell as it is. *)
Fixpoint tiktok_links (column_k : list value) : result (list value) :=
  match column_k with
  | [] => Ok []
  | link :: rest =>
      keep <-! contains_value "tiktok.com" link;;
      kept <-! tiktok_links rest;;
      Ok (if keep : bool then link :: kept else kept)
  end.

Definition get_tiktok_links : M World (list value) :=
  GspreadClient._connect_to_google_sheets;;;
  column_k <- GspreadClient.col_values
                "Ecom - Booking KOC Tiktok - Abby Official Plan"
                "W13 (24/3 - 30/3)" 11;;
  (λ w, (w, tiktok_links column_k)).

(** The body of the [for] loop of [process_tiktok_links]. *)
Definition loop_body (i : nat) (link : value) : M Locals unit :=
  try_except
    (let temp_filename := temp_filename i in
     in_world (on_files (save_tiktok link true temp_filename));;;
     temp_data <- in_world (on_files (λ fs, (fs, read_csv temp_filename fs)));;
     let temp_data := setitem_scalar temp_data "source_link" link in
     let temp_data := setitem_scalar temp_data "link_index" (index_of i) in
     set_all_data (λ all_data, concat all_data temp_data);;;
     in_world (os_remove temp_filename);;;
     results_append [("index", index_of i); ("link", link);
                     ("status", VStr "Success")])
    (λ e,
     results_append [("index", index_of i); ("link", link);
                     ("status", VStr "Failed"); ("error", VStr e)]).

Definition process_loop (links : list value) : M Locals unit :=
  for_enumerate 0 links loop_body.

Definition process_tiktok_links (timestamp : string) (links : list value)
  : M World (list dict * string) :=
  let combined_filename :=
    output_dir ++ "/all_tiktok_data_" ++ timestamp ++ ".csv" in
  r <- run_locals
         (process_loop links;;;
          all_data_ <- (λ st, (st, Ok (all_data st)));;
          results_ <- (λ st, (st, Ok (results st)));;
          when (negb (empty all_data_))
               (in_world (to_csv all_data_ combined_filename));;;
          let summary_df := DataFrame_of_records results_ in
          in_world (to_csv summary_df
                      (output_dir ++ "/processing_summary_" ++ timestamp ++ ".csv")));;
  ret (r.2, combined_filename).

End Script.
End Script.

(** ** Concrete environments on which the definitions are run *)

Module Fixtures.

Definition link_a : value := VStr "https://www.tiktok.com/@a/video/1".
Definition link_b : value := VStr "https://www.tiktok.com/@b/video/2".
Definition link_c : value := VStr "https://www.tiktok.com/@c/video/3".

(** A column as it comes back from the sheet: a header, blanks, a number,
    an unrelated link and a repeated link. *)
Definition column_k : list value :=
  [VStr "Link video"; link_a; VStr EmptyString; VInt 42; link_b;
   VStr "not a link"; link_c; link_a].

(** A spreadsheet service that accepts every call; it stores each created
    spreadsheet under its title and answers [column] for every column read. *)
Definition online (column : list value) : Gspread := {|
  Remote := list (string * list (list value));
  gs_authorize := λ r, (r, Ok tt);
  gs_col_values := λ _ _ _ r, (r, Ok column);
  gs_create := λ title r, ((r ++ [(title, [])])%list, Ok ("id:" ++ title));
  gs_insert_permission := λ _ _ _ r, (r, Ok tt);
  gs_get_worksheet := λ _ _ r, (r, Ok tt);
  gs_update := λ id _ values r,
    ((λ s, if decide ("id:" ++ s.1 = id) then (s.1, values) else s) <$> r, Ok tt)
|}.

(** A service that answers reads but refuses to create spreadsheets. *)
Definition read_only (column : list value) : Gspread := {|
  Remote := unit;
  gs_authorize := λ r, (r, Ok tt);
  gs_col_values := λ _ _ _ r, (r, Ok column);
  gs_create := λ _ r, (r, Raise "APIError: quota exceeded");
  gs_insert_permission := λ _ _ _ r, (r, Ok tt);
  gs_get_worksheet := λ _ _ r, (r, Ok tt);
  gs_update := λ _ _ _ r, (r, Ok tt)
|}.

Definition metadata (user : string) (plays followers : Z) : DataFrame :=
  mkDF ["video_playcount"; "author_username"; "author_followercount"]
       [[("video_playcount", VInt plays); ("author_username", VStr user);
         ("author_followercount", VInt followers)]].

(** A scraper that stores one row of metadata, and fails on the videos of
    user [b] without writing anything. *)
Definition scraper : Pyktok := {|
  save_tiktok := λ link _ path fs,
    if str_contains "@b/" (pystr link)
    then (fs, Raise "Connection aborted")
    else (<[path := CsvFile (metadata (pystr link) 1200 35)]> fs, Ok tt)
|}.

(** A scraper whose output file cannot be parsed: its second row is
    wider than its header. *)
Definition garbled : string := "video_id,author\n1,a,b,c".
Definition garbling_scraper : Pyktok := {|
  save_tiktok := λ link _ path fs, (<[path := TextFile garbled]> fs, Ok tt)
|}.

(** A fetcher that writes the scratch file and, for the videos of user [b],
    raises afterwards instead of returning. *)
Definition flaky_fetcher : ABC.DataFetcher := {|
  ABC.fetch_data := λ link path fs,
    let data := setitem_scalar (metadata (pystr link) 1200 35) "source_link" link in
    let fs' := <[path := CsvFile data]> fs in
    if str_contains "@b/" (pystr link)
    then (fs', Raise "Read timed out")
    else (fs', Ok data)
|}.

(** A cumulative table whose rows came from two response shapes. *)
Definition raw_table : DataFrame :=
  mkDF ["video_playcount"; "stats_playCount"; "author_uniqueId"; "source_link";
        "link_index"]
       [[("video_playcount", VInt 1200); ("stats_playCount", VInt 999);
         ("author_uniqueId", VStr "a"); ("source_link", link_a);
         ("link_index", VInt 1)];
        [("video_playcount", VInt 58); ("stats_playCount", VInt 60);
         ("author_uniqueId", VStr "c"); ("source_link", link_c);
         ("link_index", VInt 3)]].

Definition timestamp : string := "20250415_092751".

(** An operating system that removes every file it is asked to remove, and
    one on which every scratch file is still held open when the pipeline
    wants to remove it. *)
Definition permissive : Os := {| remove_refused := λ _ _, None |}.
Definition in_use (path : string) : exn :=
  "[WinError 32] The process cannot access the file because it is being used by another process: '"
  ++ path ++ "'".
Definition locking : Os := {| remove_refused := λ path _, Some (in_use path) |}.

(** Worlds with an empty file system and nothing done yet. *)
Definition online_world (column : list value) : @World (online column) :=
  @mkWorld (online column) ∅ [] [].
Definition read_only_world (column : list value) : @World (read_only column) :=
  @mkWorld (read_only column) ∅ tt [].

End Fixtures.

(** ** Vocabulary of the specification *)

Module Spec.

(** A value "contains the platform's domain": its string form has
    [tiktok.com] as a contiguous block. *)
Definition mentions_tiktok (v : value) : Prop :=
  ∃ pre post, pystr v = pre ++ "tiktok.com" ++ post.

(** The sheet and column that [get_links] reads. *)
Definition sheet_title : string := "Ecom - Booking KOC Tiktok - Abby Official Plan".
Definition sheet_tab : string := "W13 (24/3 - 30/3)".

(** The normalizer as the specification words it: every logical field has
    an ordered list of candidate columns and a default; the first candidate
    that is a column of the table wins. *)
Definition view_candidates : list string :=
  ["video_playcount"; "stats_playCount"; "play_count"].
Definition author_candidates : list string :=
  ["author_username"; "author_uniqueId"; "author_nickname"].
Definition follower_candidates : list string :=
  ["author_followercount"; "authorStats_followerCount"].

Definition resolve_spec (candidates : list string) (dflt : value)
           (df : DataFrame) (r : dict) : value :=
  match List.find (λ c, has_column c df) candidates with
  | Some c => cell r c
  | None => dflt
  end.

Definition normalized_columns : list string :=
  ["STT"; "Link Video"; TikTokDataProcessor.view_column;
   TikTokDataProcessor.author_column; TikTokDataProcessor.follower_column].

(** The normalized record of the row at 0-based position [i]. *)
Definition normalized_row (df : DataFrame) (i : nat) (r : dict) : dict :=
  [("STT", VInt (Z.of_nat (1 + i)));
   ("Link Video", cell r "source_link");
   (TikTokDataProcessor.view_column, resolve_spec view_candidates (VInt 0) df r);
   (TikTokDataProcessor.author_column,
    resolve_spec author_candidates (VStr "Unknown") df r);
   (TikTokDataProcessor.follower_column,
    resolve_spec follower_candidates (VInt 0) df r)].

Definition normalize_spec (df : DataFrame) : DataFrame :=
  if empty df then DataFrame_new
  else mkDF normalized_columns (imap (normalized_row df) (rows df)).

(** The three assignments of [process_data] seen as one operation: set
    column [c] of [f] from the first candidate column of [df], or from the
    default. *)
Definition assign_spec (f : DataFrame) (c : string) (candidates : list string)
           (dflt : value) (df : DataFrame) : DataFrame :=
  match List.find (λ k, has_column k df) candidates with
  | Some k => setitem_series f c (series df k)
  | None => setitem_scalar f c dflt
  end.

Definition resolve_at (candidates : list string) (dflt : value)
           (df : DataFrame) (i : nat) : value :=
  match List.find (λ k, has_column k df) candidates with
  | Some k => default NaN (series df k !! i)
  | None => dflt
  end.

(** The outcome record of the link at 0-based position [i]: without an
    error it is a [Success] record with no [error] key, with an error it is a
    [Failed] record carrying the message. *)
Definition outcome_record (i : nat) (link : value) (err : option exn) : dict :=
  match err with
  | None =>
      [("index", VInt (Z.of_nat i + 1)); ("link", link); ("status", VStr "Success")]
  | Some e =>
      [("index", VInt (Z.of_nat i + 1)); ("link", link); ("status", VStr "Failed");
       ("error", VStr e)]
  end.

(** What the pipeline makes of the fetcher's answer for one link. *)
Definition error_of (answer : result DataFrame) : option exn :=
  match answer with
  | Ok df => if empty df then Some "Empty data returned" else None
  | Raise e => Some e
  end.

Definition outcome_spec (i : nat) (link : value) (answer : result DataFrame) : dict :=
  outcome_record i link (error_of answer).

Definition accumulate_spec (i : nat) (answer : result DataFrame)
           (all_data : DataFrame) : DataFrame :=
  match answer with
  | Ok df =>
      if empty df then all_data
      else concat all_data (setitem_scalar df "link_index" (VInt (Z.of_nat i + 1)))
  | Raise _ => all_data
  end.

(** The outcome list, the cumulative table and the fetch-and-wait part of
    the trace for a list of links paired with the fetcher's answers, the
    first link being at position [i] of [n]. *)
Fixpoint outcomes_spec (i : nat) (answers : list (value * result DataFrame))
  : list dict :=
  match answers with
  | [] => []
  | (link, r) :: rest => outcome_spec i link r :: outcomes_spec (S i) rest
  end.

Fixpoint cumulative_spec (i : nat) (answers : list (value * result DataFrame))
         (all_data : DataFrame) : DataFrame :=
  match answers with
  | [] => all_data
  | (_, r) :: rest => cumulative_spec (S i) rest (accumulate_spec i r all_data)
  end.

Fixpoint pacing_spec (n i : nat) (answers : list (value * result DataFrame))
  : list event :=
  match answers with
  | [] => []
  | (link, r) :: rest =>
      EvFetch link (DataCollector.temp_filename i) r
      :: (if decide (S i < n) then [EvSleep 5] else [])
      ++ pacing_spec n (S i) rest
  end.

Definition is_fetch_or_sleep (ev : event) : bool :=
  match ev with
  | EvFetch _ _ _ | EvSleep _ => true
  | _ => false
  end.

Definition is_sleep (ev : event) : bool :=
  match ev with
  | EvSleep _ => true
  | _ => false
  end.

Definition is_to_csv (ev : event) : bool :=
  match ev with
  | EvToCsv _ _ => true
  | _ => false
  end.

Definition is_gspread (ev : event) : bool :=
  match ev with
  | EvAuthorize | EvCreate _ | EvInsertPermission _ _ _
  | EvGetWorksheet _ _ | EvUpdate _ _ _ => true
  | _ => false
  end.

(** The events of one pass through the loop body of [collect_data], given
    the fetcher's answer and whether the scratch file exists afterwards. *)
Definition step_trace (n i : nat) (link : value) (answer : result DataFrame)
           (scratch_present : bool) : list event :=
  EvFetch link (DataCollector.temp_filename i) answer
  :: (match answer with
      | Ok _ => if scratch_present
                then [EvRemove (DataCollector.temp_filename i)] else []
      | Raise _ => []
      end)
  ++ (if DataCollector.not_last i n then [EvSleep 5] else []).

(** An outcome record is well formed: its status is [Success] and it has no
    [error] key, or its status is [Failed] and it has one. *)
Definition well_formed_outcome (d : dict) : Prop :=
  (dict_get "status" d = Some (VStr "Success") ∧ dict_get "error" d = None)
  ∨ (dict_get "status" d = Some (VStr "Failed")
     ∧ ∃ e, dict_get "error" d = Some (VStr e)).

(** The fetcher contract of the data model: a record that is not empty has
    a [source_link] column. *)
Definition stamps_source_link (fetcher : ABC.DataFetcher) : Prop :=
  ∀ link path fs fs' df,
    ABC.fetch_data (DataFetcher := fetcher) link path fs = (fs', Ok df) →
    empty df = false → "source_link" ∈ columns df.

(** A list of outcome records for links paired with their errors, the first
    link being at position [i]. *)
Fixpoint records_spec (i : nat) (l : list (value * option exn)) : list dict :=
  match l with
  | [] => []
  | (link, err) :: rest => outcome_record i link err :: records_spec (S i) rest
  end.

(** [a] pairs a link with something the fetcher answers for that link. *)
Definition answered_by (fetcher : ABC.DataFetcher) (a : value * result DataFrame)
  : Prop :=
  ∃ path fs, (ABC.fetch_data (DataFetcher := fetcher) a.1 path fs).2 = a.2.

(** [values] is the header row of [df] followed by all its data rows: the
    first line holds the column names in column order, and line [i+1]
    holds, column by column, the cells of the row at position [i]. *)
Definition header_then_rows (df : DataFrame) (values : list (list value)) : Prop :=
  length values = S (length (rows df))
  ∧ (∃ head, values !! 0 = Some head
             ∧ length head = length (columns df)
             ∧ ∀ j c, columns df !! j = Some c → head !! j = Some (VStr c))
  ∧ ∀ i r, rows df !! i = Some r →
      ∃ line, values !! S i = Some line
              ∧ length line = length (columns df)
              ∧ ∀ j c, columns df !! j = Some c →
                  line !! j = Some (default NaN (dict_get c r)).

(** The operating system removes every file it is asked to remove. *)
Definition never_refuses `{Os} : Prop :=
  ∀ path fs, remove_refused path fs = None.

(** The error of the clean-up in one pass of the loop body of
    [collect_data]: the fetcher returned, the scratch file is there, and the
    operating system refuses to remove it. *)
Definition cleanup_error `{Os} (path : string) (fs : gmap string file)
           (answer : result DataFrame) : option exn :=
  match answer, fs !! path with
  | Ok _, Some _ => remove_refused path fs
  | _, _ => None
  end.

(** [c] is no error, or an error with which the operating system refuses
    some removal. *)
Definition refusal `{Os} (c : option exn) : Prop :=
  c = None ∨ ∃ path fs, remove_refused path fs = c.

(** The records one pass of the loop body of [collect_data] appends, given
    the fetcher's answer and the error of the clean-up: the record of the
    answer and, when the clean-up raised, a [Failed] record for the same
    link. *)
Definition pass_records (i : nat) (link : value) (answer : result DataFrame)
           (cleanup : option exn) : list dict :=
  outcome_spec i link answer
  :: match cleanup with
     | Some e => [outcome_record i link (Some e)]
     | None => []
     end.

(** A pass: the link, the fetcher's answer, the error of the clean-up. *)
Definition pass : Type := value * result DataFrame * option exn.

Fixpoint passes_spec (i : nat) (passes : list pass) : list dict :=
  match passes with
  | [] => []
  | (link, r, c) :: rest => pass_records i link r c ++ passes_spec (S i) rest
  end.

End Spec.
Export Spec.

(** ** More of pandas: what the rest of the code uses *)

Module PandasMore.

(** [df[names]] for a list of column names: the named columns, in the order
    asked for; a name that is not a column raises [KeyError]. *)
Definition getitem_list (df : DataFrame) (names : list string) : result DataFrame :=
  match List.filter (λ c, negb (has_column c df)) names with
  | [] => Ok (mkDF names ((λ r, (λ c, (c, cell r c)) <$> names) <$> rows df))
  | c :: _ => Raise ("'" ++ c ++ "' not in index")
  end.

(** [df.columns = names]: the columns are renamed by position; the number of
    names has to be the number of columns. *)
Definition set_columns (df : DataFrame) (names : list string) : result DataFrame :=
  if decide (length names = length (columns df))
  then Ok (mkDF names ((λ r, zip names (cell r <$> columns df)) <$> rows df))
  else Raise "Length mismatch".

End PandasMore.
Export PandasMore.

(** ** The rest of [Data.py]: the constructors and [main] *)

Module Main.
Section Main.
Context `{Gspread} `{Pyktok} `{Os}.

(** [datetime.now().strftime(...)] as read by [collect_data]. *)
Variable timestamp : string.

(** [GoogleSheetsDataSource.__init__]: [self.client] is connected when the
    object is made. *)
Definition GoogleSheetsDataSource__init__ : M World unit :=
  GspreadClient._connect_to_google_sheets.

(** [r["status"]] *)
Definition status_of (r : dict) : result value :=
  match dict_get "status" r with
  | Some v => Ok v
  | None => Raise "'status'"
  end.

(** [sum(1 for r in results if r["status"] == "Success")] *)
Fixpoint success_count (results : list dict) : result nat :=
  match results with
  | [] => Ok 0
  | r :: rest =>
      status <-! status_of r;;
      n <-! success_count rest;;
      Ok (if decide (status = VStr "Success") then 1 + n else n)
  end.

(** [main]: the components are made (the source connects; the browser
    set-up of the fetcher and the [os.makedirs] of the file sink have no
    counterpart in the world), the collector runs, and the last line printed
    is returned. *)
Definition main : M World string :=
  GoogleSheetsDataSource__init__;;;
  let data_source := GoogleSheetsDataSource.impl in
  let data_fetcher := TikTokDataFetcher.impl in
  let data_processor := TikTokDataProcessor.impl in
  let csv_storage := CSVDataStorage.impl "tiktok_data" in
  let sheets_storage := GoogleSheetsDataStorage.impl in
  r <- DataCollector.collect_data data_source data_fetcher data_processor
         csv_storage sheets_storage timestamp;;
  let results := r.2 in
  success_count_ <- (λ w, (w, success_count results));;
  ret ("Processing complete. Successfully processed " ++ pystr_nat success_count_
       ++ " out of " ++ pystr_nat (length results) ++ " links.").

End Main.
End Main.

(** ** The rest of the earlier script: [main] and the formatting code *)

Module ScriptRest.
Section ScriptRest.
Context `{Gspread} `{Pyktok} `{Os}.

Variable timestamp : string.

(** [main] of the script; the line with the count is returned. *)
Definition main : M World string :=
  links <- Script.get_tiktok_links;;
  r <- Script.process_tiktok_links timestamp links;;
  let results := r.1 in
  success_count_ <- (λ w, (w, Main.success_count results));;
  ret ("Processing complete. Successfully processed " ++ pystr_nat success_count_
       ++ " out of " ++ pystr_nat (length links) ++ " links.").

Definition input_file : string :=
  "C:/Users/wind4/tiktok_data/all_tiktok_data_20250415_092751.csv".
Definition output_file : string := "formatted_tiktok_data.csv".

(** The three pandas steps of the formatting code: number the rows, select
    the five columns, rename them. *)
Definition output_df (df : DataFrame) : result DataFrame :=
  df <-! setitem_list df "STT" (range 1 (len df + 1));;
  output_df <-! getitem_list df ["STT"; "source_link"; "video_playcount";
                                 "author_username"; "author_followercount"];;
  set_columns output_df ["STT"; "Link Video"; TikTokDataProcessor.view_column;
                         TikTokDataProcessor.author_column;
                         TikTokDataProcessor.follower_column].

(** The code after [main] in the script: read the combined file, format it,
    write [formatted_tiktok_data.csv]. *)
Definition format_csv : M World unit :=
  df <- on_files (λ fs, (fs, read_csv input_file fs));;
  output_df_ <- (λ w, (w, output_df df));;
  to_csv output_df_ output_file.

End ScriptRest.
End ScriptRest.

(** ** Vocabulary for the further properties *)

Module SpecMore.

(** The number of records of an outcome list whose status is [Success]. *)
Definition successes (results : list dict) : nat :=
  length (List.filter (λ d, bool_decide (dict_get "status" d = Some (VStr "Success")))
                      results).

(** The answer of the fetcher is a frame that is not empty. *)
Definition is_success (answer : result DataFrame) : bool :=
  match answer with
  | Ok df => negb (empty df)
  | Raise _ => false
  end.

(** The rows an answer contributes to the cumulative table. *)
Definition rows_of_answer (answer : result DataFrame) : nat :=
  match answer with
  | Ok df => if empty df then 0 else len df
  | Raise _ => 0
  end.

(** A scraper that writes nowhere but at the path it is given. *)
Definition writes_only_its_path `{Pyktok} : Prop :=
  ∀ link path fs other,
    other ≠ path →
    (save_tiktok link true path fs).1 !! other = fs !! other.

(** What the script's loop body reads for one link, given the file system
    before: the table of the scratch file, when the scraper returned and the
    file could be read. *)
Definition script_data_of `{Pyktok} (link : value) (path : string)
           (fs : gmap string file) : option DataFrame :=
  match save_tiktok link true path fs with
  | (_, Raise _) => None
  | (fs1, Ok _) =>
      match read_csv path fs1 with
      | Raise _ => None
      | Ok data => Some data
      end
  end.

(** What the script's loop body makes of one link, given the file system
    before: the error, if any, of the scraper, of reading its file, or of
    removing it. *)
Definition script_error_of `{Pyktok} `{Os} (link : value) (path : string)
           (fs : gmap string file) : option exn :=
  match save_tiktok link true path fs with
  | (_, Raise e) => Some e
  | (fs1, Ok _) =>
      match read_csv path fs1 with
      | Raise e => Some e
      | Ok _ => remove_refused path fs1
      end
  end.

(** The five calls of the spreadsheet sink, in the order made, for the
    lines [values] to upload and the identifier [id] of the spreadsheet. *)
Definition upload_calls (values : list (list value)) (sheet_name id : string)
  : list event :=
  [EvAuthorize; EvCreate sheet_name; EvInsertPermission id "anyone" "reader";
   EvGetWorksheet id 0; EvUpdate id "A1" values].

(** The columns the script's formatting code selects from the combined
    file, next to [STT]. *)
Definition script_columns : list string :=
  ["source_link"; "video_playcount"; "author_username"; "author_followercount"].

(** The value is a Python [str]. *)
Definition is_str (v : value) : bool :=
  match v with
  | VStr _ => true
  | _ => false
  end.

Definition is_remove (ev : event) : bool :=
  match ev with
  | EvRemove _ => true
  | _ => false
  end.

End SpecMore.
Export SpecMore.

(** * Properties *)

(** ** Strings *)

Lemma append_cons (c : Ascii.ascii) (a p : string) :
  String c a ++ p = String c (a ++ p).
Proof. reflexivity. Qed.

Lemma append_nil (p : string) : EmptyString ++ p = p.
Proof. reflexivity. Qed.

Lemma prefix_spec (a s : string) :
  String.prefix a s = true ↔ ∃ post, s = a ++ post.
Proof.
  revert s. induction a as [|c a IH]; intros s.
  - split; [intros _; exists s; reflexivity | intros _; destruct s; reflexivity].
  - destruct s as [|c' s]; simpl.
    + split; [discriminate | intros [post Hp]; rewrite append_cons in Hp; discriminate].
    + destruct (Ascii.ascii_dec c c') as [->|Hne].
      * rewrite IH. split; intros [post Hp]; exists post;
          rewrite append_cons in *; congruence.
      * split; [discriminate | intros [post Hp]; rewrite append_cons in Hp; congruence].
Qed.

Lemma str_contains_cons (sub : string) (c : Ascii.ascii) (s : string) :
  str_contains sub (String c s)
  = String.prefix sub (String c s) || str_contains sub s.
Proof. reflexivity. Qed.

Lemma str_contains_nil (sub : string) :
  str_contains sub EmptyString = String.prefix sub EmptyString || false.
Proof. reflexivity. Qed.

Lemma str_contains_spec (sub s : string) :
  str_contains sub s = true ↔ ∃ pre post, s = pre ++ sub ++ post.
Proof.
  split.
  - induction s as [|c s IH];
      [rewrite str_contains_nil | rewrite str_contains_cons];
      rewrite orb_true_iff; intros [Hp|Hr].
    + apply prefix_spec in Hp as [post Hp]. exists EmptyString, post. exact Hp.
    + discriminate.
    + apply prefix_spec in Hp as [post Hp]. exists EmptyString, post. exact Hp.
    + destruct (IH Hr) as (pre & post & ->). exists (String c pre), post. reflexivity.
  - intros (pre & post & ->). induction pre as [|c pre IH].
    + rewrite append_nil.
      assert (Hp : String.prefix sub (sub ++ post) = true)
        by (apply prefix_spec; eexists; reflexivity).
      destruct (sub ++ post);
        [rewrite str_contains_nil | rewrite str_contains_cons];
        rewrite Hp; reflexivity.
    + rewrite append_cons, str_contains_cons, IH. apply orb_true_r.
Qed.

(** ** Lists *)

(** From here on [++] is list concatenation; string concatenation is
    written [+:+]. *)
Open Scope list_scope.

Lemma filter_sublist {A} (p : A → bool) (l : list A) : sublist (List.filter p l) l.
Proof.
  induction l as [|x l IH]; simpl; [constructor|].
  destruct (p x); [apply sublist_skip | apply sublist_cons]; exact IH.
Qed.

Lemma filter_count_kept {A} (dec : ∀ x y : A, {x = y} + {x ≠ y})
      (p : A → bool) (l : list A) (v : A) :
  p v = true → count_occ dec (List.filter p l) v = count_occ dec l v.
Proof.
  intros Hv. induction l as [|x l IH]; simpl; [reflexivity|].
  destruct (p x) eqn:Hx; simpl; destruct (dec x v) as [->|Hne]; congruence.
Qed.

(** ** The link source *)

Lemma tiktok_links_elem (column : list value) (v : value) :
  v ∈ GoogleSheetsDataSource.tiktok_links column ↔ v ∈ column ∧ mentions_tiktok v.
Proof.
  unfold GoogleSheetsDataSource.tiktok_links, mentions_tiktok.
  rewrite !list_elem_of_In, filter_In, str_contains_spec. reflexivity.
Qed.

(** C9. Reading a column of arbitrary values, [get_links] returns without
    raising; what it returns is a subsequence of the column (original order,
    nothing added), every returned value has [tiktok.com] inside its string
    form, and every value whose string form has [tiktok.com] inside is
    returned as often as it occurs in the column (duplicates kept). *)
Theorem get_links_keeps_tiktok_values_in_order
        `{Gspread} (column : list value) (w : World) (r' : Remote) :
  gs_col_values sheet_title sheet_tab 11 (remote w) = (r', Ok column) →
  ∃ links,
    GoogleSheetsDataSource.get_links w = (mkWorld (files w) r' (trace w), Ok links)
    ∧ sublist links column
    ∧ (∀ v, v ∈ links → mentions_tiktok v)
    ∧ (∀ v, mentions_tiktok v →
            count_occ value_eq_dec links v = count_occ value_eq_dec column v).
Proof.
  intros Hread. exists (GoogleSheetsDataSource.tiktok_links column).
  split; [|split; [|split]].
  - unfold GoogleSheetsDataSource.get_links, GspreadClient.col_values, bind, on_remote, ret.
    unfold sheet_title, sheet_tab in Hread. rewrite Hread. reflexivity.
  - apply filter_sublist.
  - intros v Hv. apply tiktok_links_elem in Hv. tauto.
  - intros v Hv. apply filter_count_kept. apply str_contains_spec. exact Hv.
Qed.

Lemma get_links_keeps_tiktok_values_in_order_witness :
  ∃ links,
    GoogleSheetsDataSource.get_links (Fixtures.online_world Fixtures.column_k)
    = (Fixtures.online_world Fixtures.column_k, Ok links)
    ∧ links = [Fixtures.link_a; Fixtures.link_b; Fixtures.link_c; Fixtures.link_a].
Proof.
  destruct (get_links_keeps_tiktok_values_in_order
              (H := Fixtures.online Fixtures.column_k)
              Fixtures.column_k (Fixtures.online_world Fixtures.column_k)
              [] eq_refl)
    as (links & Hrun & _).
  exists links. split; [exact Hrun|].
  vm_compute in Hrun. injection Hrun as <-. reflexivity.
Defined.

(** ** What the link source lets through *)

Lemma str_contains_first_char (c : Ascii.ascii) (sub s : string) :
  str_contains (String c sub) s = true → has_char c s = true.
Proof.
  induction s as [|c' s IH].
  - rewrite str_contains_nil. cbn. discriminate.
  - rewrite str_contains_cons. cbn [String.prefix has_char].
    destruct (Ascii.ascii_dec c c'); [reflexivity|]. cbn. exact IH.
Qed.

Lemma digits_have_no_t (d : Decimal.uint) :
  has_char "t"%char (NilEmpty.string_of_uint d) = false.
Proof. induction d; cbn; assumption || reflexivity. Qed.

Lemma pystr_int_no_t (z : Z) : has_char "t"%char (pystr (VInt z)) = false.
Proof.
  unfold pystr, NilZero.string_of_int, NilZero.string_of_uint.
  destruct (Z.to_int z) as [d|d]; destruct d; cbn; try reflexivity;
    apply digits_have_no_t.
Qed.

(** Every value that [get_links] lets through is a string: the string form
    of a number, of [None], of a boolean or of [nan] does not contain
    [tiktok.com]. *)
Lemma tiktok_links_are_strings (column : list value) (v : value) :
  v ∈ GoogleSheetsDataSource.tiktok_links column → ∃ s, v = VStr s.
Proof.
  unfold GoogleSheetsDataSource.tiktok_links.
  rewrite list_elem_of_In, filter_In. intros [_ Hv].
  destruct v as [| |[]|z|s]; try (vm_compute in Hv; discriminate).
  - apply str_contains_first_char in Hv. rewrite pystr_int_no_t in Hv. discriminate.
  - exists s. reflexivity.
Qed.

(** On a column of strings the earlier script's [get_tiktok_links] keeps the
    same values as [get_links]. *)
Lemma script_tiktok_links_on_strings (column : list string) :
  Script.tiktok_links (VStr <$> column)
  = Ok (GoogleSheetsDataSource.tiktok_links (VStr <$> column)).
Proof.
  induction column as [|s column IH]; [reflexivity|].
  cbn [fmap list_fmap Script.tiktok_links contains_value rbind].
  change (list_fmap string value VStr column) with (VStr <$> column).
  rewrite IH. cbn [rbind GoogleSheetsDataSource.tiktok_links List.filter pystr].
  reflexivity.
Qed.

(** A cell that is not a string makes the earlier script raise, where
    [get_links] drops it. *)
Example script_tiktok_links_type_error :
  Script.tiktok_links [Fixtures.link_a; VInt 42]
  = Raise "TypeError: argument is not iterable"
  ∧ GoogleSheetsDataSource.tiktok_links [Fixtures.link_a; VInt 42]
    = [Fixtures.link_a].
Proof. split; vm_compute; reflexivity. Qed.

(** ** Dictionaries and frames *)

Lemma cell_dict_set_eq (c : string) (v : value) (r : dict) :
  cell (dict_set c v r) c = v.
Proof.
  unfold cell. induction r as [|[k x] r IH]; simpl.
  - rewrite decide_True by reflexivity. reflexivity.
  - destruct (decide (c = k)) as [->|Hne]; simpl.
    + rewrite decide_True by reflexivity. reflexivity.
    + rewrite decide_False by exact Hne. exact IH.
Qed.

Lemma cell_dict_set_ne (c c' : string) (v : value) (r : dict) :
  c ≠ c' → cell (dict_set c v r) c' = cell r c'.
Proof.
  intros Hne. unfold cell. induction r as [|[k x] r IH]; simpl.
  - rewrite decide_False by congruence. reflexivity.
  - destruct (decide (c = k)) as [->|Hck]; simpl.
    + rewrite !decide_False by congruence. reflexivity.
    + destruct (decide (c' = k)); [reflexivity | exact IH].
Qed.

Lemma add_column_elem (c k : string) (cols : list string) :
  k ∈ add_column c cols ↔ k = c ∨ k ∈ cols.
Proof.
  unfold add_column. case_bool_decide as Hc.
  - split; [tauto | intros [->|?]; assumption].
  - rewrite elem_of_app, list_elem_of_singleton. tauto.
Qed.

Lemma add_column_not_nil (c : string) (cols : list string) : add_column c cols ≠ [].
Proof.
  unfold add_column. case_bool_decide as Hc.
  - intros ->. inversion Hc.
  - destruct cols; discriminate.
Qed.

Lemma foldl_add_column_elem (k : string) (new cols : list string) :
  k ∈ foldl (λ cols c, add_column c cols) cols new ↔ k ∈ new ∨ k ∈ cols.
Proof.
  revert cols. induction new as [|c new IH]; intros cols; simpl.
  - rewrite elem_of_nil. tauto.
  - rewrite IH, add_column_elem, elem_of_cons. tauto.
Qed.

Lemma empty_false_iff (df : DataFrame) :
  empty df = false ↔ columns df ≠ [] ∧ rows df ≠ [].
Proof.
  unfold empty. destruct (columns df), (rows df); split; intros; try tauto;
    try discriminate; try (split; discriminate).
  all: destruct H as [? ?]; congruence.
Qed.

Lemma series_lookup (df : DataFrame) (c : string) (i : nat) :
  series df c !! i = (λ r, cell r c) <$> rows df !! i.
Proof. unfold series. apply list_lookup_fmap. Qed.

Lemma series_length (df : DataFrame) (c : string) : length (series df c) = len df.
Proof. unfold series, len. apply length_fmap. Qed.

(** ** The normalizer *)

Lemma process_data_stages (df : DataFrame) :
  empty df = false → has_column "source_link" df = true →
  TikTokDataProcessor.process_data df
  = Ok (assign_spec
          (assign_spec
             (assign_spec
                (setitem_series
                   (mkDF ["STT"] ((λ v, [("STT", v)]) <$> range 1 (len df + 1)))
                   "Link Video" (series df "source_link"))
                TikTokDataProcessor.view_column view_candidates (VInt 0) df)
             TikTokDataProcessor.author_column author_candidates (VStr "Unknown") df)
          TikTokDataProcessor.follower_column follower_candidates (VInt 0) df).
Proof.
  intros He Hs. unfold TikTokDataProcessor.process_data. rewrite He.
  unfold assign_spec, view_candidates, author_candidates, follower_candidates, getitem.
  cbn [setitem_list fresh DataFrame_new columns rows rbind List.find].
  rewrite Hs. cbn [rbind].
  destruct (has_column "video_playcount" df), (has_column "stats_playCount" df),
    (has_column "play_count" df); cbn [rbind];
  destruct (has_column "author_username" df), (has_column "author_uniqueId" df),
    (has_column "author_nickname" df); cbn [rbind];
  destruct (has_column "author_followercount" df),
    (has_column "authorStats_followerCount" df); cbn [rbind]; reflexivity.
Qed.

Lemma setitem_series_rows (f : DataFrame) (c : string) (s : list value) :
  columns f ≠ [] →
  setitem_series f c s
  = mkDF (add_column c (columns f))
         (imap (λ i r, dict_set c (default NaN (s !! i)) r) (rows f)).
Proof.
  intros Hc. unfold setitem_series, fresh. destruct (columns f); [congruence|reflexivity].
Qed.

Lemma assign_spec_rows (f : DataFrame) (c : string) (cands : list string)
      (dflt : value) (df : DataFrame) :
  columns f ≠ [] →
  assign_spec f c cands dflt df
  = mkDF (add_column c (columns f))
         (imap (λ i r, dict_set c (resolve_at cands dflt df i) r) (rows f)).
Proof.
  intros Hc. unfold assign_spec, resolve_at.
  destruct (List.find _ cands).
  - apply setitem_series_rows, Hc.
  - unfold setitem_scalar. f_equal. 
    apply list_eq; intros i. rewrite list_lookup_fmap, list_lookup_imap. reflexivity.
Qed.

Lemma setitem_series_columns_not_nil (f : DataFrame) (c : string) (s : list value) :
  columns (setitem_series f c s) ≠ [].
Proof.
  unfold setitem_series. destruct (fresh f); [discriminate | apply add_column_not_nil].
Qed.

Lemma assign_spec_columns_not_nil (f : DataFrame) (c : string) (cands : list string)
      (dflt : value) (df : DataFrame) :
  columns (assign_spec f c cands dflt df) ≠ [].
Proof.
  unfold assign_spec. destruct (List.find _ cands).
  - apply setitem_series_columns_not_nil.
  - apply add_column_not_nil.
Qed.

Lemma resolve_at_lookup cands dflt df i r :
  rows df !! i = Some r → resolve_at cands dflt df i = resolve_spec cands dflt df r.
Proof.
  intros Hr. unfold resolve_at, resolve_spec. destruct (List.find _ cands); [|reflexivity].
  rewrite series_lookup, Hr. reflexivity.
Qed.

Lemma range_lookup (a b i : nat) :
  i < b - a → range a b !! i = Some (VInt (Z.of_nat (a + i))).
Proof.
  intros Hi. unfold range. rewrite list_lookup_fmap, lookup_seq_lt by exact Hi. reflexivity.
Qed.

Lemma range_length (a b : nat) : length (range a b) = b - a.
Proof. unfold range. rewrite length_fmap, length_seq. reflexivity. Qed.

Lemma process_data_normalize (df : DataFrame) :
  empty df = false → has_column "source_link" df = true →
  TikTokDataProcessor.process_data df = Ok (normalize_spec df).
Proof.
  intros He Hs. rewrite process_data_stages by assumption. f_equal.
  unfold normalize_spec. rewrite He.
  rewrite !assign_spec_rows
    by first [apply assign_spec_columns_not_nil | apply setitem_series_columns_not_nil].
  rewrite setitem_series_rows by discriminate.
  cbn [columns rows]. f_equal.
  apply list_eq; intros i. rewrite !list_lookup_imap, list_lookup_fmap.
  destruct (rows df !! i) as [r|] eqn:Hr.
  - assert (Hi : i < len df) by (apply lookup_lt_Some in Hr; exact Hr).
    rewrite range_lookup by lia.
    rewrite !(resolve_at_lookup _ _ _ _ _ Hr), series_lookup, Hr.
    reflexivity.
  - apply lookup_ge_None in Hr.
    rewrite (proj2 (lookup_ge_None (range 1 (len df + 1)) i)); [reflexivity|].
    rewrite range_length. unfold len. lia.
Qed.

Lemma process_data_empty (df : DataFrame) :
  empty df = true → TikTokDataProcessor.process_data df = Ok DataFrame_new.
Proof. intros He. unfold TikTokDataProcessor.process_data. rewrite He. reflexivity. Qed.

(** Without a [source_link] column the normalizer raises [KeyError]. *)
Lemma process_data_requires_source_link (df : DataFrame) :
  empty df = false → has_column "source_link" df = false →
  TikTokDataProcessor.process_data df = Raise "'source_link'".
Proof.
  intros He Hs. unfold TikTokDataProcessor.process_data, getitem.
  rewrite He, Hs. reflexivity.
Qed.

Lemma has_column_true (c : string) (df : DataFrame) :
  has_column c df = true ↔ c ∈ columns df.
Proof. unfold has_column. apply bool_decide_eq_true. Qed.

Lemma normalize_spec_series (df : DataFrame) (c : string) (g : dict → value) :
  empty df = false →
  (∀ i r, cell (normalized_row df i r) c = g r) →
  series (normalize_spec df) c = g <$> rows df.
Proof.
  intros He Hg. unfold normalize_spec, series. rewrite He. cbn [rows].
  apply list_eq; intros i.
  rewrite !list_lookup_fmap, list_lookup_imap.
  destruct (rows df !! i) as [r|]; [|reflexivity].
  simpl. rewrite Hg. reflexivity.
Qed.

Lemma normalize_spec_len (df : DataFrame) :
  empty df = false → len (normalize_spec df) = len df.
Proof.
  intros He. unfold normalize_spec, len. rewrite He. cbn [rows]. apply length_imap.
Qed.

Lemma normalize_spec_stt (df : DataFrame) :
  empty df = false →
  series (normalize_spec df) "STT" = (λ k, VInt (Z.of_nat k)) <$> seq 1 (len df).
Proof.
  intros He. unfold normalize_spec, series. rewrite He. cbn [rows].
  apply list_eq; intros i.
  rewrite !list_lookup_fmap, list_lookup_imap.
  destruct (rows df !! i) as [r|] eqn:Hr.
  - apply lookup_lt_Some in Hr. rewrite lookup_seq_lt by exact Hr. reflexivity.
  - apply lookup_ge_None in Hr. rewrite lookup_seq_ge by exact Hr. reflexivity.
Qed.

(** C2. On an empty table [process_data] returns an empty table at once.
    On a non-empty table of N rows that has a [source_link] column it
    returns a table of N rows whose [STT] column is 1, 2, ..., N and whose
    [Link Video] column is, position by position, the input's
    [source_link] column. *)
Theorem process_data_numbers_and_copies_links (df : DataFrame) :
  (empty df = true → TikTokDataProcessor.process_data df = Ok DataFrame_new)
  ∧ (empty df = false → "source_link" ∈ columns df →
     ∃ out, TikTokDataProcessor.process_data df = Ok out
       ∧ len out = len df
       ∧ series out "STT" = (λ k, VInt (Z.of_nat k)) <$> seq 1 (len df)
       ∧ series out "Link Video" = series df "source_link").
Proof.
  split; [apply process_data_empty|].
  intros He Hs. apply has_column_true in Hs.
  exists (normalize_spec df). split; [apply process_data_normalize; assumption|].
  split; [apply normalize_spec_len, He|].
  split; [apply normalize_spec_stt, He|].
  apply (normalize_spec_series df "Link Video" (λ r, cell r "source_link") He).
  intros i r. reflexivity.
Qed.

Lemma process_data_numbers_and_copies_links_witness :
  TikTokDataProcessor.process_data DataFrame_new = Ok DataFrame_new
  ∧ ∃ out, TikTokDataProcessor.process_data Fixtures.raw_table = Ok out
      ∧ len out = 2
      ∧ series out "STT" = [VInt 1; VInt 2]
      ∧ series out "Link Video" = [Fixtures.link_a; Fixtures.link_c].
Proof.
  split.
  - apply (proj1 (process_data_numbers_and_copies_links DataFrame_new)). reflexivity.
  - apply (proj2 (process_data_numbers_and_copies_links Fixtures.raw_table)).
    + reflexivity.
    + apply has_column_true. reflexivity.
Defined.

Lemma resolve_spec_first (c : string) (rest : list string) (dflt : value)
      (df : DataFrame) (r : dict) :
  has_column c df = true → resolve_spec (c :: rest) dflt df r = cell r c.
Proof. intros Hc. unfold resolve_spec. simpl. rewrite Hc. reflexivity. Qed.

Lemma resolve_spec_none (cands : list string) (dflt : value)
      (df : DataFrame) (r : dict) :
  (∀ c, c ∈ cands → has_column c df = false) → resolve_spec cands dflt df r = dflt.
Proof.
  intros Hnone. unfold resolve_spec.
  destruct (List.find _ cands) as [c|] eqn:Hf; [|reflexivity].
  apply find_some in Hf as [Hin Hc]. apply list_elem_of_In in Hin.
  rewrite (Hnone c Hin) in Hc. discriminate.
Qed.

Lemma fmap_constant {A B} (g : A → B) (v : B) (l : list A) :
  (∀ x, g x = v) → g <$> l = replicate (length l) v.
Proof.
  intros Hg. induction l as [|x l IH]; simpl; [reflexivity|].
  rewrite Hg. f_equal. exact IH.
Qed.

(** C3. On a non-empty table with a [source_link] column [process_data]
    does not raise, whichever of the candidate columns are missing.  Each of
    the three logical fields is taken from the first of its candidate columns
    (in the stated priority order) that is a column of the table; in
    particular a table with both [video_playcount] and [stats_playCount]
    yields each row's [video_playcount]; and a field none of whose
    candidates is a column gets its default ([0], ["Unknown"], [0]) in
    every row. *)
Theorem process_data_resolves_columns_by_priority (df : DataFrame) :
  empty df = false → "source_link" ∈ columns df →
  ∃ out, TikTokDataProcessor.process_data df = Ok out
    ∧ series out TikTokDataProcessor.view_column
      = resolve_spec view_candidates (VInt 0) df <$> rows df
    ∧ series out TikTokDataProcessor.author_column
      = resolve_spec author_candidates (VStr "Unknown") df <$> rows df
    ∧ series out TikTokDataProcessor.follower_column
      = resolve_spec follower_candidates (VInt 0) df <$> rows df
    ∧ (has_column "video_playcount" df = true →
       series out TikTokDataProcessor.view_column = series df "video_playcount")
    ∧ ((∀ c, c ∈ view_candidates → has_column c df = false) →
       series out TikTokDataProcessor.view_column = replicate (len df) (VInt 0))
    ∧ ((∀ c, c ∈ author_candidates → has_column c df = false) →
       series out TikTokDataProcessor.author_column
       = replicate (len df) (VStr "Unknown"))
    ∧ ((∀ c, c ∈ follower_candidates → has_column c df = false) →
       series out TikTokDataProcessor.follower_column
       = replicate (len df) (VInt 0)).
Proof.
  intros He Hs. apply has_column_true in Hs.
  exists (normalize_spec df). split; [apply process_data_normalize; assumption|].
  assert (Hv : series (normalize_spec df) TikTokDataProcessor.view_column
               = resolve_spec view_candidates (VInt 0) df <$> rows df)
    by (apply normalize_spec_series; [exact He | intros; reflexivity]).
  assert (Ha : series (normalize_spec df) TikTokDataProcessor.author_column
               = resolve_spec author_candidates (VStr "Unknown") df <$> rows df)
    by (apply normalize_spec_series; [exact He | intros; reflexivity]).
  assert (Hf : series (normalize_spec df) TikTokDataProcessor.follower_column
               = resolve_spec follower_candidates (VInt 0) df <$> rows df)
    by (apply normalize_spec_series; [exact He | intros; reflexivity]).
  assert (Hconst : ∀ (v : value) (g : dict → value),
             (∀ r, g r = v) → g <$> rows df = replicate (len df) v)
    by (intros v g Hg; apply fmap_constant, Hg).
  repeat split; try assumption.
  - intros Hc. rewrite Hv. unfold series. apply list_fmap_ext. intros _ r _.
    apply resolve_spec_first, Hc.
  - intros Hn. rewrite Hv. apply Hconst. intros r. apply resolve_spec_none, Hn.
  - intros Hn. rewrite Ha. apply Hconst. intros r. apply resolve_spec_none, Hn.
  - intros Hn. rewrite Hf. apply Hconst. intros r. apply resolve_spec_none, Hn.
Qed.

Lemma process_data_resolves_columns_by_priority_witness :
  ∃ out, TikTokDataProcessor.process_data Fixtures.raw_table = Ok out
    ∧ series out TikTokDataProcessor.view_column = [VInt 1200; VInt 58]
    ∧ series out TikTokDataProcessor.author_column = [VStr "a"; VStr "c"]
    ∧ series out TikTokDataProcessor.follower_column = [VInt 0; VInt 0].
Proof.
  destruct (process_data_resolves_columns_by_priority Fixtures.raw_table)
    as (out & Hrun & Hv & Ha & Hf & _).
  - reflexivity.
  - apply has_column_true. reflexivity.
  - exists out. split; [exact Hrun|]. rewrite Hv, Ha, Hf. repeat split; reflexivity.
Defined.

(** ** The fetcher *)

Lemma setitem_scalar_stamps (df : DataFrame) (c : string) (v : value) :
  c ∈ columns (setitem_scalar df c v)
  ∧ ∀ r, r ∈ rows (setitem_scalar df c v) → cell r c = v.
Proof.
  split.
  - apply add_column_elem. left. reflexivity.
  - intros r Hr. cbn [setitem_scalar rows] in Hr.
    apply list_elem_of_fmap in Hr as (r0 & -> & _). apply cell_dict_set_eq.
Qed.

(** C8. [fetch_data] returns for every link, scratch path and file system,
    whatever the scraper does: when the scraper raises, or the scratch file
    cannot be read back (absent, not a table, no columns), the result is the
    empty frame [pd.DataFrame()]; otherwise it is the table read back with
    its [source_link] column set to the link.  So a non-empty result has a
    [source_link] column, and every row of a result carries the input link
    there. *)
Theorem fetch_data_never_raises
        `{Pyktok} (link : value) (output_path : string) (fs : gmap string file) :
  ∃ fs' df,
    TikTokDataFetcher.fetch_data link output_path fs = (fs', Ok df)
    ∧ fs' = (save_tiktok link true output_path fs).1
    ∧ match (save_tiktok link true output_path fs).2 with
      | Raise _ => df = DataFrame_new
      | Ok _ =>
          match read_csv output_path fs' with
          | Raise _ => df = DataFrame_new
          | Ok data => df = setitem_scalar data "source_link" link
          end
      end
    ∧ (empty df = false → "source_link" ∈ columns df)
    ∧ (∀ r, r ∈ rows df → cell r "source_link" = link).
Proof.
  unfold TikTokDataFetcher.fetch_data, try_except, bind, ret.
  destruct (save_tiktok link true output_path fs) as [fs1 [[]|e]]; cbn [fst snd].
  - destruct (read_csv output_path fs1) as [data|e] eqn:Hread.
    + exists fs1, (setitem_scalar data "source_link" link).
      split; [reflexivity|]. split; [reflexivity|].
      rewrite Hread. split; [reflexivity|].
      destruct (setitem_scalar_stamps data "source_link" link) as [Hc Hr].
      split; [intros _; exact Hc | exact Hr].
    + exists fs1, DataFrame_new. split; [reflexivity|]. split; [reflexivity|].
      rewrite Hread.
      split; [reflexivity|]. split; [discriminate | intros r Hr; inversion Hr].
  - eexists _, _. split; [reflexivity|]. split; [reflexivity|].
    split; [reflexivity|]. split; [discriminate | intros r Hr; inversion Hr].
Qed.

Lemma fetch_data_never_raises_witness :
  ∃ fs' df,
    TikTokDataFetcher.fetch_data (H := Fixtures.scraper) Fixtures.link_a "scratch.csv" ∅
    = (fs', Ok df)
    ∧ empty df = false
    ∧ series df "source_link" = [Fixtures.link_a].
Proof.
  destruct (fetch_data_never_raises (H := Fixtures.scraper)
              Fixtures.link_a "scratch.csv" ∅)
    as (fs' & df & Hrun & Hfs & Hdf & _ & _).
  exists fs', df. split; [exact Hrun|].
  subst fs'. vm_compute in Hdf. subst df. split; reflexivity.
Defined.

(** A scraper failure and an unreadable scratch file both come back as the
    empty frame. *)
Example fetch_data_failures :
  (TikTokDataFetcher.fetch_data (H := Fixtures.scraper) Fixtures.link_b "scratch.csv" ∅).2
  = Ok DataFrame_new
  ∧ (TikTokDataFetcher.fetch_data (H := Fixtures.garbling_scraper)
       Fixtures.link_a "scratch.csv" ∅).2
    = Ok DataFrame_new.
Proof. split; vm_compute; reflexivity. Qed.

(** ** The two sinks *)

Lemma os_path_join_relative (a b : string) :
  String.prefix "/" b = false →
  ∃ sep, (sep = EmptyString ∨ sep = "/") ∧ os_path_join a b = a +:+ sep +:+ b.
Proof.
  intros Hb. unfold os_path_join. rewrite Hb. destruct a as [|c a].
  - exists EmptyString. split; [left; reflexivity | reflexivity].
  - destruct (String.prefix "/" (String.rev (String c a))).
    + exists EmptyString. split; [left; reflexivity | reflexivity].
    + exists "/". split; [right; reflexivity | reflexivity].
Qed.

(** C7. Given an empty table, the file sink and the spreadsheet sink both
    return the empty string and leave the world as it was: no file, no call
    to the spreadsheet service, nothing in the trace.  Given a non-empty
    table, the file sink writes it at [os.path.join(output_dir, filename)]
    and returns that path, which for a relative file name is the output
    directory followed by the file name. *)
Theorem sinks_skip_empty_tables_and_file_sink_returns_path
        `{Gspread} (output_dir : string) (df : DataFrame) (name : string) (w : World) :
  (empty df = true →
   CSVDataStorage.save_data output_dir df name w = (w, Ok EmptyString)
   ∧ GoogleSheetsDataStorage.save_data df name w = (w, Ok EmptyString))
  ∧ (empty df = false →
     let path := os_path_join output_dir name in
     CSVDataStorage.save_data output_dir df name w
     = (mkWorld (<[path := CsvFile df]> (files w)) (remote w)
                (trace w ++ [EvToCsv path df]),
        Ok path)
     ∧ (String.prefix "/" name = false →
        ∃ sep, (sep = EmptyString ∨ sep = "/") ∧ path = output_dir +:+ sep +:+ name)).
Proof.
  split.
  - intros He. unfold CSVDataStorage.save_data, GoogleSheetsDataStorage.save_data.
    rewrite He. split; reflexivity.
  - intros He path. split.
    + unfold CSVDataStorage.save_data. rewrite He. reflexivity.
    + apply os_path_join_relative.
Qed.

Lemma sinks_skip_empty_tables_and_file_sink_returns_path_witness :
  let w := Fixtures.online_world [] in
  (CSVDataStorage.save_data "tiktok_data" DataFrame_new "summary.csv" w
   = (w, Ok EmptyString)
   ∧ GoogleSheetsDataStorage.save_data DataFrame_new "Sheet" w = (w, Ok EmptyString))
  ∧ (CSVDataStorage.save_data "tiktok_data" Fixtures.raw_table "raw.csv" w).2
    = Ok "tiktok_data/raw.csv".
Proof.
  intros w. split.
  - apply (proj1 (sinks_skip_empty_tables_and_file_sink_returns_path
                    "tiktok_data" DataFrame_new "summary.csv" w)).
    reflexivity.
  - destruct (proj2 (sinks_skip_empty_tables_and_file_sink_returns_path
                       "tiktok_data" Fixtures.raw_table "raw.csv" w) eq_refl)
      as [Hrun _].
    rewrite Hrun. reflexivity.
Defined.

Lemma tolist_header_then_rows (df : DataFrame) :
  header_then_rows df (columns_tolist df :: values_tolist df).
Proof.
  unfold header_then_rows, columns_tolist, values_tolist. split; [|split].
  - cbn [length]. rewrite length_fmap. reflexivity.
  - exists (VStr <$> columns df). split; [reflexivity|].
    split; [apply length_fmap|].
    intros j c Hc. rewrite list_lookup_fmap, Hc. reflexivity.
  - intros i r Hr. exists (cell r <$> columns df).
    split; [change (((λ r0, cell r0 <$> columns df) <$> rows df) !! i
                    = Some (cell r <$> columns df));
            rewrite list_lookup_fmap, Hr; reflexivity|].
    split; [apply length_fmap|].
    intros j c Hc. rewrite list_lookup_fmap, Hc. reflexivity.
Qed.

(** C6. The spreadsheet sink returns a string for every table, name and
    world, whatever the service does: it never raises.  For a non-empty
    table the five remote calls are made in order (authorize, create, grant
    public read access, open the first worksheet, update); as soon as one of
    them raises the result is the empty string; when all succeed the result
    is the identifier [create] returned and the update, at cell [A1], was
    given [values]: one line with the column names followed by one line per
    row of the table, in row order, each holding the cells of that row in
    column order.  The file system is not touched. *)
Theorem sheets_save_data_never_raises
        `{Gspread} (df : DataFrame) (sheet_name : string) (w : World) :
  ∃ w' s values,
    GoogleSheetsDataStorage.save_data df sheet_name w = (w', Ok s)
    ∧ files w' = files w
    ∧ header_then_rows df values
    ∧ (empty df = false →
       match gs_authorize (remote w) with
       | (r1, Raise _) => s = EmptyString ∧ remote w' = r1
       | (r1, Ok _) =>
       match gs_create sheet_name r1 with
       | (r2, Raise _) => s = EmptyString ∧ remote w' = r2
       | (r2, Ok id) =>
       match gs_insert_permission id "anyone" "reader" r2 with
       | (r3, Raise _) => s = EmptyString ∧ remote w' = r3
       | (r3, Ok _) =>
       match gs_get_worksheet id 0 r3 with
       | (r4, Raise _) => s = EmptyString ∧ remote w' = r4
       | (r4, Ok _) =>
       match gs_update id "A1" values r4 with
       | (r5, Raise _) => s = EmptyString ∧ remote w' = r5
       | (r5, Ok _) =>
           s = id ∧ remote w' = r5
           ∧ trace w' = trace w ++
               [EvAuthorize; EvCreate sheet_name;
                EvInsertPermission id "anyone" "reader";
                EvGetWorksheet id 0; EvUpdate id "A1" values]
       end end end end end).
Proof.
  unfold GoogleSheetsDataStorage.save_data.
  destruct (empty df) eqn:He.
  { exists w, EmptyString, (columns_tolist df :: values_tolist df).
    split; [reflexivity|]. split; [reflexivity|].
    split; [apply tolist_header_then_rows | discriminate]. }
  unfold try_except, bind, ret, GspreadClient._connect_to_google_sheets,
    GspreadClient.create, GspreadClient.insert_permission,
    GspreadClient.get_worksheet, GspreadClient.update, emit, on_remote, bind.
  cbn [files remote trace].
  destruct (gs_authorize (remote w)) as [r1 [[]|e1]]; cbn [files remote trace];
    [|eexists _, _, _; split; [reflexivity|];
      split; [reflexivity|]; split; [apply tolist_header_then_rows|]; cbn; auto].
  destruct (gs_create sheet_name r1) as [r2 [id|e2]]; cbn [files remote trace];
    [|eexists _, _, _; split; [reflexivity|];
      split; [reflexivity|]; split; [apply tolist_header_then_rows|]; cbn; auto].
  destruct (gs_insert_permission id "anyone" "reader" r2) as [r3 [[]|e3]];
    cbn [files remote trace];
    [|eexists _, _, _; split; [reflexivity|];
      split; [reflexivity|]; split; [apply tolist_header_then_rows|]; cbn; auto].
  destruct (gs_get_worksheet id 0 r3) as [r4 [[]|e4]]; cbn [files remote trace];
    [|eexists _, _, _; split; [reflexivity|];
      split; [reflexivity|]; split; [apply tolist_header_then_rows|]; cbn; auto].
  destruct (gs_update id "A1" ([columns_tolist df] ++ values_tolist df) r4)
    as [r5 [[]|e5]] eqn:Hup; cbn [app] in Hup;
    eexists _, _, (columns_tolist df :: values_tolist df);
    (split; [reflexivity|]); cbn [files remote trace];
    (split; [reflexivity|]); (split; [apply tolist_header_then_rows|]);
    intros _; rewrite Hup.
  - repeat split. rewrite <- !app_assoc. reflexivity.
  - auto.
Qed.

Lemma sheets_save_data_never_raises_witness :
  (GoogleSheetsDataStorage.save_data Fixtures.raw_table "Sheet"
     (Fixtures.online_world [])).2 = Ok "id:Sheet"
  ∧ (GoogleSheetsDataStorage.save_data Fixtures.raw_table "Sheet"
       (Fixtures.read_only_world [])).2 = Ok EmptyString.
Proof.
  split.
  - destruct (sheets_save_data_never_raises
                (H := Fixtures.online []) Fixtures.raw_table "Sheet"
                (Fixtures.online_world []))
      as (w' & s & values & Hrun & _ & _ & Hs).
    rewrite Hrun. specialize (Hs eq_refl). cbn in Hs.
    destruct Hs as [-> _]. reflexivity.
  - destruct (sheets_save_data_never_raises
                (H := Fixtures.read_only []) Fixtures.raw_table "Sheet"
                (Fixtures.read_only_world []))
      as (w' & s & values & Hrun & _ & _ & Hs).
    rewrite Hrun. specialize (Hs eq_refl). cbn in Hs.
    destruct Hs as [-> _]. reflexivity.
Defined.

(** ** The loop of [collect_data] *)

Section Loop.
Context `{Gspread} `{Os} (data_fetcher : ABC.DataFetcher).

Import DataCollector.

Lemma not_last_spec (i n : nat) : not_last i n = bool_decide (S i < n).
Proof.
  unfold not_last. case_bool_decide as Hd.
  - apply Z.ltb_lt. lia.
  - apply Z.ltb_ge. lia.
Qed.

(** One pass of the loop body, whatever the fetcher and the operating system
    do: it does not raise; the scratch file is removed exactly when the
    fetcher returned and the removal was not refused. *)
Lemma loop_body_run (n i : nat) (link : value) (st : Locals) :
  let path := temp_filename i in
  let fs1 := (ABC.fetch_data link path (files (world st))).1 in
  let r := (ABC.fetch_data link path (files (world st))).2 in
  let c := cleanup_error path fs1 r in
  loop_body data_fetcher n i link st
  = (mkLocals
       (mkWorld (match r, c with
                 | Ok _, None => delete path fs1
                 | _, _ => fs1
                 end)
                (remote (world st))
                (trace (world st)
                 ++ step_trace n i link r (bool_decide (is_Some (fs1 !! path)))))
       (accumulate_spec i r (all_data st))
       (results st ++ pass_records i link r c),
     Ok tt).
Proof.
  intros path fs1 r c. subst fs1 r c.
  unfold loop_body, try_except, bind, in_world, call_fetch, step_trace,
    cleanup_error, pass_records.
  fold path.
  destruct (ABC.fetch_data link path (files (world st))) as [fs1 [df|e]];
    cbn [fst snd world all_data results files remote trace].
  - unfold outcome_spec, error_of, accumulate_spec.
    destruct (empty df) eqn:He; cbn [negb].
    all: unfold results_append, set_all_data, os_path_exists, when, os_remove,
           time_sleep, emit, on_files, bind, ret, index_of;
         cbn [fst snd world all_data results files remote trace].
    all: destruct (fs1 !! path) as [f|] eqn:Hf;
         [rewrite bool_decide_eq_true_2 by eauto
         |rewrite bool_decide_eq_false_2 by (intros [? ?]; discriminate)];
         cbn [fst snd world all_data results files remote trace]; try rewrite Hf;
         try destruct (remove_refused path fs1) as [e|];
         cbn [fst snd world all_data results files remote trace];
         destruct (not_last i n);
         cbn [fst snd world all_data results files remote trace outcome_record];
         rewrite <- ?app_assoc; try reflexivity.
    all: rewrite ?delete_id by exact Hf; rewrite ?app_nil_r; reflexivity.
  - unfold results_append, when, time_sleep, emit, bind, ret, outcome_spec,
      error_of, index_of, accumulate_spec.
    cbn [fst snd world all_data results files remote trace outcome_record].
    destruct (not_last i n);
      cbn [fst snd world all_data results files remote trace];
      rewrite <- ?app_assoc; reflexivity.
Qed.

Lemma step_trace_pacing (n i : nat) (link : value) (r : result DataFrame) (b : bool) :
  List.filter is_fetch_or_sleep (step_trace n i link r b)
  = EvFetch link (temp_filename i) r :: (if decide (S i < n) then [EvSleep 5] else []).
Proof.
  unfold step_trace. rewrite not_last_spec.
  cbn [List.filter is_fetch_or_sleep]. f_equal. rewrite List.filter_app.
  assert (Hrm : List.filter is_fetch_or_sleep
                  (match r with
                   | Ok _ => if b then [EvRemove (temp_filename i)] else []
                   | Raise _ => []
                   end) = []) by (destruct r, b; reflexivity).
  rewrite Hrm. cbn [app].
  case_bool_decide; [rewrite decide_True by assumption
                    |rewrite decide_False by assumption]; reflexivity.
Qed.

Lemma step_trace_quiet (n i : nat) (link : value) (r : result DataFrame) (b : bool) :
  List.filter is_to_csv (step_trace n i link r b) = []
  ∧ List.filter is_gspread (step_trace n i link r b) = [].
Proof.
  unfold step_trace. destruct r, b, (not_last i n); split; reflexivity.
Qed.

Lemma cleanup_error_refusal (path : string) (fs : gmap string file)
      (r : result DataFrame) :
  refusal (cleanup_error path fs r).
Proof.
  unfold cleanup_error, refusal. destruct r as [df|e]; [|left; reflexivity].
  destruct (fs !! path); [right; eauto | left; reflexivity].
Qed.

(** The whole loop: the passes it went through determine the outcome list,
    the cumulative table and the fetches and waits. *)
Lemma for_enumerate_collect (n i : nat) (links : list value) (st : Locals) :
  ∃ (passes : list pass) st' tr,
    for_enumerate i links (loop_body data_fetcher n) st = (st', Ok tt)
    ∧ passes.*1.*1 = links
    ∧ Forall (answered_by data_fetcher) passes.*1
    ∧ Forall refusal passes.*2
    ∧ results st' = results st ++ passes_spec i passes
    ∧ all_data st' = cumulative_spec i passes.*1 (all_data st)
    ∧ remote (world st') = remote (world st)
    ∧ trace (world st') = trace (world st) ++ tr
    ∧ List.filter is_fetch_or_sleep tr = pacing_spec n i passes.*1
    ∧ List.filter is_to_csv tr = []
    ∧ List.filter is_gspread tr = [].
Proof.
  revert i st. induction links as [|link links IH]; intros i st.
  - exists [], st, []. cbn. rewrite !app_nil_r. repeat split; try reflexivity;
      constructor.
  - cbn [for_enumerate]. unfold bind at 1. rewrite loop_body_run.
    set (r := (ABC.fetch_data link (temp_filename i) (files (world st))).2).
    set (fs1 := (ABC.fetch_data link (temp_filename i) (files (world st))).1).
    set (b := bool_decide (is_Some (fs1 !! temp_filename i))).
    set (c := cleanup_error (temp_filename i) fs1 r).
    match goal with |- context [for_enumerate _ _ _ ?s] => set (st1 := s) end.
    destruct (IH (S i) st1)
      as (passes & st' & tr & Hrun & Hl & Hans & Href & Hres & Hall & Hrem & Htr
          & Hp & Hc & Hg).
    exists ((link, r, c) :: passes), st', (step_trace n i link r b ++ tr).
    split; [exact Hrun|].
    split; [cbn; f_equal; exact Hl|].
    split; [cbn [fmap list_fmap fst]; constructor; [|exact Hans];
            exists (temp_filename i), (files (world st)); reflexivity|].
    split; [cbn [fmap list_fmap snd]; constructor; [|exact Href];
            apply cleanup_error_refusal|].
    split; [rewrite Hres; subst st1; cbn [results passes_spec];
            rewrite <- app_assoc; reflexivity|].
    split; [rewrite Hall; reflexivity|].
    split; [rewrite Hrem; reflexivity|].
    split; [rewrite Htr; subst st1; cbn [world trace]; rewrite <- app_assoc; reflexivity|].
    cbn [fmap list_fmap fst pacing_spec].
    rewrite !List.filter_app, Hp, Hc, Hg, step_trace_pacing.
    destruct (step_trace_quiet n i link r b) as [-> ->].
    repeat split; reflexivity.
Qed.

Lemma filter_sleep_pacing (tr : list event) :
  List.filter is_sleep (List.filter is_fetch_or_sleep tr) = List.filter is_sleep tr.
Proof.
  induction tr as [|ev tr IH]; [reflexivity|].
  destruct ev; cbn; rewrite ?IH; reflexivity.
Qed.

Lemma pacing_spec_sleeps (n i : nat) (answers : list (value * result DataFrame)) :
  i + length answers = n →
  length (List.filter is_sleep (pacing_spec n i answers)) = length answers - 1.
Proof.
  revert i. induction answers as [|[link r] answers IH]; intros i Hn; [reflexivity|].
  cbn [pacing_spec List.filter is_sleep]. rewrite List.filter_app, length_app.
  cbn [length] in Hn. rewrite (IH (S i)) by lia.
  destruct (decide (S i < n)) as [Hlt|Hge]; cbn; destruct answers; cbn in *; lia.
Qed.

End Loop.

(** ** Outcome lists *)

Lemma outcomes_spec_records (i : nat) (answers : list (value * result DataFrame)) :
  outcomes_spec i answers
  = records_spec i ((λ a, (a.1, error_of a.2)) <$> answers).
Proof.
  revert i. induction answers as [|[link r] answers IH]; intros i; [reflexivity|].
  cbn. rewrite IH. reflexivity.
Qed.

Lemma outcomes_spec_length (i : nat) (answers : list (value * result DataFrame)) :
  length (outcomes_spec i answers) = length answers.
Proof.
  revert i. induction answers as [|[link r] answers IH]; intros i; [reflexivity|].
  cbn. rewrite IH. reflexivity.
Qed.

Lemma outcomes_spec_lookup (i k : nat) (answers : list (value * result DataFrame))
      (link : value) (r : result DataFrame) :
  answers !! k = Some (link, r) →
  outcomes_spec i answers !! k = Some (outcome_spec (i + k) link r).
Proof.
  revert i k. induction answers as [|[link' r'] answers IH]; intros i k Hk.
  - rewrite lookup_nil in Hk. discriminate.
  - destruct k as [|k]; cbn [outcomes_spec].
    + injection Hk as -> ->. rewrite Nat.add_0_r. reflexivity.
    + change (outcomes_spec (S i) answers !! k
              = Some (outcome_spec (i + S k) link r)).
      rewrite (IH (S i) k Hk). do 2 f_equal. lia.
Qed.

Lemma outcome_record_well_formed (i : nat) (link : value) (err : option exn) :
  well_formed_outcome (outcome_record i link err).
Proof.
  destruct err as [e|]; [right | left]; cbn.
  - split; [reflexivity | exists e; reflexivity].
  - split; reflexivity.
Qed.

Lemma records_spec_well_formed (i : nat) (l : list (value * option exn)) :
  Forall well_formed_outcome (records_spec i l).
Proof.
  revert i. induction l as [|[link err] l IH]; intros i; cbn; constructor.
  - apply outcome_record_well_formed.
  - apply IH.
Qed.

Lemma records_spec_index (i : nat) (l : list (value * option exn)) :
  dict_get "index" <$> records_spec i l
  = (λ k, Some (VInt (Z.of_nat k))) <$> seq (S i) (length l).
Proof.
  revert i. induction l as [|[link err] l IH]; intros i; [reflexivity|].
  cbn [records_spec fmap list_fmap length seq]. rewrite IH. f_equal.
  destruct err; cbn; do 2 f_equal; lia.
Qed.

Lemma records_spec_link (i : nat) (l : list (value * option exn)) :
  dict_get "link" <$> records_spec i l = Some <$> l.*1.
Proof.
  revert i. induction l as [|[link err] l IH]; intros i; [reflexivity|].
  cbn [records_spec fmap list_fmap]. rewrite IH. f_equal. destruct err; reflexivity.
Qed.

(** Without a refused removal every pass appends one record. *)
Lemma passes_spec_outcomes (i : nat) (passes : list pass) :
  Forall (λ c, c = None) passes.*2 →
  passes_spec i passes = outcomes_spec i passes.*1.
Proof.
  revert i. induction passes as [|[[link r] c] passes IH]; intros i Hc; [reflexivity|].
  cbn [fmap list_fmap snd] in Hc. inversion Hc as [|? ? Hnone Hrest]; subst.
  cbn [passes_spec pass_records fmap list_fmap fst outcomes_spec app].
  f_equal. apply IH. exact Hrest.
Qed.

Lemma never_refuses_passes `{Os} (passes : list pass) :
  never_refuses → Forall refusal passes.*2 → Forall (λ c, c = None) passes.*2.
Proof.
  intros Hnever Href. eapply Forall_impl; [exact Href|].
  intros c [Hc|(path & fs & Hc)]; [exact Hc|].
  rewrite <- Hc. apply Hnever.
Qed.

Lemma passes_spec_well_formed (i : nat) (passes : list pass) :
  Forall well_formed_outcome (passes_spec i passes).
Proof.
  revert i. induction passes as [|[[link r] c] passes IH]; intros i; [constructor|].
  cbn [passes_spec pass_records]. constructor; [apply outcome_record_well_formed|].
  apply Forall_app. split; [|apply IH].
  destruct c as [e|]; [|constructor].
  constructor; [apply (outcome_record_well_formed i link (Some e)) | constructor].
Qed.

(** Every pass appends one record, or two. *)
Lemma passes_spec_length (i : nat) (passes : list pass) :
  (length passes <= length (passes_spec i passes) <= 2 * length passes)%nat.
Proof.
  revert i. induction passes as [|[[link r] c] passes IH]; intros i; [cbn; lia|].
  cbn [passes_spec pass_records length app]. rewrite length_app.
  specialize (IH (S i)). destruct c; cbn [length]; lia.
Qed.

(** ** The pipeline, link by link *)

(** When no removal is refused, the loop of [collect_data] appends exactly
    one record per link, in link order: [Success] for a non-empty answer,
    [Failed] with ["Empty data returned"] for an empty one, [Failed] with the
    exception's message when the fetcher raised; the fetcher is called once
    per link, and [time.sleep(5)] follows every call but the last. *)
Lemma collect_loop_when_no_removal_is_refused
      `{Gspread} `{Os} (data_fetcher : ABC.DataFetcher) (links : list value) (w : World) :
  never_refuses →
  ∃ answers st' tr,
    DataCollector.collect_loop data_fetcher links
      (DataCollector.mkLocals w DataFrame_new []) = (st', Ok tt)
    ∧ answers.*1 = links
    ∧ Forall (answered_by data_fetcher) answers
    ∧ DataCollector.results st' = outcomes_spec 0 answers
    ∧ length (DataCollector.results st') = length links
    ∧ (∀ k link r, answers !! k = Some (link, r) →
         DataCollector.results st' !! k
         = Some (outcome_record k link
                   match r with
                   | Ok df => if empty df then Some "Empty data returned" else None
                   | Raise e => Some e
                   end))
    ∧ DataCollector.all_data st' = cumulative_spec 0 answers DataFrame_new
    ∧ trace (DataCollector.world st') = trace w ++ tr
    ∧ List.filter is_fetch_or_sleep tr = pacing_spec (length links) 0 answers
    ∧ length (List.filter is_sleep tr) = length links - 1.
Proof.
  intros Hnever.
  destruct (for_enumerate_collect data_fetcher (length links) 0 links
              (DataCollector.mkLocals w DataFrame_new []))
    as (passes & st' & tr & Hrun & Hl & Hans & Href & Hres & Hall & _ & Htr & Hp & _ & _).
  cbn [DataCollector.results DataCollector.all_data DataCollector.world app]
    in Hres, Hall, Htr.
  rewrite (passes_spec_outcomes 0 passes (never_refuses_passes passes Hnever Href))
    in Hres.
  assert (Hlen : length passes.*1 = length links)
    by (rewrite <- Hl; symmetry; apply length_fmap).
  exists passes.*1, st', tr.
  split; [exact Hrun|]. split; [exact Hl|]. split; [exact Hans|].
  split; [exact Hres|].
  split; [rewrite Hres, outcomes_spec_length; exact Hlen|].
  split; [intros k link r Hk; rewrite Hres;
          apply (outcomes_spec_lookup 0 k passes.*1 link r Hk)|].
  split; [exact Hall|]. split; [exact Htr|]. split; [exact Hp|].
  rewrite <- filter_sleep_pacing, Hp, <- Hlen.
  apply pacing_spec_sleeps. lia.
Qed.

(** Whatever the operating system does about removals, the fetcher is called
    once per link and [time.sleep(5)] follows every call but the last: N-1
    waits for N links. *)
Lemma collect_loop_pacing
      `{Gspread} `{Os} (data_fetcher : ABC.DataFetcher) (links : list value) (w : World) :
  ∃ st' tr,
    DataCollector.collect_loop data_fetcher links
      (DataCollector.mkLocals w DataFrame_new []) = (st', Ok tt)
    ∧ trace (DataCollector.world st') = trace w ++ tr
    ∧ length (List.filter is_sleep tr) = length links - 1.
Proof.
  destruct (for_enumerate_collect data_fetcher (length links) 0 links
              (DataCollector.mkLocals w DataFrame_new []))
    as (passes & st' & tr & Hrun & Hl & _ & _ & _ & _ & _ & Htr & Hp & _ & _).
  exists st', tr. split; [exact Hrun|]. split; [exact Htr|].
  assert (Hlen : length passes.*1 = length links)
    by (rewrite <- Hl; symmetry; apply length_fmap).
  rewrite <- filter_sleep_pacing, Hp, <- Hlen.
  apply pacing_spec_sleeps. lia.
Qed.

(** C1, on a run.  Two links, the repository's fetcher, a scraper that
    answers both, and an operating system on which the scratch files are
    still in use when [os.remove] is called.  Each link is fetched with
    success and recorded [Success]; then the removal raises inside the same
    [try], and the handler appends a [Failed] record for the link that was
    just recorded: four outcome records for two links.  The rows of both
    links are in the cumulative table, and there was one wait. *)
Theorem refused_cleanup_records_the_link_twice :
  let st := (DataCollector.collect_loop (H0 := Fixtures.locking)
               (TikTokDataFetcher.impl (H := Fixtures.scraper))
               [Fixtures.link_a; Fixtures.link_c]
               (DataCollector.mkLocals (Fixtures.online_world []) DataFrame_new [])).1 in
  DataCollector.results st
  = [outcome_record 0 Fixtures.link_a None;
     outcome_record 0 Fixtures.link_a
       (Some (Fixtures.in_use "tiktok_data/temp_tiktok_data_1.csv"));
     outcome_record 1 Fixtures.link_c None;
     outcome_record 1 Fixtures.link_c
       (Some (Fixtures.in_use "tiktok_data/temp_tiktok_data_2.csv"))]
  ∧ length (DataCollector.results st) = 4
  ∧ series (DataCollector.all_data st) "link_index" = [VInt 1; VInt 2]
  ∧ series (DataCollector.all_data st) "source_link"
    = [Fixtures.link_a; Fixtures.link_c]
  ∧ List.filter is_sleep (trace (DataCollector.world st)) = [EvSleep 5].
Proof. vm_compute. repeat split; reflexivity. Qed.

(** Three links, the second of which makes the fetcher raise. *)
Example collect_loop_three_links :
  let st := (DataCollector.collect_loop (H0 := Fixtures.permissive)
               Fixtures.flaky_fetcher
               [Fixtures.link_a; Fixtures.link_b; Fixtures.link_c]
               (DataCollector.mkLocals (Fixtures.online_world []) DataFrame_new [])).1 in
  DataCollector.results st
  = [outcome_record 0 Fixtures.link_a None;
     outcome_record 1 Fixtures.link_b (Some "Read timed out");
     outcome_record 2 Fixtures.link_c None]
  ∧ series (DataCollector.all_data st) "link_index" = [VInt 1; VInt 3]
  ∧ List.filter is_sleep (trace (DataCollector.world st)) = [EvSleep 5; EvSleep 5]
  ∧ is_fetch_or_sleep <$> trace (DataCollector.world st)
    = [true; false; true; true; true; true; false].
Proof. vm_compute. repeat split; reflexivity. Qed.

(** Whenever the fetcher returns and the removal is not refused, the scratch
    file of that link is gone after the loop body. *)
Lemma scratch_file_removed_when_fetch_returns
      `{Gspread} `{Os} (data_fetcher : ABC.DataFetcher) (n i : nat) (link : value)
      (st : DataCollector.Locals) :
  is_ok (ABC.fetch_data link (DataCollector.temp_filename i)
           (files (DataCollector.world st))).2 = true →
  (∀ fs, remove_refused (DataCollector.temp_filename i) fs = None) →
  files (DataCollector.world (DataCollector.loop_body data_fetcher n i link st).1)
    !! DataCollector.temp_filename i = None.
Proof.
  intros Hok Hfree. rewrite loop_body_run. cbn [fst DataCollector.world files].
  unfold cleanup_error.
  destruct (ABC.fetch_data link (DataCollector.temp_filename i)
              (files (DataCollector.world st))) as [fs1 [df|e]]; cbn in *.
  - rewrite Hfree. destruct (fs1 !! DataCollector.temp_filename i);
      apply lookup_delete_eq.
  - discriminate.
Qed.

(** When the fetcher raises, the loop body leaves the file system as the
    fetcher left it: nothing is removed. *)
Lemma scratch_file_kept_when_fetch_raises
      `{Gspread} `{Os} (data_fetcher : ABC.DataFetcher) (n i : nat) (link : value)
      (st : DataCollector.Locals) (fs1 : gmap string file) (e : exn) :
  ABC.fetch_data link (DataCollector.temp_filename i)
    (files (DataCollector.world st)) = (fs1, Raise e) →
  files (DataCollector.world (DataCollector.loop_body data_fetcher n i link st).1)
  = fs1.
Proof.
  intros Hf. rewrite loop_body_run, Hf. reflexivity.
Qed.

(** C4, on a run: the fetcher writes the scratch file of the only link and
    then raises.  The link is recorded [Failed], and its scratch file is
    still there when the loop is over, on an operating system that refuses
    no removal.  The same holds in the earlier script when the scraper's
    file cannot be parsed. *)
Theorem scratch_file_survives_a_raising_link :
  let st := (DataCollector.collect_loop (H0 := Fixtures.permissive)
               Fixtures.flaky_fetcher [Fixtures.link_b]
               (DataCollector.mkLocals (Fixtures.online_world []) DataFrame_new [])).1 in
  let st' := (Script.process_loop (H0 := Fixtures.garbling_scraper)
                (H1 := Fixtures.permissive) [Fixtures.link_a]
                (DataCollector.mkLocals (Fixtures.online_world []) DataFrame_new [])).1 in
  (DataCollector.results st = [outcome_record 0 Fixtures.link_b (Some "Read timed out")]
   ∧ is_Some (files (DataCollector.world st) !! "tiktok_data/temp_tiktok_data_1.csv"))
  ∧ (DataCollector.results st'
     = [outcome_record 0 Fixtures.link_a (Some "Error tokenizing data")]
     ∧ files (DataCollector.world st') !! "tiktok_data/temp_tiktok_data_1.csv"
       = Some (TextFile Fixtures.garbled)).
Proof.
  vm_compute. repeat split; try reflexivity. eexists; reflexivity.
Qed.

(** ** The loop of the earlier script *)

Section ScriptLoop.
Context `{Gspread} `{Pyktok} `{Os}.

Import DataCollector.

(** The script appends its [Success] record after the removal, so one pass
    appends one record whatever happens. *)
Lemma script_loop_body_run (i : nat) (link : value) (st : Locals) :
  ∃ err st',
    Script.loop_body i link st = (st', Ok tt)
    ∧ results st' = results st ++ [outcome_record i link err].
Proof.
  unfold Script.loop_body, try_except, bind, in_world, on_files.
  cbn [fst snd world all_data results files remote trace].
  destruct (save_tiktok link true (temp_filename i) (files (world st)))
    as [fs1 [[]|e]];
    cbn [fst snd world all_data results files remote trace].
  - destruct (read_csv (temp_filename i) fs1) as [data|e];
      cbn [fst snd world all_data results files remote trace].
    + unfold set_all_data, os_remove, emit, on_files, bind, results_append.
      cbn [fst snd world all_data results files remote trace].
      destruct (fs1 !! temp_filename i);
        [destruct (remove_refused (temp_filename i) fs1)|];
        cbn [fst snd world all_data results files remote trace].
      * eexists (Some _). eexists. split; reflexivity.
      * exists None. eexists. split; reflexivity.
      * eexists (Some _). eexists. split; reflexivity.
    + exists (Some e). eexists. split; reflexivity.
  - exists (Some e). eexists. split; reflexivity.
Qed.

Lemma script_for_enumerate (i : nat) (links : list value) (st : Locals) :
  ∃ l st',
    for_enumerate i links Script.loop_body st = (st', Ok tt)
    ∧ l.*1 = links
    ∧ results st' = results st ++ records_spec i l.
Proof.
  revert i st. induction links as [|link links IH]; intros i st.
  - exists [], st. cbn. rewrite app_nil_r. repeat split; reflexivity.
  - destruct (script_loop_body_run i link st) as (err & st1 & Hrun1 & Hres1).
    destruct (IH (S i) st1) as (l & st' & Hrun & Hl & Hres).
    exists ((link, err) :: l), st'.
    split; [cbn [for_enumerate]; unfold bind at 1; rewrite Hrun1; exact Hrun|].
    split; [cbn; f_equal; exact Hl|].
    rewrite Hres, Hres1, <- app_assoc. reflexivity.
Qed.

End ScriptLoop.

(** After the loop of the earlier script, for every list of N links and
    whatever the scraper and the operating system do: every outcome record
    is well formed, the [index] fields are 1, 2, ..., N in that order, and
    the [link] fields are the links in the order given. *)
Lemma script_outcome_list_invariant
      `{Gspread} `{Pyktok} `{Os} (links : list value) (w : World) :
  let table := DataCollector.results
                 (Script.process_loop links
                    (DataCollector.mkLocals w DataFrame_new [])).1 in
  Forall well_formed_outcome table
  ∧ dict_get "index" <$> table
    = (λ k, Some (VInt (Z.of_nat k))) <$> seq 1 (length links)
  ∧ dict_get "link" <$> table = Some <$> links.
Proof.
  intros table.
  destruct (script_for_enumerate 0 links (DataCollector.mkLocals w DataFrame_new []))
    as (l & st' & Hrun & Hl & Hres).
  subst table. unfold Script.process_loop. rewrite Hrun. cbn [fst].
  rewrite Hres. cbn [DataCollector.results app].
  split; [apply records_spec_well_formed|].
  split.
  - rewrite records_spec_index, <- Hl, length_fmap. reflexivity.
  - rewrite records_spec_link, <- Hl. reflexivity.
Qed.

(** After the loop of [collect_data] every outcome record is well formed;
    when no removal is refused, the [index] fields are 1, 2, ..., N in that
    order and the [link] fields are the links in the order given. *)
Lemma outcome_list_invariant_when_no_removal_is_refused
      `{Gspread} `{Os} (data_fetcher : ABC.DataFetcher)
      (links : list value) (w : World) :
  let table := DataCollector.results
                 (DataCollector.collect_loop data_fetcher links
                    (DataCollector.mkLocals w DataFrame_new [])).1 in
  Forall well_formed_outcome table
  ∧ (never_refuses →
     dict_get "index" <$> table
     = (λ k, Some (VInt (Z.of_nat k))) <$> seq 1 (length links)
     ∧ dict_get "link" <$> table = Some <$> links).
Proof.
  intros table.
  destruct (for_enumerate_collect data_fetcher (length links) 0 links
              (DataCollector.mkLocals w DataFrame_new []))
    as (passes & st' & tr & Hrun & Hl & _ & Href & Hres & _).
  subst table. unfold DataCollector.collect_loop. rewrite Hrun. cbn [fst].
  rewrite Hres. cbn [DataCollector.results app].
  split; [apply passes_spec_well_formed|].
  intros Hnever.
  rewrite (passes_spec_outcomes 0 passes (never_refuses_passes passes Hnever Href)).
  rewrite outcomes_spec_records. split.
  - rewrite records_spec_index, length_fmap, <- Hl, !length_fmap. reflexivity.
  - rewrite records_spec_link, <- Hl. f_equal.
    rewrite <- list_fmap_compose. reflexivity.
Qed.

(** C10, on a run.  Three links, the repository's fetcher, a scraper that
    fails on the second link, and an operating system on which the scratch
    files are still in use when [os.remove] is called.  After the loop of
    [collect_data] the [index] fields read 1, 1, 2, 3, 3: the first and the
    third link have a [Success] record followed by a [Failed] record.  The
    loop of the earlier script, which appends its [Success] record after the
    removal, records every link once on the same input. *)
Theorem refused_cleanup_repeats_an_index :
  let links := [Fixtures.link_a; Fixtures.link_b; Fixtures.link_c] in
  let table := DataCollector.results
                 (DataCollector.collect_loop (H0 := Fixtures.locking)
                    (TikTokDataFetcher.impl (H := Fixtures.scraper)) links
                    (DataCollector.mkLocals (Fixtures.online_world [])
                                            DataFrame_new [])).1 in
  let table' := DataCollector.results
                  (Script.process_loop (H0 := Fixtures.scraper)
                     (H1 := Fixtures.locking) links
                     (DataCollector.mkLocals (Fixtures.online_world [])
                                             DataFrame_new [])).1 in
  dict_get "index" <$> table
  = [Some (VInt 1); Some (VInt 1); Some (VInt 2); Some (VInt 3); Some (VInt 3)]
  ∧ dict_get "status" <$> table
    = [Some (VStr "Success"); Some (VStr "Failed"); Some (VStr "Failed");
       Some (VStr "Success"); Some (VStr "Failed")]
  ∧ dict_get "link" <$> table
    = [Some Fixtures.link_a; Some Fixtures.link_a; Some Fixtures.link_b;
       Some Fixtures.link_c; Some Fixtures.link_c]
  ∧ dict_get "index" <$> table' = [Some (VInt 1); Some (VInt 2); Some (VInt 3)].
Proof. vm_compute. repeat split; reflexivity. Qed.

(** ** After the loop *)

Section Persist.
Context `{Gspread}.

Import DataCollector.

Lemma csv_save_data_run (dir : string) (df : DataFrame) (name : string) (w : World) :
  CSVDataStorage.save_data dir df name w
  = if empty df then (w, Ok EmptyString)
    else (mkWorld (<[os_path_join dir name := CsvFile df]> (files w)) (remote w)
                  (trace w ++ [EvToCsv (os_path_join dir name) df]),
          Ok (os_path_join dir name)).
Proof. unfold CSVDataStorage.save_data. destruct (empty df); reflexivity. Qed.

Lemma sheets_save_data_run (df : DataFrame) (name : string) (w : World) :
  ∃ r' tr s,
    GoogleSheetsDataStorage.save_data df name w
    = (mkWorld (files w) r' (trace w ++ tr), Ok s)
    ∧ Forall (λ ev, is_gspread ev = true) tr
    ∧ (empty df = true → r' = remote w ∧ tr = [])
    ∧ (empty df = false → ∃ tr', tr = EvAuthorize :: tr').
Proof.
  unfold GoogleSheetsDataStorage.save_data.
  destruct (empty df) eqn:He.
  { exists (remote w), [], EmptyString. rewrite app_nil_r. destruct w.
    repeat split; [constructor | discriminate]. }
  unfold try_except, bind, ret, GspreadClient._connect_to_google_sheets,
    GspreadClient.create, GspreadClient.insert_permission,
    GspreadClient.get_worksheet, GspreadClient.update, emit, on_remote, bind.
  cbn [files remote trace].
  assert (Hfin : ∀ r' tr (s : string),
             Forall (λ ev, is_gspread ev = true) (EvAuthorize :: tr) →
             ∃ r'' tr' s',
               (mkWorld (files w) r' (trace w ++ EvAuthorize :: tr), Ok s)
               = (mkWorld (files w) r'' (trace w ++ tr'), Ok s')
               ∧ Forall (λ ev, is_gspread ev = true) tr'
               ∧ (false = true → r'' = remote w ∧ tr' = [])
               ∧ (false = false → ∃ tr'', tr' = EvAuthorize :: tr'')).
  { intros r' tr s Hall. exists r', (EvAuthorize :: tr), s.
    split; [reflexivity|]. split; [exact Hall|]. split; [discriminate|].
    intros _. eexists; reflexivity. }
  destruct (gs_authorize (remote w)) as [r1 [[]|e1]]; cbn [files remote trace];
    [|apply (Hfin _ []); repeat constructor].
  destruct (gs_create name r1) as [r2 [id|e2]]; cbn [files remote trace];
    rewrite <- ?app_assoc; [|apply (Hfin _ [_]); repeat constructor].
  destruct (gs_insert_permission id "anyone" "reader" r2) as [r3 [[]|e3]];
    cbn [files remote trace];
    rewrite <- ?app_assoc; [|apply (Hfin _ [_; _]); repeat constructor].
  destruct (gs_get_worksheet id 0 r3) as [r4 [[]|e4]]; cbn [files remote trace];
    rewrite <- ?app_assoc; [|apply (Hfin _ [_; _; _]); repeat constructor].
  destruct (gs_update id "A1" ([columns_tolist df] ++ values_tolist df) r4)
    as [r5 [[]|e5]]; cbn [files remote trace];
    rewrite <- ?app_assoc; apply (Hfin _ [_; _; _; _]); repeat constructor.
Qed.

Lemma records_frame_not_empty (d : dict) (l : list dict) :
  "index" ∈ dict_keys d → empty (DataFrame_of_records (d :: l)) = false.
Proof.
  intros Hd. apply empty_false_iff. split; [|discriminate].
  unfold DataFrame_of_records. cbn [columns foldl].
  assert (Hmono : ∀ (l : list dict) (cols : list string),
             "index" ∈ cols →
             "index" ∈ foldl (λ cols d, foldl (λ cols c, add_column c cols) cols
                                              (dict_keys d)) cols l).
  { clear. induction l as [|d l IH]; intros cols Hc; [exact Hc|].
    cbn [foldl]. apply IH. apply foldl_add_column_elem. right. exact Hc. }
  intros Hnil.
  assert (Hin : "index" ∈ foldl (λ cols c, add_column c cols) [] (dict_keys d))
    by (apply foldl_add_column_elem; left; exact Hd).
  apply (Hmono l) in Hin.
  rewrite Hnil in Hin. inversion Hin.
Qed.

Lemma outcome_record_has_index (i : nat) (link : value) (err : option exn) :
  "index" ∈ dict_keys (outcome_record i link err).
Proof. destruct err; cbn; constructor. Qed.

Lemma passes_frame_not_empty (i : nat) (p : pass) (passes : list pass) :
  empty (DataFrame_of_records (passes_spec i (p :: passes))) = false.
Proof.
  destruct p as [[link r] c]. cbn [passes_spec pass_records app].
  apply records_frame_not_empty. apply outcome_record_has_index.
Qed.

Lemma concat_columns (a b : DataFrame) (c : string) :
  c ∈ columns (concat a b) ↔ c ∈ columns b ∨ c ∈ columns a.
Proof. unfold concat. cbn [columns]. apply foldl_add_column_elem. Qed.

Lemma concat_not_empty (a b : DataFrame) : empty b = false → empty (concat a b) = false.
Proof.
  rewrite !empty_false_iff. intros [Hc Hr]. split.
  - intros Hnil. destruct (columns b) as [|c cols] eqn:Hb; [congruence|].
    assert (Hin : c ∈ columns (concat a b))
      by (apply concat_columns; left; rewrite Hb; constructor).
    rewrite Hnil in Hin. inversion Hin.
  - unfold concat. cbn [rows]. destruct (rows a), (rows b); cbn; congruence.
Qed.

Lemma setitem_scalar_not_empty (df : DataFrame) (c : string) (v : value) :
  empty df = false → empty (setitem_scalar df c v) = false.
Proof.
  rewrite !empty_false_iff. intros [Hc Hr]. split.
  - apply add_column_not_nil.
  - cbn [setitem_scalar rows]. destruct (rows df); [congruence | discriminate].
Qed.

Lemma cumulative_spec_source_link (fetcher : ABC.DataFetcher) (i : nat)
      (answers : list (value * result DataFrame)) (acc : DataFrame) :
  stamps_source_link fetcher →
  Forall (answered_by fetcher) answers →
  (empty acc = false → "source_link" ∈ columns acc) →
  empty (cumulative_spec i answers acc) = false →
  "source_link" ∈ columns (cumulative_spec i answers acc).
Proof.
  intros Hst. revert i acc.
  induction answers as [|[link r] answers IH]; intros i acc Hans Hacc; [exact Hacc|].
  inversion Hans as [|? ? (path & fs & Ha) Hrest]; subst.
  cbn [cumulative_spec]. apply IH; [exact Hrest|].
  cbn [fst snd] in Ha. unfold accumulate_spec.
  destruct r as [df|e]; [|exact Hacc].
  destruct (empty df) eqn:He; [exact Hacc|].
  intros _. apply concat_columns. left. apply add_column_elem. right.
  destruct (ABC.fetch_data link path fs) as [fs' r'] eqn:Hf. cbn in Ha. subst r'.
  exact (Hst link path fs fs' df Hf He).
Qed.

Lemma normalize_spec_not_empty (df : DataFrame) :
  empty df = false → empty (normalize_spec df) = false.
Proof.
  intros He. unfold normalize_spec. rewrite He.
  apply empty_false_iff in He as [_ Hr].
  apply empty_false_iff. split; [discriminate|].
  cbn [rows]. destruct (rows df); [congruence | discriminate].
Qed.

Lemma persist_run (dir ts : string) (st : Locals) :
  (empty (all_data st) = false → "source_link" ∈ columns (all_data st)) →
  let raw := os_path_join dir ("all_tiktok_data_" +:+ ts +:+ ".csv") in
  let summary := os_path_join dir ("processing_summary_" +:+ ts +:+ ".csv") in
  let formatted := os_path_join dir ("formatted_tiktok_data_" +:+ ts +:+ ".csv") in
  let summary_df := DataFrame_of_records (results st) in
  let summary_events :=
    if empty summary_df then [] else [EvToCsv summary summary_df] in
  ∃ w',
    persist TikTokDataProcessor.impl (CSVDataStorage.impl dir)
            GoogleSheetsDataStorage.impl ts st
    = (mkLocals w' (all_data st) (results st), Ok tt)
    ∧ if empty (all_data st)
      then trace w' = trace (world st) ++ summary_events
           ∧ remote w' = remote (world st)
      else ∃ processed w1 s,
          TikTokDataProcessor.process_data (all_data st) = Ok processed
          ∧ trace w1 = trace (world st)
                       ++ [EvToCsv raw (all_data st)] ++ summary_events
                       ++ [EvToCsv formatted processed]
          ∧ remote w1 = remote (world st)
          ∧ GoogleSheetsDataStorage.save_data processed
              ("TikTok Data Analysis " +:+ ts) w1 = (w', Ok s).
Proof.
  intros Hsrc raw summary formatted summary_df summary_events.
  unfold persist, bind, when, in_world, ret.
  cbn [ABC.save_data ABC.process_data TikTokDataProcessor.impl CSVDataStorage.impl
       GoogleSheetsDataStorage.impl].
  destruct (empty (all_data st)) eqn:He; cbn [negb].
  - rewrite csv_save_data_run. fold summary summary_df.
    subst summary_events.
    destruct (empty summary_df); cbn [fst snd world all_data results files remote trace].
    + exists (world st). rewrite app_nil_r. repeat split; reflexivity.
    + eexists. split; [reflexivity|]. split; reflexivity.
  - specialize (Hsrc eq_refl). apply has_column_true in Hsrc.
    rewrite (process_data_normalize _ He Hsrc).
    rewrite csv_save_data_run, He. fold raw.
    cbn [fst snd world all_data results files remote trace].
    rewrite csv_save_data_run. fold summary summary_df.
    subst summary_events.
    destruct (empty summary_df);
      cbn [fst snd world all_data results files remote trace];
      rewrite csv_save_data_run, (normalize_spec_not_empty _ He); fold formatted;
      cbn [fst snd world all_data results files remote trace];
      match goal with
      | |- context [GoogleSheetsDataStorage.save_data ?df ?name ?w] =>
          destruct (GoogleSheetsDataStorage.save_data df name w) as [w' r] eqn:Hsave;
          destruct (sheets_save_data_run df name w) as (r' & tr & s & Hrun & _);
          rewrite Hrun in Hsave; injection Hsave as <- <-;
          eexists; (split; [reflexivity|]);
          exists df, w, s; (split; [reflexivity|]);
          (split; [cbn [trace]; rewrite <- ?app_assoc; reflexivity|]);
          (split; [reflexivity|]); exact Hrun
      end.
Qed.
End Persist.

Lemma gspread_events_not_to_csv (tr : list event) :
  Forall (λ ev, is_gspread ev = true) tr → List.filter is_to_csv tr = [].
Proof.
  induction 1 as [|ev tr Hev _ IH]; [reflexivity|].
  destruct ev; try discriminate; cbn; exact IH.
Qed.

(** C5, as the code has it.  Let the link source return [links] and let the
    fetcher honour its contract of stamping [source_link]; the file sink is
    [CSVDataStorage] and the spreadsheet sink [GoogleSheetsDataStorage].
    Then [collect_data] returns the cumulative table and the outcome list of
    the loop, and after the loop it does exactly this.  When the cumulative
    table is empty, the only thing done is the write of the outcome list to
    [processing_summary_<timestamp>.csv], and that write happens exactly when
    there was at least one link: for an empty list of links nothing is
    written and the world is left as the link source left it.  When the
    cumulative table is not empty, three files are written in this order -
    the raw table, the outcome list, and the normalized table - and then the
    spreadsheet sink is called on the normalized table under the name
    [TikTok Data Analysis <timestamp>]; no other file is written by the
    run after the loop. *)
Theorem collect_data_writes_after_the_loop
        `{Gspread} `{Os} (data_source : ABC.DataSource) (data_fetcher : ABC.DataFetcher)
        (dir ts : string) (links : list value) (w w0 : World) :
  stamps_source_link data_fetcher →
  ABC.get_links (DataSource := data_source) w = (w0, Ok links) →
  let raw := os_path_join dir ("all_tiktok_data_" +:+ ts +:+ ".csv") in
  let summary := os_path_join dir ("processing_summary_" +:+ ts +:+ ".csv") in
  let formatted := os_path_join dir ("formatted_tiktok_data_" +:+ ts +:+ ".csv") in
  ∃ st w' tr,
    DataCollector.collect_loop data_fetcher links
      (DataCollector.mkLocals w0 DataFrame_new []) = (st, Ok tt)
    ∧ DataCollector.collect_data data_source data_fetcher TikTokDataProcessor.impl
        (CSVDataStorage.impl dir) GoogleSheetsDataStorage.impl ts w
      = (w', Ok (DataCollector.all_data st, DataCollector.results st))
    ∧ trace w' = trace (DataCollector.world st) ++ tr
    ∧ (links = [] → w' = w0)
    ∧ let summary_df := DataFrame_of_records (DataCollector.results st) in
      if empty (DataCollector.all_data st)
      then tr = (if decide (links = []) then [] else [EvToCsv summary summary_df])
           ∧ remote w' = remote w0
      else ∃ processed w1 s,
          TikTokDataProcessor.process_data (DataCollector.all_data st) = Ok processed
          ∧ trace w1 = trace (DataCollector.world st)
                       ++ [EvToCsv raw (DataCollector.all_data st);
                           EvToCsv summary summary_df;
                           EvToCsv formatted processed]
          ∧ GoogleSheetsDataStorage.save_data processed
              ("TikTok Data Analysis " +:+ ts) w1 = (w', Ok s)
          ∧ List.filter is_to_csv tr
            = [EvToCsv raw (DataCollector.all_data st);
               EvToCsv summary summary_df;
               EvToCsv formatted processed].
Proof.
  intros Hst Hget raw summary formatted.
  destruct (for_enumerate_collect data_fetcher (length links) 0 links
              (DataCollector.mkLocals w0 DataFrame_new []))
    as (passes & st & tr0 & Hrun & Hl & Hans & _ & Hres & Hall & Hrem & Htr & _).
  cbn [DataCollector.results DataCollector.all_data DataCollector.world app]
    in Hres, Hall, Hrem, Htr.
  assert (Hsrc : empty (DataCollector.all_data st) = false →
                 "source_link" ∈ columns (DataCollector.all_data st)).
  { rewrite Hall. apply (cumulative_spec_source_link data_fetcher); try assumption.
    discriminate. }
  destruct (persist_run dir ts st Hsrc) as (w' & Hpersist & Hcase).
  assert (Hcollect :
            DataCollector.collect_data data_source data_fetcher TikTokDataProcessor.impl
              (CSVDataStorage.impl dir) GoogleSheetsDataStorage.impl ts w
            = (w', Ok (DataCollector.all_data st, DataCollector.results st))).
  { unfold DataCollector.collect_data, bind at 1. rewrite Hget.
    unfold bind at 1, DataCollector.run_locals, bind at 1.
    unfold DataCollector.collect_loop in *. rewrite Hrun, Hpersist. reflexivity. }
  assert (Hsummary : links ≠ [] →
            empty (DataFrame_of_records (DataCollector.results st)) = false).
  { intros Hne. rewrite Hres. destruct passes as [|p passes].
    - cbn in Hl. congruence.
    - apply passes_frame_not_empty. }
  destruct (empty (DataCollector.all_data st)) eqn:He.
  - destruct Hcase as [Htr' Hrem'].
    destruct (decide (links = [])) as [->|Hne].
    + cbn in Hrun. injection Hrun as <-.
      cbn [DataCollector.results DataCollector.world DataFrame_of_records empty
           columns foldl rows] in *.
      exists (DataCollector.mkLocals w0 DataFrame_new []), w', [].
      split; [reflexivity|]. split; [exact Hcollect|].
      split; [rewrite Htr'; reflexivity|].
      assert (Hw : w' = w0).
      { unfold DataCollector.persist, bind, DataCollector.in_world, when, ret in Hpersist.
        cbn in Hpersist. injection Hpersist as <-. reflexivity. }
      split; [intros _; exact Hw|].
      cbn. split; [reflexivity | rewrite Hw; reflexivity].
    + rewrite (Hsummary Hne) in Htr'.
      exists st, w'. eexists. split; [exact Hrun|]. split; [exact Hcollect|].
      split; [exact Htr'|]. split; [intros; congruence|].
      cbn zeta. rewrite He.
      split; [reflexivity | rewrite Hrem', Hrem; reflexivity].
  - destruct Hcase as (processed & w1 & s & Hproc & Htr1 & Hrem1 & Hsave).
    assert (Hne : links ≠ []).
    { intros ->. destruct passes; [|discriminate].
      rewrite Hall in He. discriminate. }
    rewrite (Hsummary Hne) in Htr1.
    destruct (sheets_save_data_run processed ("TikTok Data Analysis " +:+ ts) w1)
      as (r' & trg & s' & Hrun' & Hg & _).
    rewrite Hrun' in Hsave. injection Hsave as <- <-.
    exists st. eexists. exists ([EvToCsv raw (DataCollector.all_data st);
             EvToCsv summary (DataFrame_of_records (DataCollector.results st));
             EvToCsv formatted processed] ++ trg).
    split; [exact Hrun|]. split; [exact Hcollect|].
    split; [cbn [trace]; rewrite Htr1, <- app_assoc; reflexivity|].
    split; [intros; congruence|].
    cbn zeta. rewrite He.
    exists processed, w1, s'.
    split; [exact Hproc|]. split; [exact Htr1|]. split; [exact Hrun'|].
    rewrite List.filter_app, (gspread_events_not_to_csv _ Hg). reflexivity.
Qed.

(** The repository's fetcher honours the contract. *)
Lemma tiktok_fetcher_stamps `{Pyktok} : stamps_source_link TikTokDataFetcher.impl.
Proof.
  intros link path fs fs' df Hf He.
  cbn [ABC.fetch_data TikTokDataFetcher.impl] in Hf.
  unfold TikTokDataFetcher.fetch_data, try_except, bind, ret in Hf.
  destruct (save_tiktok link true path fs) as [fs1 [[]|e]].
  - destruct (read_csv path fs1) as [data|e]; injection Hf as <- <-.
    + apply add_column_elem. left. reflexivity.
    + discriminate.
  - injection Hf as <- <-. discriminate.
Qed.

Lemma collect_data_writes_after_the_loop_witness :
  ∃ w' r,
    DataCollector.collect_data
      (H := Fixtures.online Fixtures.column_k) (H0 := Fixtures.permissive)
      GoogleSheetsDataSource.impl (TikTokDataFetcher.impl (H := Fixtures.scraper))
      TikTokDataProcessor.impl (CSVDataStorage.impl "tiktok_data")
      GoogleSheetsDataStorage.impl Fixtures.timestamp
      (Fixtures.online_world Fixtures.column_k)
    = (w', Ok r)
    ∧ len r.1 = 3 ∧ length r.2 = 4
    ∧ List.filter is_to_csv (trace w')
      = [EvToCsv "tiktok_data/all_tiktok_data_20250415_092751.csv" r.1;
         EvToCsv "tiktok_data/processing_summary_20250415_092751.csv"
                 (DataFrame_of_records r.2);
         EvToCsv "tiktok_data/formatted_tiktok_data_20250415_092751.csv"
                 (normalize_spec r.1)].
Proof.
  assert (Hget : ABC.get_links
                   (DataSource := GoogleSheetsDataSource.impl
                                    (H := Fixtures.online Fixtures.column_k))
                   (Fixtures.online_world Fixtures.column_k)
                 = (Fixtures.online_world Fixtures.column_k,
                    Ok [Fixtures.link_a; Fixtures.link_b; Fixtures.link_c;
                        Fixtures.link_a]))
    by (vm_compute; reflexivity).
  destruct (collect_data_writes_after_the_loop
              (H := Fixtures.online Fixtures.column_k) (H0 := Fixtures.permissive)
              GoogleSheetsDataSource.impl
              (TikTokDataFetcher.impl (H := Fixtures.scraper))
              "tiktok_data" Fixtures.timestamp _ _ _
              (tiktok_fetcher_stamps (H := Fixtures.scraper)) Hget)
    as ([w1 all_data results] & w' & tr & _ & Hrun & _).
  cbn [DataCollector.all_data DataCollector.results] in Hrun.
  exists w', (all_data, results).
  split; [exact Hrun|].
  vm_compute in Hrun. injection Hrun as <- <- <-.
  vm_compute. repeat split; reflexivity.
Defined.

(** C5 as stated fails for an empty list of links: the run ends normally with
    no outcome records, no [to_csv] call was made and no file exists. *)
Lemma no_summary_is_written_for_an_empty_link_list :
  let run :=
    DataCollector.collect_data
      (H := Fixtures.online [VStr "Link video"; VInt 42]) (H0 := Fixtures.permissive)
      GoogleSheetsDataSource.impl (TikTokDataFetcher.impl (H := Fixtures.scraper))
      TikTokDataProcessor.impl (CSVDataStorage.impl "tiktok_data")
      GoogleSheetsDataStorage.impl Fixtures.timestamp
      (Fixtures.online_world [VStr "Link video"; VInt 42]) in
  run.2 = Ok (DataFrame_new, [])
  ∧ ¬ (∃ path df, EvToCsv path df ∈ trace run.1)
  ∧ ¬ (∃ path, is_Some (files run.1 !! path)).
Proof.
  vm_compute. split; [reflexivity|]. split.
  - intros (path & df & Hin). inversion Hin.
  - intros (path & f & Hf). discriminate.
Qed.

(** * Further properties *)

(** ** Counting successes *)

Lemma outcome_record_status (i : nat) (link : value) (err : option exn) :
  dict_get "status" (outcome_record i link err)
  = Some (VStr (match err with Some _ => "Failed" | None => "Success" end)).
Proof. destruct err; reflexivity. Qed.

Lemma success_count_records (i : nat) (l : list (value * option exn)) :
  Main.success_count (records_spec i l)
  = Ok (length (List.filter (λ a, bool_decide (a.2 = None)) l)).
Proof.
  revert i. induction l as [|[link err] l IH]; intros i; [reflexivity|].
  cbn [records_spec Main.success_count]. unfold Main.status_of.
  rewrite outcome_record_status, IH. cbn [rbind List.filter snd].
  destruct err as [e|]; cbn; reflexivity.
Qed.

Lemma successes_records (i : nat) (l : list (value * option exn)) :
  successes (records_spec i l)
  = length (List.filter (λ a, bool_decide (a.2 = None)) l).
Proof.
  unfold successes. revert i. induction l as [|[link err] l IH]; intros i; [reflexivity|].
  cbn [records_spec List.filter]. rewrite outcome_record_status.
  destruct err as [e|]; cbn [snd].
  - rewrite bool_decide_eq_false_2 by discriminate.
    rewrite bool_decide_eq_false_2 by discriminate. apply IH.
  - rewrite !bool_decide_eq_true_2 by reflexivity. cbn [length]. f_equal. apply IH.
Qed.

Lemma error_of_none (r : result DataFrame) :
  bool_decide (error_of r = None) = is_success r.
Proof.
  destruct r as [df|e]; cbn; [destruct (empty df)|]; reflexivity.
Qed.

Lemma filter_fmap_length {A B} (f : A → B) (p : B → bool) (l : list A) :
  length (List.filter p (f <$> l)) = length (List.filter (λ x, p (f x)) l).
Proof.
  induction l as [|x l IH]; [reflexivity|]. cbn.
  destruct (p (f x)); cbn; rewrite IH; reflexivity.
Qed.

Lemma filter_length_le {A} (p : A → bool) (l : list A) :
  (length (List.filter p l) <= length l)%nat.
Proof.
  induction l as [|x l IH]; [reflexivity|]. cbn. destruct (p x); cbn; lia.
Qed.

(** ** The cumulative table *)

Lemma cumulative_spec_stays_not_empty (i : nat)
      (answers : list (value * result DataFrame)) (acc : DataFrame) :
  empty acc = false → empty (cumulative_spec i answers acc) = false.
Proof.
  revert i acc. induction answers as [|[link r] answers IH]; intros i acc He;
    [exact He|].
  cbn [cumulative_spec]. apply IH. unfold accumulate_spec.
  destruct r as [df|e]; [|exact He].
  destruct (empty df) eqn:Hd; [exact He|].
  apply concat_not_empty, setitem_scalar_not_empty, Hd.
Qed.

Lemma cumulative_spec_len (i : nat) (answers : list (value * result DataFrame))
      (acc : DataFrame) :
  len (cumulative_spec i answers acc)
  = len acc + sum_list (rows_of_answer <$> answers.*2).
Proof.
  revert i acc. induction answers as [|[link r] answers IH]; intros i acc.
  - cbn. lia.
  - cbn [cumulative_spec fmap list_fmap snd sum_list sum_list_with].
    rewrite IH. unfold accumulate_spec, rows_of_answer at 2.
    destruct r as [df|e]; [|cbn; lia].
    destruct (empty df); [cbn; lia|].
    unfold len, concat, setitem_scalar. cbn [rows].
    rewrite length_app, length_fmap. cbn. lia.
Qed.

Lemma cumulative_spec_empty_iff (i : nat)
      (answers : list (value * result DataFrame)) :
  empty (cumulative_spec i answers DataFrame_new) = true
  ↔ List.filter is_success answers.*2 = [].
Proof.
  revert i. induction answers as [|[link r] answers IH]; intros i.
  - cbn. tauto.
  - cbn [cumulative_spec fmap list_fmap snd List.filter].
    destruct (is_success r) eqn:Hs.
    + destruct r as [df|e]; [|discriminate]. cbn in Hs.
      apply negb_true_iff in Hs. unfold accumulate_spec. rewrite Hs.
      rewrite cumulative_spec_stays_not_empty
        by (apply concat_not_empty, setitem_scalar_not_empty, Hs).
      split; discriminate.
    + assert (Hacc : accumulate_spec i r DataFrame_new = DataFrame_new).
      { destruct r as [df|e]; [|reflexivity]. cbn in Hs.
        apply negb_false_iff in Hs. unfold accumulate_spec. rewrite Hs. reflexivity. }
      rewrite Hacc. apply IH.
Qed.

Lemma successes_le_rows (rs : list (result DataFrame)) :
  (length (List.filter is_success rs) <= sum_list (rows_of_answer <$> rs))%nat.
Proof.
  induction rs as [|r rs IH]; [reflexivity|].
  cbn [List.filter fmap list_fmap sum_list sum_list_with].
  destruct r as [df|e]; cbn [is_success rows_of_answer].
  - destruct (empty df) eqn:He; cbn [negb length]; [lia|].
    apply empty_false_iff in He as [_ Hr]. unfold len.
    destruct (rows df); [congruence | cbn; lia].
  - lia.
Qed.

Lemma success_count_passes (i : nat) (passes : list pass) :
  Main.success_count (passes_spec i passes)
  = Ok (length (List.filter is_success passes.*1.*2)).
Proof.
  revert i. induction passes as [|[[link r] c] passes IH]; intros i; [reflexivity|].
  cbn [passes_spec pass_records app fmap list_fmap fst snd List.filter].
  destruct c as [e|]; cbn [app Main.success_count]; unfold Main.status_of, outcome_spec;
    rewrite ?outcome_record_status, IH; cbn [rbind];
    rewrite <- (error_of_none r); destruct (error_of r); reflexivity.
Qed.

Lemma successes_passes (i : nat) (passes : list pass) :
  successes (passes_spec i passes)
  = length (List.filter is_success passes.*1.*2).
Proof.
  unfold successes. revert i.
  induction passes as [|[[link r] c] passes IH]; intros i; [reflexivity|].
  cbn [passes_spec pass_records app fmap list_fmap fst snd List.filter].
  unfold outcome_spec. rewrite outcome_record_status, <- (error_of_none r).
  assert (Hrest : length
                    (List.filter
                       (λ d, bool_decide (dict_get "status" d = Some (VStr "Success")))
                       (match c with
                        | Some e => [outcome_record i link (Some e)]
                        | None => []
                        end ++ passes_spec (S i) passes))
                  = length (List.filter is_success passes.*1.*2)).
  { destruct c as [e|]; cbn [app List.filter]; [|apply IH].
    rewrite outcome_record_status, bool_decide_eq_false_2 by discriminate. apply IH. }
  destruct (error_of r) as [e|].
  - rewrite bool_decide_eq_false_2 by discriminate.
    rewrite bool_decide_eq_false_2 by discriminate. exact Hrest.
  - rewrite !bool_decide_eq_true_2 by reflexivity. cbn [length]. f_equal. exact Hrest.
Qed.

(** X1. After the loop of [collect_data], for every fetcher and list of
    links: the count that [main] prints,
    [sum(1 for r in results if r["status"] == "Success")], is computed
    without a [KeyError]; it is the number of [Success] records, at most the
    number of links, and at most the number of rows of the cumulative table;
    and it is zero exactly when the cumulative table is empty. *)
Theorem success_count_matches_cumulative_table
        `{Gspread} `{Os} (data_fetcher : ABC.DataFetcher) (links : list value)
        (w : World) :
  let st := (DataCollector.collect_loop data_fetcher links
               (DataCollector.mkLocals w DataFrame_new [])).1 in
  ∃ k, Main.success_count (DataCollector.results st) = Ok k
    ∧ k = successes (DataCollector.results st)
    ∧ (k <= length links)%nat
    ∧ (k <= len (DataCollector.all_data st))%nat
    ∧ (k = 0 ↔ empty (DataCollector.all_data st) = true).
Proof.
  intros st.
  destruct (for_enumerate_collect data_fetcher (length links) 0 links
              (DataCollector.mkLocals w DataFrame_new []))
    as (passes & st' & tr & Hrun & Hl & _ & _ & Hres & Hall & _).
  subst st. unfold DataCollector.collect_loop. rewrite Hrun. cbn [fst].
  cbn [DataCollector.results DataCollector.all_data app] in Hres, Hall.
  rewrite Hres, Hall.
  set (k := length (List.filter is_success passes.*1.*2)).
  exists k. rewrite success_count_passes, successes_passes.
  split; [reflexivity|]. split; [reflexivity|].
  split.
  { subst k. etransitivity; [apply filter_length_le|].
    rewrite <- Hl, !length_fmap. reflexivity. }
  split.
  { rewrite cumulative_spec_len. subst k. cbn [len DataFrame_new rows length].
    apply successes_le_rows. }
  rewrite cumulative_spec_empty_iff. subst k.
  destruct (List.filter is_success passes.*1.*2); cbn; split; congruence.
Qed.

(** ** The pipeline with the repository's fetcher *)

Lemma tiktok_fetcher_answers `{Pyktok} (a : value * result DataFrame) :
  answered_by TikTokDataFetcher.impl a → ∃ df, a.2 = Ok df.
Proof.
  intros (path & fs & Ha). cbn [ABC.fetch_data TikTokDataFetcher.impl] in Ha.
  unfold TikTokDataFetcher.fetch_data, try_except, bind, ret in Ha.
  destruct (save_tiktok a.1 true path fs) as [fs1 [[]|e]].
  - destruct (read_csv path fs1) as [data|e]; cbn in Ha; eexists; symmetry; exact Ha.
  - cbn in Ha. eexists; symmetry; exact Ha.
Qed.

(** X2. With [TikTokDataFetcher] as the fetcher, whatever the scraper does,
    the message of the scraper's exception does not reach the outcome list:
    the error of every [Failed] record is ["Empty data returned"] or the
    message with which the operating system refused a removal.  The
    [except] branch of the loop of [collect_data] is taken for a refused
    removal only. *)
Theorem scraper_errors_never_reach_the_outcome_list
        `{Gspread} `{Pyktok} `{Os} (links : list value) (w : World) :
  let st := (DataCollector.collect_loop TikTokDataFetcher.impl links
               (DataCollector.mkLocals w DataFrame_new [])).1 in
  Forall (λ d, dict_get "error" d = None
               ∨ dict_get "error" d = Some (VStr "Empty data returned")
               ∨ ∃ path fs e, remove_refused path fs = Some e
                              ∧ dict_get "error" d = Some (VStr e))
         (DataCollector.results st).
Proof.
  intros st.
  destruct (for_enumerate_collect TikTokDataFetcher.impl (length links) 0 links
              (DataCollector.mkLocals w DataFrame_new []))
    as (passes & st' & tr & Hrun & _ & Hans & Href & Hres & _).
  subst st. unfold DataCollector.collect_loop. rewrite Hrun. cbn [fst].
  rewrite Hres. cbn [DataCollector.results app]. clear Hres Hrun.
  generalize 0. induction passes as [|[[link r] c] passes IH]; intros i;
    cbn [passes_spec pass_records]; [constructor|].
  cbn [fmap list_fmap fst snd] in Hans, Href.
  inversion Hans as [|? ? Ha Hans']; subst.
  inversion Href as [|? ? Hc Href']; subst.
  constructor.
  - apply tiktok_fetcher_answers in Ha as [df Hdf]. cbn in Hdf. subst r.
    unfold outcome_spec, error_of.
    destruct (empty df); [right; left | left]; reflexivity.
  - apply Forall_app. split; [|apply IH; assumption].
    destruct c as [e|]; [|constructor].
    constructor; [|constructor]. right. right.
    destruct Hc as [Hc|(path & fs & Hc)]; [discriminate|].
    exists path, fs, e. split; [exact Hc | reflexivity].
Qed.

(** ** Scratch files *)

Lemma to_int_not_nil (z : Z) :
  Z.to_int z ≠ Decimal.Pos Decimal.Nil ∧ Z.to_int z ≠ Decimal.Neg Decimal.Nil.
Proof.
  pose proof (DecimalZ.to_of (Z.to_int z)) as Hn. rewrite DecimalZ.of_to in Hn.
  split; intros Hz; rewrite Hz in Hn; cbn in Hn; discriminate.
Qed.

Lemma pystr_int_inj (z1 z2 : Z) : pystr (VInt z1) = pystr (VInt z2) → z1 = z2.
Proof.
  cbn [pystr]. intros Hs.
  apply (f_equal NilZero.int_of_string) in Hs.
  destruct (to_int_not_nil z1) as [Hp1 Hn1], (to_int_not_nil z2) as [Hp2 Hn2].
  rewrite !NilZero.isi in Hs by assumption.
  injection Hs as Hs. apply (f_equal Z.of_int) in Hs.
  rewrite !DecimalZ.of_to in Hs. exact Hs.
Qed.

Lemma append_length (a b : string) :
  String.length (a +:+ b) = String.length a + String.length b.
Proof. induction a as [|c a IH]; [reflexivity|]. rewrite append_cons. cbn. lia. Qed.

Lemma append_inj_l (p a b : string) : p +:+ a = p +:+ b → a = b.
Proof.
  induction p as [|c p IH]; [rewrite !append_nil; auto|].
  rewrite !append_cons. intros [= Hp]. auto.
Qed.

Lemma append_inj_r (a b s : string) : a +:+ s = b +:+ s → a = b.
Proof.
  revert b. induction a as [|c a IH]; intros [|c' b] Hs.
  - reflexivity.
  - apply (f_equal String.length) in Hs. rewrite append_nil, append_length in Hs.
    cbn in Hs. lia.
  - apply (f_equal String.length) in Hs. rewrite append_nil, append_length in Hs.
    cbn in Hs. lia.
  - rewrite !append_cons in Hs. injection Hs as -> Hs. f_equal. auto.
Qed.

(** X3. The scratch file name [f"{output_dir}/temp_tiktok_data_{i+1}.csv"]
    is different for different positions: two links of a run never share a
    scratch file. *)
Theorem temp_filename_inj (i j : nat) :
  DataCollector.temp_filename i = DataCollector.temp_filename j → i = j.
Proof.
  unfold DataCollector.temp_filename, pystr_nat. intros Hs.
  apply append_inj_l, append_inj_l, append_inj_r, pystr_int_inj in Hs. lia.
Qed.

Lemma temp_filename_inj_witness :
  DataCollector.temp_filename 9 = "tiktok_data/temp_tiktok_data_10.csv" ∧ 9 = 9.
Proof. split; [reflexivity | apply (temp_filename_inj 9 9); reflexivity]. Defined.

Section RepositoryLoop.
Context `{Gspread} `{Pyktok} `{Os}.

Import DataCollector.

(** The file system after one pass with the repository's fetcher: the
    scraper's, with the scratch file removed unless the operating system
    refused. *)
Lemma tiktok_loop_body_files (n i : nat) (link : value) (st : Locals) :
  let path := temp_filename i in
  let fs1 := (save_tiktok link true path (files (world st))).1 in
  files (world (loop_body TikTokDataFetcher.impl n i link st).1)
  = match fs1 !! path, remove_refused path fs1 with
    | Some _, Some _ => fs1
    | _, _ => delete path fs1
    end.
Proof.
  intros path fs1. subst fs1.
  rewrite loop_body_run. cbn [fst world files ABC.fetch_data TikTokDataFetcher.impl].
  unfold TikTokDataFetcher.fetch_data, try_except, bind, ret, cleanup_error.
  fold path.
  destruct (save_tiktok link true path (files (world st)))
    as [fs1 [[]|e]]; cbn [fst snd].
  - destruct (read_csv path fs1); cbn [fst snd];
      destruct (fs1 !! path) eqn:Hf; try destruct (remove_refused path fs1);
      try reflexivity; symmetry; apply delete_id; exact Hf.
  - destruct (fs1 !! path) eqn:Hf; try destruct (remove_refused path fs1);
      try reflexivity; symmetry; apply delete_id; exact Hf.
Qed.

Lemma tiktok_loop_files (n i : nat) (links : list value) (st : Locals) :
  writes_only_its_path →
  let fs' := files (world (for_enumerate i links (loop_body TikTokDataFetcher.impl n) st).1) in
  (∀ j, i <= j < i + length links →
        (∀ fs, remove_refused (temp_filename j) fs = None) →
        fs' !! temp_filename j = None)
  ∧ (∀ p, (∀ j, i <= j < i + length links → p ≠ temp_filename j) →
          fs' !! p = files (world st) !! p).
Proof.
  intros Hlocal. revert i st. induction links as [|link links IH]; intros i st fs'.
  - subst fs'. cbn. split; [intros j Hj; lia | reflexivity].
  - subst fs'. cbn [for_enumerate].
    destruct (loop_body TikTokDataFetcher.impl n i link st) as [st1 r1] eqn:Hbody.
    pose proof (tiktok_loop_body_files n i link st) as Hfs1.
    pose proof (loop_body_run TikTokDataFetcher.impl n i link st) as Hok.
    rewrite Hbody in Hfs1, Hok. cbn [fst] in Hfs1. cbv zeta in Hfs1.
    cbv zeta in Hok. injection Hok as _ ->.
    unfold bind. rewrite Hbody.
    destruct (IH (S i) st1) as [Hnone Hother].
    cbn [length]. split.
    + intros j Hj Hfree. destruct (decide (j = i)) as [->|Hne].
      * rewrite Hother.
        -- rewrite Hfs1, Hfree.
           destruct (_ !! temp_filename i); apply lookup_delete_eq.
        -- intros j' Hj' Heq. unfold temp_filename, pystr_nat in Heq.
           apply append_inj_l, append_inj_l, append_inj_r, pystr_int_inj in Heq. lia.
      * apply Hnone; [lia | exact Hfree].
    + intros p Hp. rewrite Hother by (intros j Hj; apply Hp; lia).
      assert (Hpi : p ≠ temp_filename i) by (apply Hp; lia).
      rewrite Hfs1.
      destruct (_ !! temp_filename i); [destruct (remove_refused _ _)|];
        rewrite ?lookup_delete_ne by (apply not_eq_sym, Hpi);
        apply Hlocal, Hpi.
Qed.

End RepositoryLoop.

(** X4. With [TikTokDataFetcher] as the fetcher and a scraper that writes
    nowhere but at the path it is given: when the loop of [collect_data] is
    over, the scratch file of a link is gone, whether the link succeeded or
    failed, provided the operating system does not refuse to remove that
    file; and every file that is not a scratch file of the run is as it was
    before the loop, whatever the operating system does. *)
Theorem repository_loop_leaves_no_scratch_file
        `{Gspread} `{Pyktok} `{Os} (links : list value) (w : World) :
  writes_only_its_path →
  let st := (DataCollector.collect_loop TikTokDataFetcher.impl links
               (DataCollector.mkLocals w DataFrame_new [])).1 in
  (∀ j, j < length links →
        (∀ fs, remove_refused (DataCollector.temp_filename j) fs = None) →
        files (DataCollector.world st) !! DataCollector.temp_filename j = None)
  ∧ (∀ p, (∀ j, j < length links → p ≠ DataCollector.temp_filename j) →
          files (DataCollector.world st) !! p = files w !! p).
Proof.
  intros Hlocal st.
  destruct (tiktok_loop_files (length links) 0 links
              (DataCollector.mkLocals w DataFrame_new []) Hlocal) as [Hnone Hother].
  split.
  - intros j Hj Hfree. apply Hnone; [lia | exact Hfree].
  - intros p Hp. apply Hother. intros j Hj. apply Hp. lia.
Qed.

Lemma fixture_scraper_writes_only_its_path :
  writes_only_its_path (H := Fixtures.scraper).
Proof.
  intros link path fs other Hne. cbn [save_tiktok Fixtures.scraper].
  destruct (str_contains "@b/" (pystr link)); cbn [fst]; [reflexivity|].
  apply lookup_insert_ne. congruence.
Qed.

Lemma repository_loop_leaves_no_scratch_file_witness :
  let st := (DataCollector.collect_loop (H0 := Fixtures.permissive)
               (TikTokDataFetcher.impl (H := Fixtures.scraper))
               [Fixtures.link_a; Fixtures.link_b]
               (DataCollector.mkLocals (Fixtures.online_world []) DataFrame_new [])).1 in
  files (DataCollector.world st) !! "tiktok_data/temp_tiktok_data_1.csv" = None
  ∧ files (DataCollector.world st) !! "tiktok_data/temp_tiktok_data_2.csv" = None.
Proof.
  intros st.
  destruct (repository_loop_leaves_no_scratch_file
              (H := Fixtures.online []) (H0 := Fixtures.scraper)
              (H1 := Fixtures.permissive)
              [Fixtures.link_a; Fixtures.link_b] (Fixtures.online_world [])
              fixture_scraper_writes_only_its_path) as [Hnone _].
  split; [apply (Hnone 0) | apply (Hnone 1)]; cbn; try lia; reflexivity.
Defined.

(** ** Where the rows of the cumulative table come from *)

Lemma cumulative_spec_rows (i : nat) (answers : list (value * result DataFrame))
      (acc : DataFrame) (r : dict) :
  r ∈ rows (cumulative_spec i answers acc) →
  r ∈ rows acc
  ∨ ∃ k link df r0,
      answers !! k = Some (link, Ok df) ∧ empty df = false ∧ r0 ∈ rows df
      ∧ r = dict_set "link_index" (VInt (Z.of_nat (i + k) + 1)) r0.
Proof.
  revert i acc. induction answers as [|[link a] answers IH]; intros i acc Hr.
  - left. exact Hr.
  - cbn [cumulative_spec] in Hr. apply IH in Hr as [Hr|(k & l & df & r0 & Hk & He & Hr0 & ->)].
    + unfold accumulate_spec in Hr. destruct a as [df|e]; [|left; exact Hr].
      destruct (empty df) eqn:He; [left; exact Hr|].
      cbn [concat rows setitem_scalar] in Hr. apply elem_of_app in Hr as [Hr|Hr].
      * left. exact Hr.
      * right. apply list_elem_of_fmap in Hr as (r0 & -> & Hr0).
        exists 0, link, df, r0. rewrite Nat.add_0_r. repeat split; assumption.
    + right. exists (S k), l, df, r0. repeat split; try assumption.
      do 3 f_equal. lia.
Qed.

Lemma tiktok_fetcher_rows `{Pyktok} (link : value) (df : DataFrame) (r0 : dict) :
  answered_by TikTokDataFetcher.impl (link, Ok df) → r0 ∈ rows df →
  cell r0 "source_link" = link.
Proof.
  intros (path & fs & Ha) Hr0. cbn [fst snd ABC.fetch_data TikTokDataFetcher.impl] in Ha.
  unfold TikTokDataFetcher.fetch_data, try_except, bind, ret in Ha.
  destruct (save_tiktok link true path fs) as [fs1 [[]|e]].
  - destruct (read_csv path fs1) as [data|e]; cbn in Ha; injection Ha as <-.
    + apply (proj2 (setitem_scalar_stamps data "source_link" link)). exact Hr0.
    + inversion Hr0.
  - cbn in Ha. injection Ha as <-. inversion Hr0.
Qed.

Lemma passes_spec_elem (i k : nat) (passes : list pass) (link : value)
      (r : result DataFrame) (c : option exn) :
  passes !! k = Some (link, r, c) →
  outcome_spec (i + k) link r ∈ passes_spec i passes.
Proof.
  revert i k. induction passes as [|[[link' r'] c'] passes IH]; intros i k Hk.
  - rewrite lookup_nil in Hk. discriminate.
  - cbn [passes_spec pass_records]. destruct k as [|k].
    + injection Hk as -> -> ->. rewrite Nat.add_0_r. constructor.
    + apply list_elem_of_further, elem_of_app. right.
      replace (i + S k) with (S i + k) by lia. apply IH. exact Hk.
Qed.

(** X5. With [TikTokDataFetcher] as the fetcher, every row of the cumulative
    table belongs to one link of the run: its [link_index] is the 1-based
    position of that link, its [source_link] is that link, and the outcome
    list has the [Success] record of that link. *)
Theorem cumulative_rows_point_to_their_link
        `{Gspread} `{Pyktok} `{Os} (links : list value) (w : World) (r : dict) :
  let st := (DataCollector.collect_loop TikTokDataFetcher.impl links
               (DataCollector.mkLocals w DataFrame_new [])).1 in
  r ∈ rows (DataCollector.all_data st) →
  ∃ k link,
    links !! k = Some link
    ∧ cell r "link_index" = VInt (Z.of_nat k + 1)
    ∧ cell r "source_link" = link
    ∧ outcome_record k link None ∈ DataCollector.results st.
Proof.
  intros st.
  destruct (for_enumerate_collect TikTokDataFetcher.impl (length links) 0 links
              (DataCollector.mkLocals w DataFrame_new []))
    as (passes & st' & tr & Hrun & Hl & Hans & _ & Hres & Hall & _).
  subst st. unfold DataCollector.collect_loop. rewrite Hrun. cbn [fst].
  cbn [DataCollector.results DataCollector.all_data app] in Hres, Hall.
  rewrite Hres, Hall. intros Hr.
  apply cumulative_spec_rows in Hr as [Hr|(k & link & df & r0 & Hk & He & Hr0 & ->)];
    [inversion Hr|].
  exists k, link. cbn [Nat.add].
  split; [rewrite <- Hl, list_lookup_fmap, Hk; reflexivity|].
  split; [apply cell_dict_set_eq|].
  split.
  - rewrite cell_dict_set_ne by discriminate.
    apply (tiktok_fetcher_rows link df r0); [|exact Hr0].
    rewrite Forall_forall in Hans. apply Hans.
    apply list_elem_of_lookup. exists k. exact Hk.
  - apply list_lookup_fmap_Some in Hk as ([[l0 a0] c0] & Heq & Hp).
    cbn in Heq. injection Heq as <- <-.
    pose proof (passes_spec_elem 0 k passes link (Ok df) c0 Hp) as Hin.
    unfold outcome_spec, error_of in Hin. rewrite He in Hin. exact Hin.
Qed.

Lemma cumulative_rows_point_to_their_link_witness :
  let st := (DataCollector.collect_loop (H0 := Fixtures.locking)
               (TikTokDataFetcher.impl (H := Fixtures.scraper))
               [Fixtures.link_a; Fixtures.link_b; Fixtures.link_c]
               (DataCollector.mkLocals (Fixtures.online_world []) DataFrame_new [])).1 in
  ∃ r, rows (DataCollector.all_data st) !! 1 = Some r
       ∧ cell r "link_index" = VInt 3 ∧ cell r "source_link" = Fixtures.link_c.
Proof.
  intros st.
  destruct (rows (DataCollector.all_data st) !! 1) as [r|] eqn:Hr;
    [|vm_compute in Hr; discriminate].
  exists r. split; [reflexivity|].
  destruct (cumulative_rows_point_to_their_link
              (H := Fixtures.online []) (H0 := Fixtures.scraper)
              (H1 := Fixtures.locking)
              [Fixtures.link_a; Fixtures.link_b; Fixtures.link_c]
              (Fixtures.online_world []) r)
    as (k & link & _ & _ & _ & _).
  - apply list_elem_of_lookup. exists 1. exact Hr.
  - vm_compute in Hr. injection Hr as <-. split; reflexivity.
Defined.

(** ** [main] *)

Lemma collect_data_returns
      `{Gspread} `{Os} (data_source : ABC.DataSource) (data_fetcher : ABC.DataFetcher)
      (dir ts : string) (links : list value) (w w0 : World) :
  stamps_source_link data_fetcher →
  ABC.get_links (DataSource := data_source) w = (w0, Ok links) →
  ∃ (passes : list pass) st w',
    DataCollector.collect_loop data_fetcher links
      (DataCollector.mkLocals w0 DataFrame_new []) = (st, Ok tt)
    ∧ passes.*1.*1 = links
    ∧ Forall (answered_by data_fetcher) passes.*1
    ∧ Forall refusal passes.*2
    ∧ DataCollector.results st = passes_spec 0 passes
    ∧ DataCollector.all_data st = cumulative_spec 0 passes.*1 DataFrame_new
    ∧ DataCollector.persist TikTokDataProcessor.impl (CSVDataStorage.impl dir)
        GoogleSheetsDataStorage.impl ts st
      = (DataCollector.mkLocals w' (DataCollector.all_data st)
           (DataCollector.results st), Ok tt)
    ∧ DataCollector.collect_data data_source data_fetcher TikTokDataProcessor.impl
        (CSVDataStorage.impl dir) GoogleSheetsDataStorage.impl ts w
      = (w', Ok (DataCollector.all_data st, DataCollector.results st)).
Proof.
  intros Hst Hget.
  destruct (for_enumerate_collect data_fetcher (length links) 0 links
              (DataCollector.mkLocals w0 DataFrame_new []))
    as (passes & st & tr0 & Hrun & Hl & Hans & Href & Hres & Hall & _).
  cbn [DataCollector.results DataCollector.all_data app] in Hres, Hall.
  assert (Hsrc : empty (DataCollector.all_data st) = false →
                 "source_link" ∈ columns (DataCollector.all_data st)).
  { rewrite Hall. apply (cumulative_spec_source_link data_fetcher); try assumption.
    discriminate. }
  destruct (persist_run dir ts st Hsrc) as (w' & Hpersist & _).
  exists passes, st, w'.
  split; [exact Hrun|]. split; [exact Hl|]. split; [exact Hans|].
  split; [exact Href|].
  split; [exact Hres|]. split; [exact Hall|]. split; [exact Hpersist|].
  unfold DataCollector.collect_data, bind at 1. rewrite Hget.
  unfold bind at 1, DataCollector.run_locals, bind at 1.
  unfold DataCollector.collect_loop in *. rewrite Hrun, Hpersist. reflexivity.
Qed.

Lemma connect_run `{Gspread} (w : World) :
  GspreadClient._connect_to_google_sheets w
  = (mkWorld (files w) (gs_authorize (remote w)).1 (trace w ++ [EvAuthorize]),
     (gs_authorize (remote w)).2).
Proof.
  unfold GspreadClient._connect_to_google_sheets, bind, emit, on_remote.
  cbn [files remote trace]. destruct (gs_authorize (remote w)); reflexivity.
Qed.

Lemma length_records_spec (i : nat) (l : list (value * option exn)) :
  length (records_spec i l) = length l.
Proof.
  revert i. induction l as [|[link err] l IH]; intros i; [reflexivity|].
  cbn. rewrite IH. reflexivity.
Qed.

(** X6. With the browser set-up and [os.makedirs] taken to succeed, [main]
    raises exactly when connecting to the spreadsheet service or reading the
    column of links raises, and then with that exception, before anything is
    fetched or written (the only call made is the connection).  Otherwise,
    whatever the scraper, the operating system and the spreadsheet service
    do afterwards, it runs to its end and reports [k] successes out of [m],
    where [m] is the number of outcome records.  With [N] the number of
    cells of the column that contain [tiktok.com]: [k] is at most [N], and
    [m] is at least [N] and at most [2N]; [m] is [N], the number of links,
    when no removal is refused. *)
Theorem main_fails_only_at_the_link_sheet
        `{Gspread} `{Pyktok} `{Os} (ts : string) (w : World) :
  match gs_authorize (remote w) with
  | (r1, Raise e) =>
      Main.main ts w = (mkWorld (files w) r1 (trace w ++ [EvAuthorize]), Raise e)
  | (r1, Ok _) =>
      match gs_col_values sheet_title sheet_tab 11 r1 with
      | (r2, Raise e) =>
          Main.main ts w = (mkWorld (files w) r2 (trace w ++ [EvAuthorize]), Raise e)
      | (r2, Ok column) =>
          let N := length (GoogleSheetsDataSource.tiktok_links column) in
          ∃ w' k m,
            Main.main ts w
            = (w', Ok ("Processing complete. Successfully processed "
                       +:+ pystr_nat k +:+ " out of " +:+ pystr_nat m +:+ " links."))
            ∧ (k <= N)%nat
            ∧ (N <= m <= 2 * N)%nat
            ∧ (never_refuses → m = N)
      end
  end.
Proof.
  pose proof (connect_run w) as Hc.
  destruct (gs_authorize (remote w)) as [r1 [[]|e]]; cbn [fst snd] in Hc;
    [|unfold Main.main, Main.GoogleSheetsDataSource__init__, bind at 1;
      rewrite Hc; reflexivity].
  set (w1 := mkWorld (files w) r1 (trace w ++ [EvAuthorize])) in *.
  destruct (gs_col_values sheet_title sheet_tab 11 r1) as [r2 [column|e]] eqn:Hcol;
    unfold Main.main, Main.GoogleSheetsDataSource__init__, bind at 1;
    rewrite Hc.
  - assert (Hget : ABC.get_links (DataSource := GoogleSheetsDataSource.impl) w1
                   = (mkWorld (files w) r2 (trace w ++ [EvAuthorize]),
                      Ok (GoogleSheetsDataSource.tiktok_links column))).
    { cbn [ABC.get_links GoogleSheetsDataSource.impl].
      unfold GoogleSheetsDataSource.get_links, GspreadClient.col_values, bind,
        on_remote, ret. unfold sheet_title, sheet_tab in Hcol.
      subst w1. cbn [files remote trace]. rewrite Hcol. reflexivity. }
    destruct (collect_data_returns GoogleSheetsDataSource.impl TikTokDataFetcher.impl
                "tiktok_data" ts _ _ _ tiktok_fetcher_stamps Hget)
      as (passes & st & w' & _ & Hl & _ & Href & Hres & _ & _ & Hrun).
    cbv zeta. unfold bind. rewrite Hrun. cbn [snd].
    rewrite Hres, success_count_passes.
    assert (Hlen : length passes = length (GoogleSheetsDataSource.tiktok_links column))
      by (rewrite <- Hl, !length_fmap; reflexivity).
    pose proof (passes_spec_length 0 passes) as Hbound.
    eexists w', _, _. unfold ret. split; [reflexivity|].
    split; [etransitivity; [apply filter_length_le|];
            rewrite !length_fmap; apply Nat.eq_le_incl, Hlen|].
    split; [unfold pass in *; lia|].
    intros Hnever.
    rewrite (passes_spec_outcomes 0 passes (never_refuses_passes passes Hnever Href)).
    rewrite outcomes_spec_length, length_fmap. exact Hlen.
  - unfold bind at 1.
    unfold DataCollector.collect_data, bind at 1.
    cbn [ABC.get_links GoogleSheetsDataSource.impl].
    unfold GoogleSheetsDataSource.get_links, GspreadClient.col_values, bind at 1,
      on_remote. unfold sheet_title, sheet_tab in Hcol.
    subst w1. cbn [files remote trace]. rewrite Hcol. reflexivity.
Qed.

(** ** The loop and the writes of the earlier script *)

Section ScriptRun.
Context `{Gspread} `{Pyktok} `{Os}.

Import DataCollector.

Lemma read_csv_present (path : string) (fs : gmap string file) (df : DataFrame) :
  read_csv path fs = Ok df → is_Some (fs !! path).
Proof.
  unfold read_csv. destruct (fs !! path); [eauto | discriminate].
Qed.

Lemma script_loop_body_exact (i : nat) (link : value) (st : Locals) :
  let path := temp_filename i in
  let fs1 := (save_tiktok link true path (files (world st))).1 in
  let err := script_error_of link path (files (world st)) in
  let data := script_data_of link path (files (world st)) in
  Script.loop_body i link st
  = (mkLocals
       (mkWorld (match err with None => delete path fs1 | Some _ => fs1 end)
                (remote (world st))
                (trace (world st)
                 ++ match data with Some _ => [EvRemove path] | None => [] end))
       (match data with
        | Some data =>
            concat (all_data st)
                   (setitem_scalar (setitem_scalar data "source_link" link)
                                   "link_index" (VInt (Z.of_nat i + 1)))
        | None => all_data st
        end)
       (results st ++ [outcome_record i link err]),
     Ok tt).
Proof.
  intros path fs1 err data. subst fs1 err data.
  unfold Script.loop_body, script_error_of, script_data_of, try_except, bind,
    in_world, on_files.
  fold path.
  cbn [fst snd world all_data results files remote trace].
  destruct (save_tiktok link true path (files (world st))) as [fs1 [[]|e]];
    cbn [fst snd world all_data results files remote trace].
  - destruct (read_csv path fs1) as [data|e] eqn:Hread;
      cbn [fst snd world all_data results files remote trace].
    + unfold set_all_data, os_remove, emit, on_files, bind, results_append, index_of.
      cbn [fst snd world all_data results files remote trace].
      destruct (read_csv_present _ _ _ Hread) as [f Hf]. rewrite Hf.
      destruct (remove_refused path fs1) as [e|];
        cbn [fst snd world all_data results files remote trace]; reflexivity.
    + unfold results_append, index_of.
      cbn [fst snd world all_data results files remote trace].
      rewrite app_nil_r. destruct st as [[] ? ?]; reflexivity.
  - unfold results_append, index_of.
    cbn [fst snd world all_data results files remote trace].
    rewrite app_nil_r. destruct st as [[] ? ?]; reflexivity.
Qed.

(** When no removal is refused, a link that is recorded [Failed] has added
    nothing to the cumulative table. *)
Lemma script_failed_without_data (link : value) (path : string)
      (fs : gmap string file) :
  never_refuses → script_error_of link path fs ≠ None →
  script_data_of link path fs = None.
Proof.
  intros Hnever. unfold script_error_of, script_data_of.
  destruct (save_tiktok link true path fs) as [fs1 [[]|e]]; [|reflexivity].
  destruct (read_csv path fs1) as [data|e]; [|reflexivity].
  rewrite Hnever. congruence.
Qed.

Lemma script_for_enumerate_trace (i : nat) (links : list value) (st : Locals) :
  ∃ l st' tr,
    for_enumerate i links Script.loop_body st = (st', Ok tt)
    ∧ l.*1 = links
    ∧ results st' = results st ++ records_spec i l
    ∧ trace (world st') = trace (world st) ++ tr
    ∧ Forall (λ ev, is_remove ev = true) tr
    ∧ remote (world st') = remote (world st)
    ∧ (never_refuses →
       Forall (λ a : value * option exn, a.2 ≠ None) l → all_data st' = all_data st).
Proof.
  revert i st. induction links as [|link links IH]; intros i st.
  - exists [], st, []. cbn. rewrite !app_nil_r.
    repeat split; try reflexivity; constructor.
  - pose proof (script_loop_body_exact i link st) as Hbody. cbv zeta in Hbody.
    pose proof (script_failed_without_data link (temp_filename i) (files (world st)))
      as Hfailed.
    set (err := script_error_of link (temp_filename i) (files (world st))) in *.
    set (data := script_data_of link (temp_filename i) (files (world st))) in *.
    match type of Hbody with _ = (?s, _) => set (st1 := s) in * end.
    destruct (IH (S i) st1) as (l & st' & tr & Hrun & Hl & Hres & Htr & Hrm & Hrem & Hall).
    exists ((link, err) :: l), st'.
    exists (match data with Some _ => [EvRemove (temp_filename i)] | None => [] end ++ tr).
    split; [cbn [for_enumerate]; unfold bind; rewrite Hbody; exact Hrun|].
    split; [cbn; f_equal; exact Hl|].
    split; [rewrite Hres; subst st1; cbn [results records_spec];
            rewrite <- app_assoc; reflexivity|].
    split; [rewrite Htr; subst st1; cbn [world trace]; rewrite <- app_assoc; reflexivity|].
    split; [apply Forall_app; split; [destruct data; repeat constructor | exact Hrm]|].
    split; [rewrite Hrem; reflexivity|].
    intros Hnever Hfail. inversion Hfail as [|? ? Herr Hrest]; subst.
    rewrite (Hall Hnever Hrest). subst st1. cbn [all_data snd] in *.
    rewrite (Hfailed Hnever Herr). reflexivity.
Qed.

End ScriptRun.

(** X7. One pass of the loop of the script's [process_tiktok_links], for
    every scraper, operating system, link, position and state: it does not
    raise and appends exactly one outcome record.  The record is [Success]
    exactly when the scraper returned, its scratch file could be read back
    and the removal of that file was not refused; the scratch file is then
    gone.  Otherwise the record is [Failed] with the message of the
    scraper's, the reader's or the removal's exception, and the file system
    stays as the scraper left it.  The rows read are appended to the
    cumulative table as soon as the file was read back: a link whose
    scratch file could not be removed is recorded [Failed] although its rows
    are in the table. *)
Theorem script_link_succeeds_iff_scraped_read_and_removed
        `{Gspread} `{Pyktok} `{Os} (i : nat) (link : value)
        (st : DataCollector.Locals) :
  let path := DataCollector.temp_filename i in
  let fs0 := files (DataCollector.world st) in
  let fs1 := (save_tiktok link true path fs0).1 in
  let err := script_error_of link path fs0 in
  let st' := (Script.loop_body i link st).1 in
  (Script.loop_body i link st).2 = Ok tt
  ∧ DataCollector.results st'
    = DataCollector.results st ++ [outcome_record i link err]
  ∧ (err = None
     ↔ (save_tiktok link true path fs0).2 = Ok tt
       ∧ is_ok (read_csv path fs1) = true
       ∧ remove_refused path fs1 = None)
  ∧ DataCollector.all_data st'
    = match (save_tiktok link true path fs0).2, read_csv path fs1 with
      | Ok _, Ok data =>
          concat (DataCollector.all_data st)
                 (setitem_scalar (setitem_scalar data "source_link" link)
                                 "link_index" (VInt (Z.of_nat i + 1)))
      | _, _ => DataCollector.all_data st
      end
  ∧ match err with
    | None =>
        files (DataCollector.world st') = delete path fs1
        ∧ files (DataCollector.world st') !! path = None
        ∧ is_Some (fs1 !! path)
    | Some _ => files (DataCollector.world st') = fs1
    end.
Proof.
  intros path fs0 fs1 err st'. subst st'.
  rewrite script_loop_body_exact.
  cbn [fst snd DataCollector.world DataCollector.all_data DataCollector.results files].
  fold path fs0 fs1 err.
  split; [reflexivity|]. split; [reflexivity|].
  subst err fs1. unfold script_error_of, script_data_of.
  destruct (save_tiktok link true path fs0) as [fs1 [[]|e]]; cbn [fst snd].
  - destruct (read_csv path fs1) as [data|e] eqn:Hread; cbn [is_ok].
    + split; [split; [intros Hn; repeat split; exact Hn | intros (_ & _ & Hn); exact Hn]|].
      split; [reflexivity|].
      destruct (remove_refused path fs1); [reflexivity|].
      split; [reflexivity|]. split; [apply lookup_delete_eq|].
      apply (read_csv_present _ _ _ Hread).
    + split; [split; [discriminate | intros (_ & Hn & _); discriminate]|].
      split; reflexivity.
  - split; [split; [discriminate | intros (Hn & _); discriminate]|].
    split; reflexivity.
Qed.

Lemma script_output_names_distinct (ts : string) :
  "tiktok_data" +:+ "/all_tiktok_data_" +:+ ts +:+ ".csv"
  ≠ "tiktok_data" +:+ "/processing_summary_" +:+ ts +:+ ".csv".
Proof.
  intros Heq. apply append_inj_l in Heq. rewrite !append_cons in Heq.
  discriminate.
Qed.

Lemma process_tiktok_links_run
        `{Gspread} `{Pyktok} `{Os} (ts : string) (links : list value) (w : World) :
  let combined := "tiktok_data/all_tiktok_data_" +:+ ts +:+ ".csv" in
  let summary := "tiktok_data/processing_summary_" +:+ ts +:+ ".csv" in
  let st := (Script.process_loop links (DataCollector.mkLocals w DataFrame_new [])).1 in
  let all_data := DataCollector.all_data st in
  let results := DataCollector.results st in
  ∃ w' l,
    Script.process_tiktok_links ts links w = (w', Ok (results, combined))
    ∧ l.*1 = links ∧ results = records_spec 0 l
    ∧ length results = length links
    ∧ trace w' = trace (DataCollector.world st)
                 ++ (if empty all_data then [] else [EvToCsv combined all_data])
                 ++ [EvToCsv summary (DataFrame_of_records results)]
    ∧ files w' !! summary = Some (CsvFile (DataFrame_of_records results))
    ∧ files w' !! combined
      = (if empty all_data then files (DataCollector.world st) !! combined
         else Some (CsvFile all_data))
    ∧ remote w' = remote w
    ∧ (never_refuses → successes results = 0 → all_data = DataFrame_new).
Proof.
  intros combined summary st all_data results. subst st all_data results.
  destruct (script_for_enumerate_trace 0 links
              (DataCollector.mkLocals w DataFrame_new []))
    as (l & st & tr & Hrun & Hl & Hres & Htr & Hrm & Hrem & Hall).
  cbn [DataCollector.results DataCollector.all_data DataCollector.world app]
    in Hres, Htr, Hrem, Hall.
  pose proof (script_output_names_distinct ts) as Hdistinct.
  unfold Script.process_loop at 1 2 3 4 5 6 7 8 9. rewrite Hrun. cbn [fst].
  unfold Script.process_tiktok_links, bind at 1, DataCollector.run_locals.
  unfold bind at 1. unfold Script.process_loop. rewrite Hrun.
  unfold bind, when, DataCollector.in_world, to_csv, emit, on_files, bind, ret.
  change (DataCollector.output_dir +:+ "/all_tiktok_data_" +:+ ts +:+ ".csv")
    with combined.
  change (DataCollector.output_dir +:+ "/processing_summary_" +:+ ts +:+ ".csv")
    with summary.
  change ("tiktok_data" +:+ "/all_tiktok_data_" +:+ ts +:+ ".csv") with combined
    in Hdistinct.
  change ("tiktok_data" +:+ "/processing_summary_" +:+ ts +:+ ".csv") with summary
    in Hdistinct.
  cbn [fst snd DataCollector.world DataCollector.results DataCollector.all_data
       files remote trace].
  assert (Hlen : length (DataCollector.results st) = length links)
    by (rewrite Hres, length_records_spec, <- Hl, length_fmap; reflexivity).
  assert (Hnone : never_refuses → successes (DataCollector.results st) = 0 →
                  DataCollector.all_data st = DataFrame_new).
  { intros Hnever. rewrite Hres, successes_records. intros Hz. apply (Hall Hnever).
    clear -Hz. induction l as [|[link err] l IH]; constructor.
    - cbn in *. destruct err; [discriminate|].
      rewrite bool_decide_eq_true_2 in Hz by reflexivity. discriminate.
    - apply IH. cbn in Hz. destruct (bool_decide (err = None)); [discriminate|exact Hz]. }
  destruct (empty (DataCollector.all_data st)) eqn:He; cbn [negb];
    cbn [fst snd DataCollector.world DataCollector.results DataCollector.all_data
         files remote trace].
  - eexists _, l. split; [reflexivity|]. split; [exact Hl|]. split; [exact Hres|].
    split; [exact Hlen|]. cbn [trace files remote app].
    split; [reflexivity|].
    split; [apply lookup_insert_eq|].
    split; [apply lookup_insert_ne; congruence|].
    split; [exact Hrem | exact Hnone].
  - eexists _, l. split; [reflexivity|]. split; [exact Hl|]. split; [exact Hres|].
    split; [exact Hlen|]. cbn [trace files remote app].
    split; [rewrite <- !app_assoc; reflexivity|].
    split; [apply lookup_insert_eq|].
    split; [rewrite lookup_insert_ne by congruence; apply lookup_insert_eq|].
    split; [exact Hrem | exact Hnone].
Qed.

(** X8. The script's [process_tiktok_links], for every scraper, operating
    system, time stamp, list of links and world: it does not raise and
    returns the outcome list of its loop, one record per link, together with
    the name of the combined file.  After the loop it writes the cumulative
    table of the loop to the combined file if and only if that table is not
    empty, and then, always, the outcome list to the summary file (also for
    an empty list of links); it does nothing else.  The name of the
    combined file is returned in either case: when the table is empty it is
    the name of a file this run did not write, which is so when no removal
    was refused and no link succeeded. *)
Theorem process_tiktok_links_writes
        `{Gspread} `{Pyktok} `{Os} (ts : string) (links : list value) (w : World) :
  let combined := "tiktok_data/all_tiktok_data_" +:+ ts +:+ ".csv" in
  let summary := "tiktok_data/processing_summary_" +:+ ts +:+ ".csv" in
  let st := (Script.process_loop links (DataCollector.mkLocals w DataFrame_new [])).1 in
  let all_data := DataCollector.all_data st in
  let results := DataCollector.results st in
  ∃ w',
    Script.process_tiktok_links ts links w = (w', Ok (results, combined))
    ∧ length results = length links
    ∧ trace w' = trace (DataCollector.world st)
                 ++ (if empty all_data then [] else [EvToCsv combined all_data])
                 ++ [EvToCsv summary (DataFrame_of_records results)]
    ∧ files w' !! summary = Some (CsvFile (DataFrame_of_records results))
    ∧ files w' !! combined
      = (if empty all_data then files (DataCollector.world st) !! combined
         else Some (CsvFile all_data))
    ∧ (never_refuses → successes results = 0 → all_data = DataFrame_new).
Proof.
  intros combined summary st all_data results.
  destruct (process_tiktok_links_run ts links w)
    as (w' & l & Hrun & _ & _ & Hlen & Htr & Hsum & Hcomb & _ & Hnone).
  exists w'. repeat split; assumption.
Qed.

(** ** The formatting code of the script *)

Lemma has_columns_true (df : DataFrame) :
  forallb (λ c, has_column c df) script_columns = true →
  has_column "source_link" df = true ∧ has_column "video_playcount" df = true
  ∧ has_column "author_username" df = true
  ∧ has_column "author_followercount" df = true.
Proof.
  cbn [forallb script_columns]. rewrite !andb_true_iff. tauto.
Qed.

Lemma output_df_closed (df : DataFrame) :
  forallb (λ c, has_column c df) script_columns = true →
  ScriptRest.output_df df
  = Ok (mkDF normalized_columns
          (imap (λ i r,
                   [("STT", VInt (Z.of_nat (1 + i)));
                    ("Link Video", cell r "source_link");
                    (TikTokDataProcessor.view_column, cell r "video_playcount");
                    (TikTokDataProcessor.author_column, cell r "author_username");
                    (TikTokDataProcessor.follower_column,
                     cell r "author_followercount")])
                (rows df))).
Proof.
  intros Hcols. apply has_columns_true in Hcols as (Hs & Hv & Ha & Hf).
  unfold ScriptRest.output_df, setitem_list.
  assert (Hfresh : fresh df = false).
  { unfold fresh. apply has_column_true in Hs.
    destruct (columns df); [inversion Hs | reflexivity]. }
  rewrite Hfresh, range_length.
  rewrite decide_True by (unfold len; lia). cbn [rbind].
  assert (Hin : ∀ c, c = "STT" ∨ has_column c df = true →
                     bool_decide (c ∈ add_column "STT" (columns df)) = true).
  { intros c Hc. apply bool_decide_eq_true, add_column_elem.
    destruct Hc as [->|Hc]; [left; reflexivity | right; apply has_column_true, Hc]. }
  unfold getitem_list. cbn [List.filter]. unfold has_column. cbn [columns].
  rewrite !Hin by (auto || (left; reflexivity)). cbn [negb rbind].
  unfold set_columns. cbn [columns rows length]. rewrite decide_True by reflexivity.
  f_equal. unfold normalized_columns. f_equal.
  apply list_eq; intros i.
  rewrite !list_lookup_fmap, lookup_zip_with, list_lookup_imap.
  destruct (rows df !! i) as [r|] eqn:Hr; [|reflexivity].
  apply lookup_lt_Some in Hr as Hi.
  rewrite range_lookup by (unfold len; lia).
  cbn [option_bind mbind fmap option_fmap option_map list_fmap zip zip_with].
  f_equal. unfold cell. cbn [dict_get].
  repeat (rewrite decide_True by reflexivity || rewrite decide_False by discriminate).
  cbn [default].
  repeat match goal with
         | |- context [default NaN (dict_get ?c ?d)] =>
             change (default NaN (dict_get c d)) with (cell d c)
         end.
  rewrite cell_dict_set_eq, !cell_dict_set_ne by discriminate. reflexivity.
Qed.

(** X9. On a non-empty table that has the four columns the script selects,
    the formatting code of the script and [process_data] give the same
    table: the class-based normalizer extends the script. *)
Theorem script_formatting_agrees_with_process_data (df : DataFrame) :
  empty df = false →
  forallb (λ c, has_column c df) script_columns = true →
  ScriptRest.output_df df = TikTokDataProcessor.process_data df.
Proof.
  intros He Hcols. rewrite (output_df_closed df Hcols).
  apply has_columns_true in Hcols as (Hs & Hv & Ha & Hf).
  rewrite (process_data_normalize df He Hs). f_equal.
  unfold normalize_spec. rewrite He. f_equal.
  apply imap_ext. intros i r _. unfold normalized_row.
  unfold view_candidates, author_candidates, follower_candidates.
  rewrite !resolve_spec_first by assumption. reflexivity.
Qed.

Lemma script_formatting_agrees_with_process_data_witness :
  let df := setitem_scalar (Fixtures.metadata "a" 1200 35) "source_link" Fixtures.link_a in
  ScriptRest.output_df df = TikTokDataProcessor.process_data df
  ∧ is_ok (ScriptRest.output_df df) = true.
Proof.
  intros df. split.
  - apply script_formatting_agrees_with_process_data; reflexivity.
  - reflexivity.
Defined.

Lemma filter_nil_forall {A} (p : A → bool) (l : list A) (x : A) :
  List.filter p l = [] → x ∈ l → p x = false.
Proof.
  intros Hf Hx. destruct (p x) eqn:Hp; [|reflexivity].
  assert (Hin : In x (List.filter p l))
    by (apply filter_In; split; [apply list_elem_of_In, Hx | exact Hp]).
  rewrite Hf in Hin. destruct Hin.
Qed.

Lemma output_df_missing_column (df : DataFrame) :
  forallb (λ c, has_column c df) script_columns = false →
  ∃ e, ScriptRest.output_df df = Raise e.
Proof.
  intros Hmiss. unfold ScriptRest.output_df.
  assert (Hset : ∃ df', setitem_list df "STT" (range 1 (len df + 1)) = Ok df'
                        ∧ ∀ c, c ∈ columns df' → c = "STT" ∨ c ∈ columns df).
  { unfold setitem_list. destruct (fresh df).
    - eexists. split; [reflexivity|]. cbn [columns]. intros c Hc.
      apply list_elem_of_singleton in Hc. left. exact Hc.
    - rewrite range_length, decide_True by (unfold len; lia).
      eexists. split; [reflexivity|]. cbn [columns]. intros c Hc.
      apply add_column_elem in Hc. exact Hc. }
  destruct Hset as (df' & -> & Hcols). cbn [rbind]. unfold getitem_list.
  destruct (List.filter _ _) as [|c rest] eqn:Hfil; [exfalso | eexists; reflexivity].
  assert (Hall : ∀ c, c ∈ script_columns → has_column c df = true).
  { intros c Hc.
    assert (Hc' : c ∈ ["STT"; "source_link"; "video_playcount"; "author_username";
                       "author_followercount"])
      by (apply list_elem_of_further, Hc).
    pose proof (filter_nil_forall _ _ c Hfil Hc') as Hp. cbn beta in Hp.
    apply negb_false_iff, has_column_true, Hcols in Hp as [->|Hp].
    - unfold script_columns in Hc.
      repeat (apply elem_of_cons in Hc as [Hc|Hc]; [discriminate|]). inversion Hc.
    - apply has_column_true, Hp. }
  assert (Htrue : forallb (λ c, has_column c df) script_columns = true).
  { apply forallb_forall. intros c Hc. apply Hall, list_elem_of_In, Hc. }
  congruence.
Qed.

(** X10. The formatting code of the script, for every world: it raises,
    leaving the world exactly as it was (no file is written), when the
    combined file cannot be read or when one of [source_link],
    [video_playcount], [author_username], [author_followercount] is not a
    column - there is no default for a missing column here.  Otherwise it
    writes [formatted_tiktok_data.csv] with the five output columns and as
    many rows as the input, also when the input has no rows. *)
Theorem format_csv_all_or_nothing `{Gspread} (w : World) :
  match read_csv ScriptRest.input_file (files w) with
  | Raise e => ScriptRest.format_csv w = (w, Raise e)
  | Ok df =>
      if forallb (λ c, has_column c df) script_columns
      then ∃ out,
          ScriptRest.output_df df = Ok out
          ∧ columns out = normalized_columns
          ∧ len out = len df
          ∧ series out "STT" = (λ k, VInt (Z.of_nat k)) <$> seq 1 (len df)
          ∧ ScriptRest.format_csv w
            = (mkWorld (<[ScriptRest.output_file := CsvFile out]> (files w))
                       (remote w)
                       (trace w ++ [EvToCsv ScriptRest.output_file out]),
               Ok tt)
      else ∃ e, ScriptRest.format_csv w = (w, Raise e)
  end.
Proof.
  unfold ScriptRest.format_csv, bind, on_files.
  destruct (read_csv ScriptRest.input_file (files w)) as [df|e].
  - destruct (forallb (λ c, has_column c df) script_columns) eqn:Hcols.
    + rewrite (output_df_closed df Hcols). eexists. split; [reflexivity|].
      split; [reflexivity|]. split; [apply length_imap|].
      split.
      * unfold series. cbn [rows]. apply list_eq; intros i.
        rewrite !list_lookup_fmap, list_lookup_imap.
        destruct (rows df !! i) as [r|] eqn:Hr.
        -- apply lookup_lt_Some in Hr. rewrite lookup_seq_lt by exact Hr. reflexivity.
        -- apply lookup_ge_None in Hr. rewrite lookup_seq_ge by exact Hr. reflexivity.
      * unfold to_csv, bind, emit, on_files. destruct w; reflexivity.
    + destruct (output_df_missing_column df Hcols) as [e He]. exists e.
      rewrite He. destruct w; reflexivity.
  - destruct w; reflexivity.
Qed.

(** ** The link source of the script *)

Lemma script_tiktok_links_cons (v : value) (column : list value) :
  Script.tiktok_links (v :: column)
  = rbind (contains_value "tiktok.com" v)
          (λ keep, rbind (Script.tiktok_links column)
                         (λ kept, Ok (if keep : bool then v :: kept else kept))).
Proof. reflexivity. Qed.

Lemma script_tiktok_links_strings (column : list value) :
  forallb is_str column = true →
  Script.tiktok_links column = Ok (GoogleSheetsDataSource.tiktok_links column).
Proof.
  induction column as [|v column IH]; [reflexivity|].
  cbn [forallb]. rewrite andb_true_iff. intros [Hv Hrest].
  destruct v as [| | | |s]; try discriminate.
  rewrite script_tiktok_links_cons. cbn [contains_value rbind].
  rewrite (IH Hrest).
  cbn [rbind GoogleSheetsDataSource.tiktok_links List.filter pystr].
  reflexivity.
Qed.

Lemma script_tiktok_links_non_string (column : list value) :
  forallb is_str column = false → ∃ e, Script.tiktok_links column = Raise e.
Proof.
  induction column as [|v column IH]; [discriminate|].
  cbn [forallb]. rewrite andb_false_iff. intros Hv.
  rewrite script_tiktok_links_cons.
  destruct v as [| |b|z|s]; cbn [contains_value rbind];
    try (eexists; reflexivity).
  destruct Hv as [Hv|Hrest]; [discriminate|].
  destruct (IH Hrest) as [e ->]. cbn [rbind]. eexists; reflexivity.
Qed.

(** X11. The script's [get_tiktok_links] tests ['tiktok.com' in link] on the
    cell as it is.  On a column of strings it keeps exactly the links that
    [get_links] of [Data.py] keeps; as soon as one cell of the column is not
    a string ([None], a number, a boolean) it raises instead of returning
    any link.  In both cases it has first connected to the service. *)
Theorem script_get_tiktok_links_needs_strings
        `{Gspread} (column : list value) (w : World) (r1 r2 : Remote) :
  gs_authorize (remote w) = (r1, Ok tt) →
  gs_col_values sheet_title sheet_tab 11 r1 = (r2, Ok column) →
  let w' := mkWorld (files w) r2 (trace w ++ [EvAuthorize]) in
  if forallb is_str column
  then Script.get_tiktok_links w
       = (w', Ok (GoogleSheetsDataSource.tiktok_links column))
  else ∃ e, Script.get_tiktok_links w = (w', Raise e).
Proof.
  intros Hauth Hcol w'. unfold sheet_title, sheet_tab in Hcol.
  assert (Hrun : Script.get_tiktok_links w = (w', Script.tiktok_links column)).
  { unfold Script.get_tiktok_links. unfold bind at 1.
    rewrite connect_run, Hauth. cbn [fst snd].
    unfold bind, GspreadClient.col_values, on_remote. cbn [files remote trace].
    rewrite Hcol. destruct (Script.tiktok_links column); reflexivity. }
  rewrite Hrun. destruct (forallb is_str column) eqn:Hstr.
  - rewrite (script_tiktok_links_strings column Hstr). reflexivity.
  - destruct (script_tiktok_links_non_string column Hstr) as [e He].
    exists e. rewrite He. reflexivity.
Qed.

Lemma script_get_tiktok_links_needs_strings_witness :
  (∃ e, Script.get_tiktok_links (Fixtures.online_world Fixtures.column_k)
        = (@mkWorld (Fixtures.online Fixtures.column_k) ∅ [] [EvAuthorize], Raise e))
  ∧ Script.get_tiktok_links (Fixtures.online_world [Fixtures.link_a; VStr "x"])
    = (@mkWorld (Fixtures.online [Fixtures.link_a; VStr "x"]) ∅ [] [EvAuthorize],
       Ok [Fixtures.link_a]).
Proof.
  split.
  - apply (script_get_tiktok_links_needs_strings
             (H := Fixtures.online Fixtures.column_k) Fixtures.column_k
             (Fixtures.online_world Fixtures.column_k) [] [] eq_refl eq_refl).
  - apply (script_get_tiktok_links_needs_strings
             (H := Fixtures.online [Fixtures.link_a; VStr "x"])
             [Fixtures.link_a; VStr "x"]
             (Fixtures.online_world [Fixtures.link_a; VStr "x"]) [] [] eq_refl eq_refl).
Defined.

(** ** The calls of the spreadsheet sink *)

(** X12. For a non-empty table the spreadsheet sink makes its calls in the
    fixed order authorize, create, grant, open worksheet, update, and stops
    at the first call that raises: the calls made are exactly those up to
    and including that call, the result is then the empty string, nothing
    is retried and nothing is undone (a spreadsheet created before a later
    failure stays).  When no call raises, all five calls were made and the
    result is the identifier of the spreadsheet.  The update is given the
    line of column names followed by one line per row of the table. *)
Theorem sheets_save_data_stops_at_the_first_failure
        `{Gspread} (df : DataFrame) (sheet_name : string) (w : World) :
  empty df = false →
  ∃ w' s values,
    GoogleSheetsDataStorage.save_data df sheet_name w = (w', Ok s)
    ∧ files w' = files w
    ∧ header_then_rows df values
    ∧ match gs_authorize (remote w) with
      | (_, Raise _) => s = EmptyString ∧ trace w' = trace w ++ [EvAuthorize]
      | (r1, Ok _) =>
      match gs_create sheet_name r1 with
      | (_, Raise _) =>
          s = EmptyString ∧ trace w' = trace w ++ [EvAuthorize; EvCreate sheet_name]
      | (r2, Ok id) =>
      match gs_insert_permission id "anyone" "reader" r2 with
      | (_, Raise _) =>
          s = EmptyString
          ∧ trace w' = trace w ++ take 3 (upload_calls values sheet_name id)
      | (r3, Ok _) =>
      match gs_get_worksheet id 0 r3 with
      | (_, Raise _) =>
          s = EmptyString
          ∧ trace w' = trace w ++ take 4 (upload_calls values sheet_name id)
      | (r4, Ok _) =>
          trace w' = trace w ++ upload_calls values sheet_name id
          ∧ s = match gs_update id "A1" values r4 with
                | (_, Raise _) => EmptyString
                | (_, Ok _) => id
                end
      end end end end.
Proof.
  intros He. unfold GoogleSheetsDataStorage.save_data. rewrite He.
  unfold try_except, bind, ret, GspreadClient._connect_to_google_sheets,
    GspreadClient.create, GspreadClient.insert_permission,
    GspreadClient.get_worksheet, GspreadClient.update, emit, on_remote, bind.
  cbn [files remote trace].
  destruct (gs_authorize (remote w)) as [r1 [[]|e1]]; cbn [files remote trace];
    [|eexists _, _, _; split; [reflexivity|]; split; [reflexivity|];
      split; [apply tolist_header_then_rows|]; split; reflexivity].
  destruct (gs_create sheet_name r1) as [r2 [id|e2]]; cbn [files remote trace];
    rewrite <- ?app_assoc;
    [|eexists _, _, _; split; [reflexivity|]; split; [reflexivity|];
      split; [apply tolist_header_then_rows|]; split; reflexivity].
  destruct (gs_insert_permission id "anyone" "reader" r2) as [r3 [[]|e3]];
    cbn [files remote trace]; rewrite <- ?app_assoc;
    [|eexists _, _, _; split; [reflexivity|]; split; [reflexivity|];
      split; [apply tolist_header_then_rows|]; split; reflexivity].
  destruct (gs_get_worksheet id 0 r3) as [r4 [[]|e4]]; cbn [files remote trace];
    rewrite <- ?app_assoc;
    [|eexists _, _, _; split; [reflexivity|]; split; [reflexivity|];
      split; [apply tolist_header_then_rows|]; split; reflexivity].
  destruct (gs_update id "A1" ([columns_tolist df] ++ values_tolist df) r4)
    as [r5 [[]|e5]] eqn:Hup; cbn [app] in Hup; cbn [files remote trace];
    rewrite <- ?app_assoc;
    eexists _, _, (columns_tolist df :: values_tolist df);
    (split; [reflexivity|]); (split; [reflexivity|]);
    (split; [apply tolist_header_then_rows|]); rewrite Hup; split; reflexivity.
Qed.

Lemma sheets_save_data_stops_at_the_first_failure_witness :
  ∃ w',
    GoogleSheetsDataStorage.save_data Fixtures.raw_table "Sheet"
      (Fixtures.read_only_world []) = (w', Ok EmptyString)
    ∧ trace w' = [EvAuthorize; EvCreate "Sheet"].
Proof.
  destruct (sheets_save_data_stops_at_the_first_failure
              (H := Fixtures.read_only []) Fixtures.raw_table "Sheet"
              (Fixtures.read_only_world []) eq_refl)
    as (w' & s & values & Hrun & _ & _ & Hcase).
  cbn in Hcase. destruct Hcase as [-> Htr].
  exists w'. split; [exact Hrun | exact Htr].
Defined.

(** ** The files of a run *)

Lemma os_path_join_inj (dir a b : string) :
  String.prefix "/" a = false → String.prefix "/" b = false →
  os_path_join dir a = os_path_join dir b → a = b.
Proof.
  intros Ha Hb. unfold os_path_join. rewrite Ha, Hb.
  destruct dir as [|c dir]; [auto|].
  destruct (String.prefix "/" (String.rev (String c dir))); intros Heq.
  - apply append_inj_l in Heq. exact Heq.
  - apply append_inj_l in Heq. apply (append_inj_l "/") in Heq. exact Heq.
Qed.

Section Outputs.
Context `{Gspread}.

Import DataCollector.

Lemma persist_files (dir ts : string) (st : Locals) :
  (empty (all_data st) = false → "source_link" ∈ columns (all_data st)) →
  let raw := os_path_join dir ("all_tiktok_data_" +:+ ts +:+ ".csv") in
  let summary := os_path_join dir ("processing_summary_" +:+ ts +:+ ".csv") in
  let formatted := os_path_join dir ("formatted_tiktok_data_" +:+ ts +:+ ".csv") in
  let summary_df := DataFrame_of_records (results st) in
  let write_summary (fs : gmap string file) :=
    if empty summary_df then fs else <[summary := CsvFile summary_df]> fs in
  files (world (persist TikTokDataProcessor.impl (CSVDataStorage.impl dir)
                        GoogleSheetsDataStorage.impl ts st).1)
  = if empty (all_data st)
    then write_summary (files (world st))
    else <[formatted := CsvFile (normalize_spec (all_data st))]>
           (write_summary (<[raw := CsvFile (all_data st)]> (files (world st)))).
Proof.
  intros Hsrc raw summary formatted summary_df write_summary.
  unfold persist, bind, when, in_world, ret.
  cbn [ABC.save_data ABC.process_data TikTokDataProcessor.impl CSVDataStorage.impl
       GoogleSheetsDataStorage.impl].
  destruct (empty (all_data st)) eqn:He; cbn [negb].
  - rewrite csv_save_data_run. fold summary summary_df. subst write_summary.
    cbv beta. destruct (empty summary_df); reflexivity.
  - specialize (Hsrc eq_refl). apply has_column_true in Hsrc.
    rewrite (process_data_normalize _ He Hsrc).
    rewrite csv_save_data_run, He. fold raw.
    cbn [fst snd world all_data results files remote trace].
    rewrite csv_save_data_run. fold summary summary_df.
    subst write_summary. cbv beta.
    destruct (empty summary_df);
      cbn [fst snd world all_data results files remote trace];
      rewrite csv_save_data_run, (normalize_spec_not_empty _ He); fold formatted;
      cbn [fst snd world all_data results files remote trace];
      match goal with
      | |- context [GoogleSheetsDataStorage.save_data ?df ?name ?w] =>
          destruct (sheets_save_data_run df name w) as (r' & tr & s & Hrun & _);
          rewrite Hrun
      end; reflexivity.
Qed.

End Outputs.

Lemma output_names_distinct (ts : string) :
  "all_tiktok_data_" +:+ ts +:+ ".csv" ≠ "processing_summary_" +:+ ts +:+ ".csv"
  ∧ "all_tiktok_data_" +:+ ts +:+ ".csv" ≠ "formatted_tiktok_data_" +:+ ts +:+ ".csv"
  ∧ "processing_summary_" +:+ ts +:+ ".csv"
    ≠ "formatted_tiktok_data_" +:+ ts +:+ ".csv".
Proof. repeat split; intros Heq; rewrite !append_cons in Heq; discriminate. Qed.

(** X13. After a run of [collect_data] with the repository's sinks and a
    fetcher that stamps [source_link]: if there was at least one link, the
    summary file holds the outcome list; and if the cumulative table is not
    empty, the raw file holds the cumulative table and the formatted file
    holds its normalization - the three writes go to three different paths
    of the output directory, so none overwrites another, and the
    spreadsheet sink leaves the files alone. *)
Theorem collect_data_output_files
        `{Gspread} `{Os} (data_source : ABC.DataSource) (data_fetcher : ABC.DataFetcher)
        (dir ts : string) (links : list value) (w w0 : World) :
  stamps_source_link data_fetcher →
  ABC.get_links (DataSource := data_source) w = (w0, Ok links) →
  let raw := os_path_join dir ("all_tiktok_data_" +:+ ts +:+ ".csv") in
  let summary := os_path_join dir ("processing_summary_" +:+ ts +:+ ".csv") in
  let formatted := os_path_join dir ("formatted_tiktok_data_" +:+ ts +:+ ".csv") in
  ∃ w' all_data results,
    DataCollector.collect_data data_source data_fetcher TikTokDataProcessor.impl
      (CSVDataStorage.impl dir) GoogleSheetsDataStorage.impl ts w
    = (w', Ok (all_data, results))
    ∧ (links ≠ [] →
       files w' !! summary = Some (CsvFile (DataFrame_of_records results)))
    ∧ (empty all_data = false →
       files w' !! raw = Some (CsvFile all_data)
       ∧ ∃ processed,
           TikTokDataProcessor.process_data all_data = Ok processed
           ∧ files w' !! formatted = Some (CsvFile processed)).
Proof.
  intros Hst Hget raw summary formatted.
  destruct (collect_data_returns data_source data_fetcher dir ts links w w0 Hst Hget)
    as (passes & st & w' & _ & Hl & Hans & _ & Hres & Hall & Hpersist & Hrun).
  assert (Hsrc : empty (DataCollector.all_data st) = false →
                 "source_link" ∈ columns (DataCollector.all_data st)).
  { rewrite Hall. apply (cumulative_spec_source_link data_fetcher); try assumption.
    discriminate. }
  pose proof (persist_files dir ts st Hsrc) as Hfiles. cbv zeta in Hfiles.
  rewrite Hpersist in Hfiles. cbn [fst DataCollector.world] in Hfiles.
  fold raw summary formatted in Hfiles.
  destruct (output_names_distinct ts) as (Hrs & Hrf & Hsf).
  assert (Hrel : ∀ name, String.prefix "/" ("all_tiktok_data_" +:+ name) = false
                         ∧ String.prefix "/" ("processing_summary_" +:+ name) = false
                         ∧ String.prefix "/" ("formatted_tiktok_data_" +:+ name) = false)
    by (intros name; rewrite !append_cons; repeat split; reflexivity).
  destruct (Hrel (ts +:+ ".csv")) as (Hr1 & Hr2 & Hr3).
  assert (Hne1 : raw ≠ summary)
    by (intros Heq; apply os_path_join_inj in Heq; auto).
  assert (Hne2 : raw ≠ formatted)
    by (intros Heq; apply os_path_join_inj in Heq; auto).
  assert (Hne3 : summary ≠ formatted)
    by (intros Heq; apply os_path_join_inj in Heq; auto).
  exists w', (DataCollector.all_data st), (DataCollector.results st).
  split; [exact Hrun|].
  assert (Hsummary : links ≠ [] →
            empty (DataFrame_of_records (DataCollector.results st)) = false).
  { intros Hne. rewrite Hres. destruct passes as [|p passes].
    - cbn in Hl. congruence.
    - apply passes_frame_not_empty. }
  split.
  - intros Hne. rewrite Hfiles, (Hsummary Hne).
    destruct (empty (DataCollector.all_data st)).
    + apply lookup_insert_eq.
    + rewrite lookup_insert_ne by (apply not_eq_sym, Hne3). apply lookup_insert_eq.
  - intros He. rewrite He in Hfiles.
    assert (Hne : links ≠ []).
    { intros ->. destruct passes; [|discriminate]. rewrite Hall in He. discriminate. }
    rewrite (Hsummary Hne) in Hfiles. split.
    + rewrite Hfiles, lookup_insert_ne by (apply not_eq_sym, Hne2).
      rewrite lookup_insert_ne by (apply not_eq_sym, Hne1). apply lookup_insert_eq.
    + exists (normalize_spec (DataCollector.all_data st)). split.
      * apply process_data_normalize; [exact He | apply has_column_true, Hsrc, He].
      * rewrite Hfiles. apply lookup_insert_eq.
Qed.

Lemma collect_data_output_files_witness :
  ∃ w' r,
    DataCollector.collect_data
      (H := Fixtures.online Fixtures.column_k) (H0 := Fixtures.permissive)
      GoogleSheetsDataSource.impl (TikTokDataFetcher.impl (H := Fixtures.scraper))
      TikTokDataProcessor.impl (CSVDataStorage.impl "out")
      GoogleSheetsDataStorage.impl Fixtures.timestamp
      (Fixtures.online_world Fixtures.column_k)
    = (w', Ok r)
    ∧ files w' !! "out/all_tiktok_data_20250415_092751.csv" = Some (CsvFile r.1)
    ∧ files w' !! "out/processing_summary_20250415_092751.csv"
      = Some (CsvFile (DataFrame_of_records r.2)).
Proof.
  assert (Hget : ABC.get_links
                   (DataSource := GoogleSheetsDataSource.impl
                                    (H := Fixtures.online Fixtures.column_k))
                   (Fixtures.online_world Fixtures.column_k)
                 = (Fixtures.online_world Fixtures.column_k,
                    Ok [Fixtures.link_a; Fixtures.link_b; Fixtures.link_c;
                        Fixtures.link_a]))
    by (vm_compute; reflexivity).
  destruct (collect_data_output_files
              (H := Fixtures.online Fixtures.column_k) (H0 := Fixtures.permissive)
              GoogleSheetsDataSource.impl
              (TikTokDataFetcher.impl (H := Fixtures.scraper))
              "out" Fixtures.timestamp _ _ _
              (tiktok_fetcher_stamps (H := Fixtures.scraper)) Hget)
    as (w' & all_data & results & Hrun & Hsum & Hraw).
  exists w', (all_data, results). split; [exact Hrun|].
  assert (He : empty all_data = false)
    by (vm_compute in Hrun; injection Hrun as _ <- _; reflexivity).
  split.
  - apply (Hraw He).
  - apply Hsum. discriminate.
Defined.

(** ** Per-link outcome with the repository's fetcher *)

(** X14. One pass of the loop of [collect_data] with [TikTokDataFetcher], for
    every scraper, operating system, link, position and state.  The pass
    appends a first record: [Success] exactly when the scraper returned, its
    scratch file could be read back and the table read has at least one row;
    in every other case - the scraper raised, the file is missing or
    unreadable, or it has a header but no rows - [Failed] with
    ["Empty data returned"].  Then the scratch file, if it is there, is
    removed; when the operating system refuses, the file stays and the pass
    appends a second record for the same link, [Failed] with the message of
    the refusal, also after a [Success] record. *)
Theorem repository_link_is_recorded_once_or_twice
        `{Gspread} `{Pyktok} `{Os} (n i : nat) (link : value)
        (st : DataCollector.Locals) :
  let path := DataCollector.temp_filename i in
  let fs0 := files (DataCollector.world st) in
  let fs1 := (save_tiktok link true path fs0).1 in
  let err :=
    match (save_tiktok link true path fs0).2, read_csv path fs1 with
    | Ok _, Ok data =>
        match rows data with
        | [] => Some "Empty data returned"
        | _ => None
        end
    | _, _ => Some "Empty data returned"
    end in
  let refused :=
    match fs1 !! path with
    | Some _ => remove_refused path fs1
    | None => None
    end in
  let st' := (DataCollector.loop_body TikTokDataFetcher.impl n i link st).1 in
  DataCollector.results st'
  = DataCollector.results st
    ++ outcome_record i link err
       :: match refused with
          | Some e => [outcome_record i link (Some e)]
          | None => []
          end
  ∧ files (DataCollector.world st')
    = match refused with
      | Some _ => fs1
      | None => delete path fs1
      end.
Proof.
  intros path fs0 fs1 err refused st'. subst st'. rewrite loop_body_run.
  cbn [fst DataCollector.results DataCollector.world files].
  subst err refused fs1 fs0. unfold pass_records, outcome_spec, cleanup_error.
  fold path.
  cbn [ABC.fetch_data TikTokDataFetcher.impl].
  unfold TikTokDataFetcher.fetch_data, try_except, bind, ret.
  destruct (save_tiktok link true path (files (DataCollector.world st)))
    as [fs1 [[]|e]]; cbn [fst snd].
  - destruct (read_csv path fs1) as [data|e]; cbn [fst snd error_of].
    + assert (He : empty (setitem_scalar data "source_link" link)
                   = match rows data with [] => true | _ => false end).
      { unfold empty. cbn [setitem_scalar columns rows].
        pose proof (add_column_not_nil "source_link" (columns data)) as Hc.
        destruct (add_column "source_link" (columns data)); [congruence|].
        destruct (rows data); reflexivity. }
      rewrite He.
      destruct (fs1 !! path) eqn:Hf; [destruct (remove_refused path fs1)|];
        destruct (rows data); split; try reflexivity;
        symmetry; apply delete_id; exact Hf.
    + cbn [empty DataFrame_new columns].
      destruct (fs1 !! path) eqn:Hf; [destruct (remove_refused path fs1)|];
        split; try reflexivity; symmetry; apply delete_id; exact Hf.
  - cbn [error_of empty DataFrame_new columns].
    destruct (fs1 !! path) eqn:Hf; [destruct (remove_refused path fs1)|];
      split; try reflexivity; symmetry; apply delete_id; exact Hf.
Qed.

(** ** More on the normalizer *)

(** X15. [process_data] chooses the source column of a field once for the
    whole table, not row by row: in a table that has a [video_playcount]
    column, a row with no value there gets [NaN] as its view count, even if
    the row has a value under [stats_playCount] or [play_count]. *)
Theorem process_data_has_no_row_fallback (df : DataFrame) (i : nat) (r : dict) :
  empty df = false → "source_link" ∈ columns df →
  has_column "video_playcount" df = true →
  rows df !! i = Some r → dict_get "video_playcount" r = None →
  ∃ out, TikTokDataProcessor.process_data df = Ok out
         ∧ series out TikTokDataProcessor.view_column !! i = Some NaN.
Proof.
  intros He Hs Hv Hr Hnone. apply has_column_true in Hs.
  exists (normalize_spec df). split; [apply process_data_normalize; assumption|].
  rewrite (normalize_spec_series df TikTokDataProcessor.view_column
             (resolve_spec view_candidates (VInt 0) df) He)
    by (intros; reflexivity).
  rewrite list_lookup_fmap, Hr. cbn [fmap option_fmap option_map]. f_equal.
  unfold view_candidates. rewrite resolve_spec_first by exact Hv.
  unfold cell. rewrite Hnone. reflexivity.
Qed.

Lemma process_data_has_no_row_fallback_witness :
  let old_shape := mkDF ["stats_playCount"; "source_link"]
                        [[("stats_playCount", VInt 999); ("source_link", Fixtures.link_a)]] in
  let new_shape := mkDF ["video_playcount"; "source_link"]
                        [[("video_playcount", VInt 58); ("source_link", Fixtures.link_c)]] in
  ∃ out, TikTokDataProcessor.process_data (concat old_shape new_shape) = Ok out
         ∧ series out TikTokDataProcessor.view_column !! 0 = Some NaN.
Proof.
  intros old_shape new_shape.
  apply (process_data_has_no_row_fallback (concat old_shape new_shape) 0
           [("stats_playCount", VInt 999); ("source_link", Fixtures.link_a)]).
  - reflexivity.
  - apply has_column_true. reflexivity.
  - reflexivity.
  - reflexivity.
  - reflexivity.
Defined.

(** X16. On a non-empty table with a [source_link] column, the table
    [process_data] returns has exactly the five output columns, in the order
    [STT], [Link Video], view count, author, follower count, whatever the
    columns of the input were, and it is not empty.  It has no
    [source_link] column, so [process_data] cannot be applied to its own
    output: that raises [KeyError] for ['source_link']. *)
Theorem process_data_output_schema (df : DataFrame) :
  empty df = false → "source_link" ∈ columns df →
  ∃ out, TikTokDataProcessor.process_data df = Ok out
         ∧ columns out = normalized_columns
         ∧ empty out = false
         ∧ TikTokDataProcessor.process_data out = Raise "'source_link'".
Proof.
  intros He Hs. apply has_column_true in Hs.
  exists (normalize_spec df). split; [apply process_data_normalize; assumption|].
  assert (Hcols : columns (normalize_spec df) = normalized_columns)
    by (unfold normalize_spec; rewrite He; reflexivity).
  split; [exact Hcols|].
  split; [apply normalize_spec_not_empty, He|].
  apply process_data_requires_source_link; [apply normalize_spec_not_empty, He|].
  unfold has_column. rewrite Hcols. reflexivity.
Qed.

Lemma process_data_output_schema_witness :
  ∃ out, TikTokDataProcessor.process_data Fixtures.raw_table = Ok out
         ∧ columns out = ["STT"; "Link Video"; TikTokDataProcessor.view_column;
                          TikTokDataProcessor.author_column;
                          TikTokDataProcessor.follower_column]
         ∧ TikTokDataProcessor.process_data out = Raise "'source_link'".
Proof.
  destruct (process_data_output_schema Fixtures.raw_table)
    as (out & Hrun & Hcols & _ & Hagain).
  - reflexivity.
  - apply has_column_true. reflexivity.
  - exists out. repeat split; assumption.
Defined.

(** ** The script's [main] *)

(** X17. With [os.makedirs] taken to succeed, [main] of the script raises
    when connecting to the spreadsheet service or reading the column of links
    raises, and also when a cell of that column is not a string; in each case
    nothing has been fetched or written.  Otherwise it runs to its end,
    reports [k] successes out of [N] links with [k] at most [N], and has not
    called the spreadsheet service again after reading the links: the script
    uploads nothing. *)
Theorem script_main_fails_before_the_loop_or_not_at_all
        `{Gspread} `{Pyktok} `{Os} (ts : string) (w : World) :
  match gs_authorize (remote w) with
  | (r1, Raise e) =>
      ScriptRest.main ts w = (mkWorld (files w) r1 (trace w ++ [EvAuthorize]), Raise e)
  | (r1, Ok _) =>
      match gs_col_values sheet_title sheet_tab 11 r1 with
      | (r2, Raise e) =>
          ScriptRest.main ts w
          = (mkWorld (files w) r2 (trace w ++ [EvAuthorize]), Raise e)
      | (r2, Ok column) =>
          if forallb is_str column
          then
            let N := length (GoogleSheetsDataSource.tiktok_links column) in
            ∃ w' k,
              ScriptRest.main ts w
              = (w', Ok ("Processing complete. Successfully processed "
                         +:+ pystr_nat k +:+ " out of " +:+ pystr_nat N +:+ " links."))
              ∧ (k <= N)%nat
              ∧ remote w' = r2
          else
            ∃ e, ScriptRest.main ts w
                 = (mkWorld (files w) r2 (trace w ++ [EvAuthorize]), Raise e)
      end
  end.
Proof.
  pose proof (connect_run w) as Hc.
  destruct (gs_authorize (remote w)) as [r1 [[]|e]]; cbn [fst snd] in Hc.
  2:{ unfold ScriptRest.main, bind at 1, Script.get_tiktok_links, bind at 1.
      rewrite Hc. reflexivity. }
  destruct (gs_col_values sheet_title sheet_tab 11 r1) as [r2 [column|e]] eqn:Hcol;
    unfold sheet_title, sheet_tab in Hcol.
  2:{ unfold ScriptRest.main, bind at 1, Script.get_tiktok_links, bind at 1.
      rewrite Hc. unfold bind at 1, GspreadClient.col_values, on_remote.
      cbn [files remote trace]. rewrite Hcol. reflexivity. }
  assert (Hget : Script.get_tiktok_links w
                 = (mkWorld (files w) r2 (trace w ++ [EvAuthorize]),
                    Script.tiktok_links column)).
  { unfold Script.get_tiktok_links. unfold bind at 1. rewrite Hc.
    unfold bind, GspreadClient.col_values, on_remote. cbn [files remote trace].
    rewrite Hcol. destruct (Script.tiktok_links column); reflexivity. }
  destruct (forallb is_str column) eqn:Hstr.
  - rewrite (script_tiktok_links_strings column Hstr) in Hget.
    destruct (process_tiktok_links_run ts (GoogleSheetsDataSource.tiktok_links column)
                (mkWorld (files w) r2 (trace w ++ [EvAuthorize])))
      as (w' & l & Hrun & Hl & Hres & _ & _ & _ & _ & Hrem & _).
    cbv zeta. unfold ScriptRest.main, bind. rewrite Hget, Hrun. cbn [fst snd].
    rewrite Hres, success_count_records. unfold ret.
    eexists w', _. split; [reflexivity|]. split; [|exact Hrem].
    etransitivity; [apply filter_length_le|].
    rewrite <- Hl, length_fmap. reflexivity.
  - destruct (script_tiktok_links_non_string column Hstr) as [e He].
    exists e. unfold ScriptRest.main, bind at 1. rewrite Hget, He. reflexivity.
Qed.
